(** * Simple Banking System: card numbers, the Luhn checksum and transfers

    A shallow embedding of [task/banking/banking.py]: the static methods of
    [Card] that build and check card numbers, the statements [Card] sends
    to the [card] table, and the commands of [SimpleBankingSystem].

    Conventions of the embedding.
    - A Python [str] is a [string]; its characters are code points below
      256, among which [int] accepts exactly ['0'] .. ['9']. Strings with
      characters from U+0100 on, some of which [int] reads as decimal
      digits too, are not modelled.
    - A Python [int] is a [Z]. The [balance] column is a 64-bit signed
      INTEGER: an integer outside that range cannot be bound to a statement
      ([OverflowError]), and a sum that leaves the range is stored as a
      REAL. Floating-point balances are not modelled: a run that makes one
      ends with the result [Beyond].
    - An exception is a value of [exn]; code that can raise returns a
      [result], and code that also touches the table or the session runs
      in the monad [M], whose state survives a raise as it does in Python.
    - [randint] is a choice made by the environment: a function that draws
      takes the drawn value as an argument, and [randint_outcome] says
      which values can be drawn.
    - [input] is likewise an argument: [__do_transfer] receives the text
      typed for the card number, and [__do_transfer] and [__add_income]
      receive the line typed for the amount, which [int] turns into an
      integer or rejects with [ValueError] ([Py.line]). *)

From Stdlib Require Import ZArith Lia Ascii String.
From stdpp Require Import base numbers list strings.

Local Open Scope string_scope.
Local Open Scope list_scope.
Local Open Scope Z_scope.

(** ** Exceptions and results *)

Inductive exn : Type :=
| ValueError
| IndexError
| TypeError
| AttributeError
| OverflowError
| TransactionError (msg : string).

(** [Beyond]: the program goes on, but with a floating-point balance, which
    is outside what is modelled. *)
Inductive result (A : Type) : Type :=
| Ok (a : A)
| Raise (e : exn)
| Beyond.

Arguments Ok {A} a.
Arguments Raise {A} e.
Arguments Beyond {A}.

Definition rbind {A B : Type} (r : result A) (k : A -> result B) : result B :=
  match r with
  | Ok a => k a
  | Raise e => Raise e
  | Beyond => Beyond
  end.

Declare Scope result_scope.
Delimit Scope result_scope with result.
Notation "x <- c ;; k" := (rbind c (fun x => k))
  (at level 100, c at next level, right associativity) : result_scope.

(** ** State and exceptions together

    [M St A]: a computation on a state [St] that returns an [A] or raises.
    The state reached when an exception is raised is kept. *)

Definition M (St A : Type) : Type := St -> result A * St.

Definition ret {St A : Type} (a : A) : M St A := fun s => (Ok a, s).

Definition raise {St A : Type} (e : exn) : M St A := fun s => (Raise e, s).

Definition bind {St A B : Type} (m : M St A) (k : A -> M St B) : M St B :=
  fun s =>
    match m s with
    | (Ok a, s') => k a s'
    | (Raise e, s') => (Raise e, s')
    | (Beyond, s') => (Beyond, s')
    end.

Definition gets {St A : Type} (f : St -> A) : M St A := fun s => (Ok (f s), s).

Definition modify {St : Type} (f : St -> St) : M St unit := fun s => (Ok tt, f s).

Definition of_result {St A : Type} (r : result A) : M St A := fun s => (r, s).

(** [try: body except TransactionError as e: handler(e)]. *)
Definition try_except_TransactionError {St : Type}
    (body : M St unit) (handler : string -> M St unit) : M St unit :=
  fun s =>
    match body s with
    | (Raise (TransactionError msg), s') => handler msg s'
    | other => other
    end.

Declare Scope state_scope.
Delimit Scope state_scope with state.
Notation "x <- c ;; k" := (bind c (fun x => k)) : state_scope.

(** ** Python built-ins used by the program *)

Module Py.

(** [len] of a list and of a [str]. *)
Definition len {A : Type} (l : list A) : Z := Z.of_nat (List.length l).
Definition slen (s : string) : Z := Z.of_nat (String.length s).

(** [l[i]]: a negative index counts from the end; out of range raises. *)
Definition getitem {A : Type} (l : list A) (i : Z) : result A :=
  let j := if i <? 0 then i + len l else i in
  if (j <? 0) || (len l <=? j) then Raise IndexError
  else match l !! Z.to_nat j with
       | Some a => Ok a
       | None => Raise IndexError
       end.

(** [l[i] = v]: as [getitem] for the index; the list is updated in place. *)
Definition setitem {A : Type} (l : list A) (i : Z) (v : A) : result (list A) :=
  let j := if i <? 0 then i + len l else i in
  if (j <? 0) || (len l <=? j) then Raise IndexError
  else Ok (<[Z.to_nat j := v]> l).

(** [range(start, stop, step)] for a non-zero step, as the list of its
    elements ([step = 0] raises in Python and is not used). *)
Definition range_len (start stop step : Z) : Z :=
  if 0 <? step then
    (if start <? stop then (stop - start - 1) / step + 1 else 0)
  else if step <? 0 then
    (if stop <? start then (start - stop - 1) / (- step) + 1 else 0)
  else 0.

Definition range (start stop step : Z) : list Z :=
  map (fun k => start + Z.of_nat k * step)
      (seq 0 (Z.to_nat (range_len start stop step))).

(** [sum] of a list of integers. *)
Definition sum (l : list Z) : Z := fold_left Z.add l 0.

(** [int(c)] for a one-character string [c] whose code point is below
    256. *)
Definition is_digit (c : ascii) : bool :=
  (48 <=? nat_of_ascii c)%nat && (nat_of_ascii c <=? 57)%nat.

Definition int_of_char (c : ascii) : result Z :=
  if is_digit c then Ok (Z.of_nat (nat_of_ascii c) - 48) else Raise ValueError.

(** [[int(digit) for digit in s]]. *)
Fixpoint ints_of_string (s : string) : result (list Z) :=
  match s with
  | EmptyString => Ok []
  | String c s' =>
      (d <- int_of_char c ;;
       ds <- ints_of_string s' ;;
       Ok (d :: ds))%result
  end.

(** [str(n)]: the decimal numeral of [n]. The digits are produced least
    significant first; [S (log2 n)] rounds are always enough. *)
Definition digit_char (d : Z) : ascii := ascii_of_nat (48 + Z.to_nat d).

Fixpoint str_digits (fuel : nat) (n : Z) : string :=
  match fuel with
  | O => EmptyString
  | S f =>
      if n <? 10 then String (digit_char n) EmptyString
      else str_digits f (n / 10) +:+ String (digit_char (n mod 10)) EmptyString
  end.

Definition str_nonneg (n : Z) : string :=
  str_digits (S (Z.to_nat (Z.log2 n))) n.

Definition str (n : Z) : string :=
  if n <? 0 then String "-"%char (str_nonneg (- n)) else str_nonneg n.

(** [f'{n:0wd}']: the numeral padded with zeros, after the sign, to
    width [w]. *)
Fixpoint zeros (k : nat) : string :=
  match k with
  | O => EmptyString
  | S k' => String "0"%char (zeros k')
  end.

Definition pad0 (w : nat) (s : string) : string :=
  zeros (w - String.length s) +:+ s.

Definition format_0d (w : nat) (n : Z) : string :=
  if n <? 0 then String "-"%char (pad0 (w - 1) (str_nonneg (- n)))
  else pad0 w (str_nonneg n).

(** [s[:stop]] and [s[i]] on a [str]. *)
Definition slice_to (s : string) (stop : Z) : string :=
  let e := if stop <? 0 then Z.max (stop + slen s) 0 else Z.min stop (slen s) in
  substring 0 (Z.to_nat e) s.

Definition sgetitem (s : string) (i : Z) : result string :=
  let j := if i <? 0 then i + slen s else i in
  if (j <? 0) || (slen s <=? j) then Raise IndexError
  else match get (Z.to_nat j) s with
       | Some c => Ok (String c EmptyString)
       | None => Raise IndexError
       end.

(** [randint(a, b)] returns some [r] with [a <= r <= b]. *)
Definition randint_outcome (a b r : Z) : Prop := a <= r <= b.

(** A line typed at a prompt whose answer goes through [int]: the literal
    of an integer, or anything else, which [int] rejects. *)
Inductive line : Type :=
| IntLine (z : Z)
| OtherLine.

(** [int(input(...))] on such a line. *)
Definition int_of_line (l : line) : result Z :=
  match l with
  | IntLine z => Ok z
  | OtherLine => Raise ValueError
  end.

End Py.

(** An integer stands for the line that spells it. *)
Coercion Py.IntLine : Z >-> Py.line.

(** ** The [card] table

    [CREATE TABLE card (id INTEGER PRIMARY KEY, number TEXT, pin TEXT,
    balance INTEGER DEFAULT 0)]: rows in the order of their [id], which is
    the order in which a scan returns them. *)

Module Db.

Record row : Type := mkRow {
  id : Z;
  number : string;
  pin : string;
  balance : Z
}.

(** A new row gets an [id] one above the largest in use, 1 in an empty
    table. *)
Definition next_id (t : list row) : Z := foldr Z.max 0 (map id t) + 1.

(** [INSERT INTO card (number, pin, balance) VALUES (?, ?, ?)]. *)
Definition insert (t : list row) (n p : string) (b : Z) : list row :=
  t ++ [mkRow (next_id t) n p b].

(** [SELECT number, pin, balance FROM card WHERE number = ? AND pin = ?]
    followed by [fetchone]. *)
Definition select_by_number_pin (t : list row) (n p : string)
  : option (string * string * Z) :=
  match List.filter (fun r => bool_decide (number r = n) && bool_decide (pin r = p)) t with
  | r :: _ => Some (number r, pin r, balance r)
  | [] => None
  end.

(** [SELECT number, pin, balance FROM card WHERE number = ?] followed by
    [fetchone]. *)
Definition select_by_number (t : list row) (n : string)
  : option (string * string * Z) :=
  match List.filter (fun r => bool_decide (number r = n)) t with
  | r :: _ => Some (number r, pin r, balance r)
  | [] => None
  end.

(** The values of a 64-bit signed INTEGER. A Python [int] is bound to a
    statement only if it is one of them. *)
Definition int64 (z : Z) : bool := (- 2 ^ 63 <=? z) && (z <=? 2 ^ 63 - 1).

(** [balance + ?] stays an INTEGER in every row with the number [n]: no sum
    leaves the 64-bit range. *)
Definition fits (t : list row) (money : Z) (n : string) : bool :=
  forallb (fun r => if bool_decide (number r = n) then int64 (balance r + money)
                    else true) t.

(** [UPDATE card SET balance = balance + ? WHERE number = ?], for a table
    and an amount that [fits]: the sums are exact. (Where a sum leaves the
    range SQLite stores a REAL; [Card.update_balance] stops there.) *)
Definition add_to_balance (r : row) (money : Z) : row :=
  mkRow (id r) (number r) (pin r) (balance r + money).

Definition update_balance (t : list row) (money : Z) (n : string) : list row :=
  map (fun r => if bool_decide (number r = n) then add_to_balance r money else r) t.

(** [SELECT balance FROM card WHERE number = ?] followed by [fetchone]. *)
Definition select_balance (t : list row) (n : string) : option Z :=
  match List.filter (fun r => bool_decide (number r = n)) t with
  | r :: _ => Some (balance r)
  | [] => None
  end.

(** [DELETE FROM card WHERE number = ?]. *)
Definition delete (t : list row) (n : string) : list row :=
  List.filter (fun r => negb (bool_decide (number r = n))) t.

End Db.

(** What the methods of [Card] can reach: the table behind [cursor] and the
    lines printed so far. *)
Record world : Type := mkWorld {
  table : list Db.row;
  stdout : list string
}.

Definition print (line : string) : M world unit :=
  modify (fun w => mkWorld (table w) (stdout w ++ [line])).

(** ** The class [Card] *)

Module Card.

Record t : Type := mk {
  number : string;
  code : string;
  balance : Z
}.

(** One round of the loop of [calculate_luhn_checksum]:
    [digits[i] = digits[i] * 2], then [digits[i] -= 9] when it exceeds 9. *)
Definition luhn_step (digits : list Z) (i : Z) : result (list Z) :=
  (d <- Py.getitem digits i ;;
   digits1 <- Py.setitem digits i (d * 2) ;;
   d1 <- Py.getitem digits1 i ;;
   if 9 <? d1 then
     (d2 <- Py.getitem digits1 i ;; Py.setitem digits1 i (d2 - 9))
   else Ok digits1)%result.

Fixpoint luhn_loop (digits : list Z) (idx : list Z) : result (list Z) :=
  match idx with
  | [] => Ok digits
  | i :: idx' => (digits' <- luhn_step digits i ;; luhn_loop digits' idx')%result
  end.

Definition calculate_luhn_checksum (account_number : string) : result Z :=
  (digits <- Py.ints_of_string account_number ;;
   digits' <- luhn_loop digits (Py.range (Py.len digits - 1) (-1) (-2)) ;;
   let total_sum := Py.sum digits' in
   let checksum := (10 - total_sum mod 10) mod 10 in
   Ok checksum)%result.

Definition is_valid_card_number (number : string) : result bool :=
  (let card_number_without_checksum := Py.slice_to number (-1) in
   checksum <- calculate_luhn_checksum card_number_without_checksum ;;
   last <- Py.sgetitem number (-1) ;;
   Ok (bool_decide (Py.str checksum = last)))%result.

(** [__create_card], given the value [r] drawn by [randint(1, 999999999)]. *)
Definition inn : string := "400000".

Definition create_card (r : Z) : result string :=
  (let account_number := inn +:+ Py.format_0d 9 r in
   checksum <- calculate_luhn_checksum account_number ;;
   Ok (account_number +:+ Py.str checksum))%result.

(** [__create_code], given the value [p] drawn by [randint(1, 9999)]. *)
Definition create_code (p : Z) : string := Py.format_0d 4 p.

(** [__save_to_db]: one [INSERT], committed at once. *)
Definition save_to_db (self : t) : M world unit :=
  modify (fun w =>
    mkWorld (Db.insert (table w) (number self) (code self) (balance self))
            (stdout w)).

(** [__init__] has two branches. Called without [card] or [code] it
    generates both, [r] and [p] being the values drawn by the two calls
    of [randint], and saves the new card. *)
Definition init_new (balance : Z) (r p : Z) : M world t :=
  (number <- of_result (create_card r) ;;
   let code := create_code p in
   let self := mk number code balance in
   _ <- save_to_db self ;;
   ret self)%state.

(** Called with both, it only fills the fields. *)
Definition init_with (card code : string) (balance : Z) : M world t :=
  ret (mk card code balance).

(** [if code:] holds for a string that is not empty. *)
Definition truthy (code : option string) : bool :=
  match code with
  | Some c => negb (bool_decide (c = EmptyString))
  | None => false
  end.

Definition check_card (number : string) (code : option string)
  : M world (option t) :=
  (result <- gets (fun w =>
               match code with
               | Some c =>
                   if truthy code then Db.select_by_number_pin (table w) number c
                   else Db.select_by_number (table w) number
               | None => Db.select_by_number (table w) number
               end) ;;
   match result with
   | Some (n, p, b) => (self <- init_with n p b ;; ret (Some self))
   | None => ret None
   end)%state.

(** The line printed by [update_balance]: [self.number] is a [str]. *)
Definition updating_line : string :=
  "Updating balance for card number: <class 'str'>".

(** [execute] binds [money] first: outside 64 bits it raises
    [OverflowError] and nothing is updated. A sum that leaves the range
    becomes a REAL, and the run is not followed further ([Beyond]). *)
Definition update_balance (self : t) (money : Z) : M world t :=
  (_ <- print updating_line ;;
   _ <- (if Db.int64 money then ret tt else raise OverflowError) ;;
   fit <- gets (fun w => Db.fits (table w) money (number self)) ;;
   _ <- (if fit : bool then ret tt else of_result Beyond) ;;
   _ <- modify (fun w =>
          mkWorld (Db.update_balance (table w) money (number self)) (stdout w)) ;;
   result <- gets (fun w => Db.select_balance (table w) (number self)) ;;
   match result with
   | Some b => ret (mk (number self) (code self) b)
   | None => raise TypeError
   end)%state.

Definition delete_card (self : t) : M world unit :=
  modify (fun w => mkWorld (Db.delete (table w) (number self)) (stdout w)).

End Card.

(** ** The commands of [SimpleBankingSystem] *)

Module SimpleBankingSystem.

Record t : Type := mk {
  world_of : world;
  card : option Card.t;
  running : bool
}.

(** A method of [Card] run from the application. *)
Definition lift {A : Type} (m : M world A) : M t A :=
  fun s => let (r, w) := m (world_of s) in (r, mk w (card s) (running s)).

Definition set_card (c : option Card.t) : M t unit :=
  modify (fun s => mk (world_of s) c (running s)).

(** Reading an attribute of [self.card]: [None] has none. *)
Definition self_card : M t Card.t :=
  fun s =>
    match card s with
    | Some c => (Ok c, s)
    | None => (Raise AttributeError, s)
    end.

Definition nl : string := String (ascii_of_nat 10) EmptyString.

(** The table and the printed lines of an application state, and the
    state after further lines were printed. *)
Definition tbl (s : t) : list Db.row := table (world_of s).
Definition out (s : t) : list string := stdout (world_of s).
Definition printed (s : t) (lines : list string) : t :=
  mk (mkWorld (tbl s) (out s ++ lines)) (card s) (running s).

Definition msg_same_account : string :=
  "You can't transfer money to the same account!".
Definition msg_mistake : string :=
  "Probably you made a mistake in the card number. Please try again!".
Definition msg_no_such_card : string := "Such a card does not exist.".
Definition msg_not_enough : string := "Not enough money!".

Definition msg_logged_in : string := "You have successfully logged in!" +:+ nl.
Definition msg_logged_out : string := "You have successfully logged out!" +:+ nl.

Definition exit_program : M t unit :=
  (_ <- modify (fun s => mk (world_of s) (card s) false) ;;
   lift (print "Bye!"))%state.

(** [r] and [p] are the draws of the new card's number and PIN. *)
Definition create_account (r p : Z) : M t unit :=
  (user <- lift (Card.init_new 0 r p) ;;
   lift (print ("Your card has been created" +:+ nl
                +:+ "Your card number:" +:+ nl
                +:+ Card.number user +:+ nl
                +:+ "Your card PIN:" +:+ nl
                +:+ Card.code user)))%state.

Definition login (card code : string) : M t unit :=
  (c <- lift (Card.check_card card (Some code)) ;;
   _ <- set_card c ;;
   match c with
   | Some _ => lift (print msg_logged_in)
   | None => lift (print ("Wrong card number or PIN!" +:+ nl))
   end)%state.

Definition logout : M t unit :=
  (_ <- set_card None ;;
   lift (print msg_logged_out))%state.

Definition balance : M t unit :=
  (c <- self_card ;; lift (print (Py.str (Card.balance c))))%state.

(** [income] is the line typed for the income. *)
Definition add_income (income : Py.line) : M t unit :=
  (income <- of_result (Py.int_of_line income) ;;
   c <- self_card ;;
   c' <- lift (Card.update_balance c income) ;;
   _ <- set_card (Some c') ;;
   lift (print "Income was added!"))%state.

(** The body of the [try] of [__do_transfer]: [number] is the line typed
    for the card number, [transfer_money] the line typed for the amount,
    read and turned into an integer once the number has passed the
    checks. *)
Definition transfer_try (number : string) (transfer_money : Py.line) : M t unit :=
  (c <- self_card ;;
   _ <- (if bool_decide (number = Card.number c) then
           raise (TransactionError msg_same_account)
         else
           (valid <- of_result (Card.is_valid_card_number number) ;;
            if negb valid then raise (TransactionError msg_mistake)
            else ret tt)) ;;
   transfer_card <- lift (Card.check_card number None) ;;
   match transfer_card with
   | None => raise (TransactionError msg_no_such_card)
   | Some tc =>
       transfer_money <- of_result (Py.int_of_line transfer_money) ;;
       c <- self_card ;;
       if transfer_money >? Card.balance c then
         raise (TransactionError msg_not_enough)
       else
         (c' <- lift (Card.update_balance c (transfer_money * -1)) ;;
          _ <- set_card (Some c') ;;
          _ <- lift (Card.update_balance tc transfer_money) ;;
          ret tt)
   end)%state.

Definition do_transfer (number : string) (transfer_money : Py.line) : M t unit :=
  (_ <- lift (print "Transfer") ;;
   try_except_TransactionError
     (transfer_try number transfer_money)
     (fun msg => lift (print msg)))%state.

Definition close_account : M t unit :=
  (c <- self_card ;;
   _ <- lift (Card.delete_card c) ;;
   set_card None)%state.

(** One round of [start]: the entry chosen in the menu, with what it
    reads and draws. *)
Inductive command : Type :=
| CreateAccount (r p : Z)
| Login (card code : string)
| Balance
| AddIncome (income : Py.line)
| DoTransfer (number : string) (transfer_money : Py.line)
| CloseAccount
| Logout
| Exit.

(** The menu offered depends on whether a card is logged in. *)
Definition in_menu (c : command) (s : t) : bool :=
  match card s, c with
  | None, (CreateAccount _ _ | Login _ _ | Exit) => true
  | Some _, (Balance | AddIncome _ | DoTransfer _ _ | CloseAccount | Logout | Exit) => true
  | _, _ => false
  end.

(** The draws of [randint(1, 999999999)] and [randint(1, 9999)]. *)
Definition draws_ok (c : command) : Prop :=
  match c with
  | CreateAccount r p =>
      Py.randint_outcome 1 999999999 r /\ Py.randint_outcome 1 9999 p
  | _ => True
  end.

Definition run (c : command) : M t unit :=
  match c with
  | CreateAccount r p => create_account r p
  | Login card code => login card code
  | Balance => balance
  | AddIncome income => add_income income
  | DoTransfer number transfer_money => do_transfer number transfer_money
  | CloseAccount => close_account
  | Logout => logout
  | Exit => exit_program
  end.

(** Several rounds in a row, as long as none raised: the state they
    leave. *)
Definition runs (cs : list command) (s : t) : t :=
  foldl (fun s c => snd (run c s)) s cs.

(** [main] on a new database file: an empty table, nobody logged in. *)
Definition initial : t := mk (mkWorld [] []) None true.

(** Two cards are opened, the first logs in, receives 100 and sends 40 to
    the second. *)
Definition card_a : string := "4000000000000010".
Definition card_b : string := "4000000000000028".

Definition scenario : t :=
  runs [CreateAccount 1 1; CreateAccount 2 22; Login card_a "0001";
        AddIncome 100; DoTransfer card_b 40] initial.

(** The second card is overdrawn by a negative income before the first
    receives 100. *)
Definition scenario_overdrawn : t :=
  runs [CreateAccount 1 1; CreateAccount 2 22; Login card_b "0022";
        AddIncome (-50); Logout; Login card_a "0001"; AddIncome 100] initial.

(** The card that [run] would store for a draw is not in the table yet. *)
Definition draws_fresh (c : command) (s : t) : Prop :=
  match c with
  | CreateAccount r _ =>
      forall n, Card.create_card r = Ok n ->
                Db.select_by_number (table (world_of s)) n = None
  | _ => True
  end.

(** States left by the rounds of [start], whether the command returned
    or raised. With [fresh], every new card number was unused. *)
Inductive reachable (fresh : bool) : t -> Prop :=
| reachable_initial : reachable fresh initial
| reachable_run (s : t) (c : command) :
    reachable fresh s ->
    running s = true ->
    in_menu c s = true ->
    draws_ok c ->
    (fresh = true -> draws_fresh c s) ->
    reachable fresh (snd (run c s)).

End SimpleBankingSystem.

(** ** The Luhn check digit, as the specification words it

    Walking from the rightmost digit to the left, every second digit,
    the rightmost one first, is doubled; a doubled digit above 9 loses 9;
    the digits are summed; the check digit is [(10 - sum mod 10) mod 10]. *)

Module LuhnSpec.

Definition double (d : Z) : Z := if 9 <? d * 2 then d * 2 - 9 else d * 2.

(** [sum_from_right ds b]: [ds] is read right to left (its head is the
    rightmost digit); [b] tells whether the head is doubled. *)
Fixpoint sum_from_right (ds : list Z) (b : bool) : Z :=
  match ds with
  | [] => 0
  | d :: rest => (if b then double d else d) + sum_from_right rest (negb b)
  end.

Definition check_digit (digits : list Z) : Z :=
  (10 - sum_from_right (rev digits) true mod 10) mod 10.

(** The same walk, keeping the digits: what the list looks like after
    the doubling pass. *)
Fixpoint pass_from_right (ds : list Z) (b : bool) : list Z :=
  match ds with
  | [] => []
  | d :: rest => (if b then double d else d) :: pass_from_right rest (negb b)
  end.

End LuhnSpec.

(** ** Auxiliary definitions for the proofs *)

(** The indices [n-1, n-3, ...] visited by the loop, counted in [nat]. *)
Fixpoint down2 (n : nat) : list nat :=
  match n with
  | O => []
  | S O => [O]
  | S (S m as p) => p :: down2 m
  end.

(** The loop as a fold of in-place updates. *)
Definition double_at (ds : list Z) (i : nat) : list Z :=
  alter LuhnSpec.double i ds.

Fixpoint all_digits (s : string) : bool :=
  match s with
  | EmptyString => true
  | String c s' => Py.is_digit c && all_digits s'
  end.

Definition is_decimal (d : Z) : Prop := 0 <= d <= 9.

(** A sequence of decimal digits written as a string, one character per
    digit. *)
Definition decimal_char (d : Z) : ascii :=
  match d with
  | 0 => "0" | 1 => "1" | 2 => "2" | 3 => "3" | 4 => "4"
  | 5 => "5" | 6 => "6" | 7 => "7" | 8 => "8" | _ => "9"
  end%char.

Fixpoint string_of_digits (ds : list Z) : string :=
  match ds with
  | [] => EmptyString
  | d :: rest => String (decimal_char d) (string_of_digits rest)
  end.

(** The numbers stored in [t'] are among those stored in [t], in the same
    order and as many times at most. *)
Definition fewer_numbers (t t' : list Db.row) : Prop :=
  sublist (map Db.number t') (map Db.number t).

(** A computation that stores no new number, as seen through [proj]. *)
Definition preserves {St A : Type} (proj : St -> list Db.row) (m : M St A) : Prop :=
  forall s, fewer_numbers (proj s) (proj (snd (m s))).

(** The money held by all the cards of a table. *)
Definition total_balance (t : list Db.row) : Z := Py.sum (map Db.balance t).

(** Every balance stored is an INTEGER of the table: a signed 64-bit
    number. *)
Definition all_integer (t : list Db.row) : bool :=
  forallb (fun r => Db.int64 (Db.balance r)) t.

(** The card in memory is stored, with the PIN and the balance it has in
    memory. *)
Definition session_stored (s : SimpleBankingSystem.t) : Prop :=
  forall c, SimpleBankingSystem.card s = Some c ->
            Db.select_by_number (SimpleBankingSystem.tbl s) (Card.number c)
            = Some (Card.number c, Card.code c, Card.balance c).

(** The number a string of decimal digits denotes. *)
Fixpoint value_acc (s : string) (a : Z) : Z :=
  match s with
  | EmptyString => a
  | String c s' => value_acc s' (10 * a + (Z.of_nat (nat_of_ascii c) - 48))
  end.

Definition digits_value (s : string) : Z := value_acc s 0.

(** ** Facts about the built-ins *)

Section PyFacts.

Lemma getitem_nat {A : Type} (l : list A) (i : nat) (a : A) :
  l !! i = Some a -> Py.getitem l (Z.of_nat i) = Ok a.
Proof.
  intros H. pose proof (lookup_lt_Some _ _ _ H) as Hlt.
  unfold Py.getitem, Py.len.
  replace (Z.of_nat i <? 0) with false by lia.
  replace (Z.of_nat i <? 0) with false by lia.
  replace (Z.of_nat (length l) <=? Z.of_nat i) with false by lia.
  cbn. rewrite Nat2Z.id, H. reflexivity.
Qed.

Lemma setitem_nat {A : Type} (l : list A) (i : nat) (v : A) :
  (i < length l)%nat -> Py.setitem l (Z.of_nat i) v = Ok (<[i := v]> l).
Proof.
  intros Hlt. unfold Py.setitem, Py.len.
  replace (Z.of_nat i <? 0) with false by lia.
  replace (Z.of_nat i <? 0) with false by lia.
  replace (Z.of_nat (length l) <=? Z.of_nat i) with false by lia.
  cbn. rewrite Nat2Z.id. reflexivity.
Qed.

Lemma sum_acc (l : list Z) (a : Z) : fold_left Z.add l a = a + Py.sum l.
Proof.
  unfold Py.sum. revert a.
  induction l as [|x l IH]; intros a; cbn [fold_left]; [lia|].
  rewrite (IH (a + x)), (IH (0 + x)). lia.
Qed.

Lemma sum_cons (x : Z) (l : list Z) : Py.sum (x :: l) = x + Py.sum l.
Proof. unfold Py.sum at 1. cbn. apply sum_acc. Qed.

Lemma sum_app (l1 l2 : list Z) : Py.sum (l1 ++ l2) = Py.sum l1 + Py.sum l2.
Proof.
  induction l1 as [|x l1 IH]; [reflexivity|].
  cbn [app]. rewrite !sum_cons, IH. lia.
Qed.

Lemma sum_rev (l : list Z) : Py.sum (rev l) = Py.sum l.
Proof.
  induction l as [|x l IH]; [reflexivity|].
  cbn [rev]. rewrite sum_app, !sum_cons, IH. unfold Py.sum at 2. cbn. lia.
Qed.

Lemma range_len_down (n : nat) :
  Py.range_len (Z.of_nat n - 1) (-1) (-2) = (Z.of_nat n + 1) / 2.
Proof.
  unfold Py.range_len. cbn [Z.ltb Z.compare]. 
  replace (0 <? -2) with false by reflexivity.
  replace (-2 <? 0) with true by reflexivity.
  destruct (Z.ltb_spec (-1) (Z.of_nat n - 1)) as [H|H].
  - replace (- -2) with 2 by reflexivity.
    replace (Z.of_nat n - 1 - -1 - 1) with (Z.of_nat n - 1) by lia.
    replace (Z.of_nat n + 1) with (Z.of_nat n - 1 + 1 * 2) by lia.
    rewrite Z.div_add by lia. lia.
  - assert (n = 0%nat) by lia. subst. reflexivity.
Qed.

Lemma range_down2 (n : nat) :
  Py.range (Z.of_nat n - 1) (-1) (-2) = map Z.of_nat (down2 n).
Proof.
  induction n as [n IH] using lt_wf_ind.
  destruct n as [|[|m]]; [reflexivity | reflexivity |].
  cbn [down2 map]. rewrite <- (IH m) by lia.
  unfold Py.range. rewrite !range_len_down.
  replace (Z.of_nat (S (S m)) + 1) with (Z.of_nat m + 1 + 1 * 2) by lia.
  rewrite Z.div_add by lia.
  assert (0 <= (Z.of_nat m + 1) / 2) by (apply Z.div_pos; lia).
  rewrite Z2Nat.inj_add by lia.
  replace (Z.to_nat 1) with 1%nat by reflexivity.
  rewrite Nat.add_1_r. cbn [seq map]. f_equal; [lia|].
  rewrite <- seq_shift, map_map. apply map_ext. intros k. lia.
Qed.

End PyFacts.

(** ** The doubling loop computes the right-to-left pass *)

Section LuhnLoop.

Lemma luhn_step_nat (ds : list Z) (i : nat) (d : Z) :
  ds !! i = Some d ->
  Card.luhn_step ds (Z.of_nat i) = Ok (<[i := LuhnSpec.double d]> ds).
Proof.
  intros H. pose proof (lookup_lt_Some _ _ _ H) as Hlt.
  unfold Card.luhn_step, LuhnSpec.double.
  rewrite (getitem_nat _ _ _ H). cbn [rbind].
  rewrite setitem_nat by exact Hlt. cbn [rbind].
  rewrite (getitem_nat _ i (d * 2)) by (apply list_lookup_insert_eq; exact Hlt).
  cbn [rbind]. destruct (9 <? d * 2); [|reflexivity].
  cbn [rbind]. rewrite setitem_nat by (rewrite length_insert; exact Hlt).
  rewrite list_insert_insert_eq. reflexivity.
Qed.

Lemma luhn_step_alter (ds : list Z) (i : nat) :
  (i < length ds)%nat ->
  Card.luhn_step ds (Z.of_nat i) = Ok (double_at ds i).
Proof.
  intros Hlt. destruct (lookup_lt_is_Some_2 ds i Hlt) as [d Hd].
  rewrite (luhn_step_nat _ _ _ Hd). f_equal. unfold double_at.
  apply list_eq. intros j. destruct (decide (i = j)) as [->|Hne].
  - rewrite list_lookup_insert_eq by exact Hlt.
    rewrite list_lookup_alter_eq, Hd. reflexivity.
  - rewrite list_lookup_insert_ne by exact Hne.
    rewrite list_lookup_alter_ne by exact Hne. reflexivity.
Qed.

Lemma luhn_loop_fold (idx : list nat) (ds : list Z) :
  Forall (fun i => (i < length ds)%nat) idx ->
  Card.luhn_loop ds (map Z.of_nat idx) = Ok (foldl double_at ds idx).
Proof.
  revert ds. induction idx as [|i idx IH]; intros ds Hall; [reflexivity|].
  inversion Hall as [|? ? Hi Hrest]; subst.
  cbn [map Card.luhn_loop foldl]. rewrite luhn_step_alter by exact Hi.
  cbn [rbind]. apply IH.
  unfold double_at. rewrite length_alter. exact Hrest.
Qed.

Lemma down2_lt (n : nat) : Forall (fun i => (i < n)%nat) (down2 n).
Proof.
  induction n as [n IH] using lt_wf_ind.
  destruct n as [|[|m]]; cbn [down2].
  - constructor.
  - repeat constructor.
  - constructor; [lia|].
    eapply Forall_impl; [apply (IH m); lia|]. cbn. intros; lia.
Qed.

Lemma foldl_double_at_app (idx : list nat) (l t : list Z) :
  Forall (fun i => (i < length l)%nat) idx ->
  foldl double_at (l ++ t) idx = foldl double_at l idx ++ t.
Proof.
  revert l. induction idx as [|i idx IH]; intros l Hall; [reflexivity|].
  inversion Hall as [|? ? Hi Hrest]; subst. cbn [foldl].
  unfold double_at at 2. rewrite alter_app_l by exact Hi.
  fold (double_at l i). apply IH.
  unfold double_at. rewrite length_alter. exact Hrest.
Qed.

(** Induction on a list two elements at a time, from the right. *)
Lemma list_pairs_right_ind {A : Type} (P : list A -> Prop) :
  P [] -> (forall a, P [a]) ->
  (forall l a b, P l -> P (l ++ [a; b])) ->
  forall l, P l.
Proof.
  intros H0 H1 H2 l.
  remember (length l) as n eqn:Hn. revert l Hn.
  induction n as [n IH] using lt_wf_ind. intros l Hn.
  destruct l as [|x l'] using rev_ind; [exact H0|].
  clear IHl'. destruct l' as [|y l''] using rev_ind; [apply H1|].
  clear IHl''. rewrite <- app_assoc. cbn [app].
  rewrite !length_app in Hn. cbn in Hn.
  apply H2. apply (IH (length l'')); [lia | reflexivity].
Qed.

Lemma luhn_pass (ds : list Z) :
  foldl double_at ds (down2 (length ds))
  = rev (LuhnSpec.pass_from_right (rev ds) true).
Proof.
  induction ds as [| a | l a b IH] using list_pairs_right_ind.
  - reflexivity.
  - reflexivity.
  - rewrite length_app. cbn [length].
    replace (length l + 2)%nat with (S (S (length l))) by lia.
    cbn [down2 foldl].
    assert (Hd : double_at (l ++ [a; b]) (S (length l))
                 = l ++ [a; LuhnSpec.double b]).
    { unfold double_at. rewrite alter_app_r_alt by lia.
      replace (S (length l) - length l)%nat with 1%nat by lia. reflexivity. }
    rewrite Hd, foldl_double_at_app by apply down2_lt.
    rewrite IH, rev_app_distr. cbn [rev app LuhnSpec.pass_from_right negb].
    rewrite <- !app_assoc. reflexivity.
Qed.

Lemma sum_pass (ds : list Z) (b : bool) :
  Py.sum (LuhnSpec.pass_from_right ds b) = LuhnSpec.sum_from_right ds b.
Proof.
  revert b. induction ds as [|d ds IH]; intros b; [reflexivity|].
  cbn [LuhnSpec.pass_from_right LuhnSpec.sum_from_right].
  rewrite sum_cons, IH. reflexivity.
Qed.

Lemma luhn_loop_total (ds : list Z) :
  Card.luhn_loop ds (Py.range (Py.len ds - 1) (-1) (-2))
  = Ok (rev (LuhnSpec.pass_from_right (rev ds) true)).
Proof.
  unfold Py.len. rewrite range_down2, luhn_loop_fold by apply down2_lt.
  rewrite luhn_pass. reflexivity.
Qed.

Lemma checksum_of_digits (s : string) (ds : list Z) :
  Py.ints_of_string s = Ok ds ->
  Card.calculate_luhn_checksum s = Ok (LuhnSpec.check_digit ds).
Proof.
  intros H. unfold Card.calculate_luhn_checksum. rewrite H. cbn [rbind].
  rewrite luhn_loop_total. cbn [rbind].
  rewrite sum_rev, sum_pass. reflexivity.
Qed.

End LuhnLoop.

(** ** Digit strings *)

Section DigitStrings.

Lemma int_of_char_digit (c : ascii) :
  Py.is_digit c = true ->
  exists d, Py.int_of_char c = Ok d /\ is_decimal d /\ Py.digit_char d = c.
Proof.
  intros H. unfold Py.int_of_char. rewrite H.
  exists (Z.of_nat (nat_of_ascii c) - 48).
  unfold Py.is_digit in H. apply andb_true_iff in H as [H1 H2].
  apply Nat.leb_le in H1, H2. unfold is_decimal, Py.digit_char.
  repeat split; try lia.
  replace (48 + Z.to_nat (Z.of_nat (nat_of_ascii c) - 48))%nat
    with (nat_of_ascii c) by lia.
  apply ascii_nat_embedding.
Qed.

Lemma ints_of_string_digits (s : string) :
  all_digits s = true ->
  exists ds, Py.ints_of_string s = Ok ds
             /\ length ds = String.length s
             /\ Forall is_decimal ds.
Proof.
  induction s as [|c s IH]; cbn [all_digits Py.ints_of_string]; intros H.
  - exists []. repeat split. constructor.
  - apply andb_true_iff in H as [Hc Hs].
    destruct (int_of_char_digit c Hc) as (d & Hd & Hr & _).
    destruct (IH Hs) as (ds & Hds & Hlen & Hall).
    exists (d :: ds). rewrite Hd, Hds. cbn. repeat split.
    + f_equal. exact Hlen.
    + constructor; assumption.
Qed.

Lemma int_of_decimal_char (d : Z) :
  is_decimal d -> Py.int_of_char (decimal_char d) = Ok d.
Proof.
  unfold is_decimal. intros H.
  assert (E : d = 0 \/ d = 1 \/ d = 2 \/ d = 3 \/ d = 4
              \/ d = 5 \/ d = 6 \/ d = 7 \/ d = 8 \/ d = 9) by lia.
  repeat (destruct E as [->|E]; [reflexivity|]). subst d. reflexivity.
Qed.

(** The list comprehension reads back the digits written. *)
Lemma ints_of_string_of_digits (ds : list Z) :
  Forall is_decimal ds -> Py.ints_of_string (string_of_digits ds) = Ok ds.
Proof.
  induction 1 as [|d ds Hd _ IH]; [reflexivity|].
  cbn [string_of_digits Py.ints_of_string].
  rewrite (int_of_decimal_char d Hd). cbn [rbind]. rewrite IH. reflexivity.
Qed.

Lemma ints_of_string_not_digits (s : string) :
  all_digits s = false -> Py.ints_of_string s = Raise ValueError.
Proof.
  induction s as [|c s IH]; cbn [all_digits Py.ints_of_string]; intros H.
  - discriminate.
  - unfold Py.int_of_char. destruct (Py.is_digit c); cbn [rbind]; [|reflexivity].
    cbn in H. rewrite (IH H). reflexivity.
Qed.

Lemma ints_of_string_all_digits (s : string) (ds : list Z) :
  Py.ints_of_string s = Ok ds -> all_digits s = true.
Proof.
  intros H. destruct (all_digits s) eqn:E; [reflexivity|].
  rewrite (ints_of_string_not_digits s E) in H. discriminate.
Qed.

Lemma str_decimal (d : Z) :
  is_decimal d -> Py.str d = String (Py.digit_char d) EmptyString.
Proof.
  intros [H0 H9]. unfold Py.str, Py.str_nonneg.
  replace (d <? 0) with false by lia. cbn [Py.str_digits].
  replace (d <? 10) with true by lia. reflexivity.
Qed.

Lemma check_digit_decimal (ds : list Z) : is_decimal (LuhnSpec.check_digit ds).
Proof.
  unfold is_decimal, LuhnSpec.check_digit.
  pose proof (Z.mod_pos_bound (10 - LuhnSpec.sum_from_right (rev ds) true mod 10) 10).
  lia.
Qed.

Lemma check_digit_completes (ds : list Z) :
  (LuhnSpec.sum_from_right (rev ds) true + LuhnSpec.check_digit ds) mod 10 = 0.
Proof.
  unfold LuhnSpec.check_digit.
  generalize (LuhnSpec.sum_from_right (rev ds) true). intros t.
  rewrite Zplus_mod_idemp_r.
  replace (t + (10 - t mod 10)) with (t - t mod 10 + 1 * 10) by lia.
  rewrite Z.mod_add by lia.
  rewrite Zminus_mod_idemp_r, Z.sub_diag. reflexivity.
Qed.

Lemma check_digit_unique (ds : list Z) (c : Z) :
  is_decimal c ->
  (LuhnSpec.sum_from_right (rev ds) true + c) mod 10 = 0 ->
  c = LuhnSpec.check_digit ds.
Proof.
  intros Hc H. pose proof (check_digit_decimal ds) as Hd.
  pose proof (check_digit_completes ds) as H'.
  unfold is_decimal in *.
  revert H H' Hd. generalize (LuhnSpec.check_digit ds).
  generalize (LuhnSpec.sum_from_right (rev ds) true). intros t c' H H' Hd.
  apply Z.mod_divide in H; [|lia]. apply Z.mod_divide in H'; [|lia].
  destruct H as [k Hk], H' as [k' Hk']. lia.
Qed.

End DigitStrings.

(** ** Slicing off and reading the last character *)

Section LastChar.

Lemma length_snoc (s : string) (ch : ascii) :
  String.length (s +:+ String ch EmptyString) = S (String.length s).
Proof. induction s as [|c s IH]; simpl; [reflexivity | f_equal; exact IH]. Qed.

Lemma substring_snoc (s : string) (ch : ascii) :
  substring 0 (String.length s) (s +:+ String ch EmptyString) = s.
Proof. induction s as [|c s IH]; simpl; [reflexivity | f_equal; exact IH]. Qed.

Lemma get_snoc (s : string) (ch : ascii) :
  get (String.length s) (s +:+ String ch EmptyString) = Some ch.
Proof. induction s as [|c s IH]; simpl; [reflexivity | exact IH]. Qed.

Lemma slice_to_snoc (s : string) (ch : ascii) :
  Py.slice_to (s +:+ String ch EmptyString) (-1) = s.
Proof.
  unfold Py.slice_to, Py.slen. rewrite length_snoc.
  replace (-1 <? 0) with true by reflexivity.
  replace (Z.to_nat (Z.max (-1 + Z.of_nat (S (String.length s))) 0))
    with (String.length s) by lia.
  apply substring_snoc.
Qed.

Lemma sgetitem_snoc (s : string) (ch : ascii) :
  Py.sgetitem (s +:+ String ch EmptyString) (-1) = Ok (String ch EmptyString).
Proof.
  unfold Py.sgetitem, Py.slen. rewrite length_snoc.
  replace (-1 <? 0) with true by reflexivity.
  replace (-1 + Z.of_nat (S (String.length s))) with (Z.of_nat (String.length s)) by lia.
  generalize (String.length s) at 1 2 3 as n. intros n.
  destruct (Z.ltb_spec (Z.of_nat n) 0); [lia|].
  destruct (Z.leb_spec (Z.of_nat (S n)) (Z.of_nat n)); [lia|].
  cbn [orb]. rewrite Nat2Z.id, get_snoc. reflexivity.
Qed.

(** [is_valid_card_number] on a number split into its last character
    and what precedes it. *)
Lemma is_valid_snoc (s : string) (ch : ascii) :
  Card.is_valid_card_number (s +:+ String ch EmptyString)
  = rbind (Card.calculate_luhn_checksum s)
          (fun c => Ok (bool_decide (Py.str c = String ch EmptyString))).
Proof.
  unfold Card.is_valid_card_number.
  rewrite slice_to_snoc, sgetitem_snoc.
  destruct (Card.calculate_luhn_checksum s); reflexivity.
Qed.

End LastChar.

(** ** The check digit and the validator *)

Section Validator.

Lemma digit_char_is_digit (d : Z) :
  is_decimal d -> Py.is_digit (Py.digit_char d) = true.
Proof.
  intros [H0 H9].
  assert (Hd : d = 0 \/ d = 1 \/ d = 2 \/ d = 3 \/ d = 4 \/ d = 5 \/ d = 6
               \/ d = 7 \/ d = 8 \/ d = 9) by lia.
  repeat (destruct Hd as [->|Hd]; [reflexivity|]). subst. reflexivity.
Qed.

Lemma sum_from_right_with_check (ds : list Z) (c : Z) :
  LuhnSpec.sum_from_right (rev (ds ++ [c])) false
  = c + LuhnSpec.sum_from_right (rev ds) true.
Proof. rewrite rev_app_distr. reflexivity. Qed.

Lemma valid_with_check_digit (s : string) (ds : list Z) :
  Py.ints_of_string s = Ok ds ->
  Card.is_valid_card_number (s +:+ Py.str (LuhnSpec.check_digit ds)) = Ok true.
Proof.
  intros H. rewrite (str_decimal _ (check_digit_decimal ds)).
  rewrite is_valid_snoc, (checksum_of_digits _ _ H). cbn [rbind].
  rewrite (str_decimal _ (check_digit_decimal ds)).
  rewrite bool_decide_eq_true_2; reflexivity.
Qed.

Lemma is_valid_empty : Card.is_valid_card_number EmptyString = Raise IndexError.
Proof. reflexivity. Qed.

Lemma is_valid_not_digits (s : string) (ch : ascii) :
  all_digits s = false ->
  Card.is_valid_card_number (s +:+ String ch EmptyString) = Raise ValueError.
Proof.
  intros H. rewrite is_valid_snoc. unfold Card.calculate_luhn_checksum.
  rewrite (ints_of_string_not_digits s H). reflexivity.
Qed.

Lemma string_snoc_cases (s : string) :
  s = EmptyString \/ exists s' ch, s = s' +:+ String ch EmptyString.
Proof.
  induction s as [|c s IH]; [left; reflexivity|]. right.
  destruct IH as [->|(s' & ch & ->)].
  - exists EmptyString, c. reflexivity.
  - exists (String c s'), ch. reflexivity.
Qed.

Lemma is_valid_raises (number : string) (e : exn) :
  Card.is_valid_card_number number = Raise e -> e = IndexError \/ e = ValueError.
Proof.
  destruct (string_snoc_cases number) as [->|(s0 & ch & ->)].
  - cbn. intros [= <-]. left. reflexivity.
  - destruct (all_digits s0) eqn:E.
    + destruct (ints_of_string_digits s0 E) as (ds & Hds & _ & _).
      rewrite is_valid_snoc, (checksum_of_digits _ _ Hds). discriminate.
    + rewrite (is_valid_not_digits s0 ch E). intros [= <-]. right. reflexivity.
Qed.

Lemma is_valid_not_beyond (number : string) :
  Card.is_valid_card_number number <> Beyond.
Proof.
  destruct (string_snoc_cases number) as [->|(s0 & ch & ->)].
  - cbn. discriminate.
  - destruct (all_digits s0) eqn:E.
    + destruct (ints_of_string_digits s0 E) as (ds & Hds & _ & _).
      rewrite is_valid_snoc, (checksum_of_digits _ _ Hds). discriminate.
    + rewrite (is_valid_not_digits s0 ch E). discriminate.
Qed.

End Validator.

(** C1. For every sequence of decimal digits, [calculate_luhn_checksum],
    given the string that writes them, returns the Luhn check digit: the
    list comprehension reads back these very digits; reading them from the
    rightmost to the left, every second digit, the rightmost first, is
    doubled, a doubled digit above 9 loses 9, the digits are summed, and the
    result is [(10 - sum mod 10) mod 10]. It is the one decimal digit that
    makes the sum of the whole number, check digit included and not
    doubled, a multiple of 10. *)
Theorem calculate_luhn_checksum_is_luhn (ds : list Z) :
  Forall is_decimal ds ->
  Py.ints_of_string (string_of_digits ds) = Ok ds
  /\ String.length (string_of_digits ds) = length ds
  /\ Card.calculate_luhn_checksum (string_of_digits ds)
     = Ok (LuhnSpec.check_digit ds)
  /\ LuhnSpec.check_digit ds
     = (10 - LuhnSpec.sum_from_right (rev ds) true mod 10) mod 10
  /\ is_decimal (LuhnSpec.check_digit ds)
  /\ LuhnSpec.sum_from_right (rev (ds ++ [LuhnSpec.check_digit ds])) false mod 10 = 0
  /\ (forall c, is_decimal c ->
                LuhnSpec.sum_from_right (rev (ds ++ [c])) false mod 10 = 0 ->
                c = LuhnSpec.check_digit ds).
Proof.
  intros Hall. pose proof (ints_of_string_of_digits ds Hall) as Hds.
  split; [exact Hds|]. split.
  { clear. induction ds as [|d ds IH]; [reflexivity|]. cbn. f_equal. exact IH. }
  split; [apply checksum_of_digits; exact Hds|].
  split; [reflexivity|]. split; [apply check_digit_decimal|]. split.
  - rewrite sum_from_right_with_check, Z.add_comm. apply check_digit_completes.
  - intros c Hc Hsum. apply check_digit_unique; [exact Hc|].
    rewrite sum_from_right_with_check, Z.add_comm in Hsum. exact Hsum.
Qed.

Lemma calculate_luhn_checksum_is_luhn_witness :
  Py.ints_of_string "400000844943340" = Ok [4; 0; 0; 0; 0; 0; 8; 4; 4; 9; 4; 3; 3; 4; 0]
  /\ Card.calculate_luhn_checksum "400000844943340" = Ok 3
  /\ LuhnSpec.sum_from_right
       (rev ([4; 0; 0; 0; 0; 0; 8; 4; 4; 9; 4; 3; 3; 4; 0] ++ [3])) false mod 10 = 0.
Proof.
  destruct (calculate_luhn_checksum_is_luhn
              [4; 0; 0; 0; 0; 0; 8; 4; 4; 9; 4; 3; 3; 4; 0])
    as (H1 & _ & H2 & _ & _ & H3 & _).
  - repeat constructor; unfold is_decimal; lia.
  - split; [exact H1|]. split; [exact H2 | exact H3].
Defined.

(** C2. For every string [s] of 15 decimal digits, the number made of [s]
    followed by the check digit computed over [s] is accepted by
    [is_valid_card_number]. *)
Theorem valid_after_appending_checksum (s : string) :
  String.length s = 15%nat ->
  all_digits s = true ->
  exists c : Z,
    Card.calculate_luhn_checksum s = Ok c
    /\ Card.is_valid_card_number (s +:+ Py.str c) = Ok true.
Proof.
  intros _ H. destruct (ints_of_string_digits s H) as (ds & Hds & _ & _).
  exists (LuhnSpec.check_digit ds). split.
  - apply checksum_of_digits. exact Hds.
  - apply valid_with_check_digit. exact Hds.
Qed.

Lemma valid_after_appending_checksum_witness :
  exists c : Z,
    Card.calculate_luhn_checksum "400000844943340" = Ok c
    /\ Card.is_valid_card_number ("400000844943340" +:+ Py.str c) = Ok true.
Proof.
  apply (valid_after_appending_checksum "400000844943340"); reflexivity.
Defined.

(** C5, as the code has it. For every non-empty string whose characters
    before the last are all decimal digits, [is_valid_card_number] returns a
    boolean and does not raise: [True] exactly when the last character is
    the Luhn check digit of the digits before it, whatever the length of the
    string, and so [False] when the last character is not a digit. *)
Theorem is_valid_card_number_on_digits (s : string) (ch : ascii) :
  all_digits s = true ->
  exists ds : list Z,
    Py.ints_of_string s = Ok ds
    /\ Card.is_valid_card_number (s +:+ String ch EmptyString)
       = Ok (bool_decide (ch = Py.digit_char (LuhnSpec.check_digit ds)))
    /\ (Py.is_digit ch = false ->
        Card.is_valid_card_number (s +:+ String ch EmptyString) = Ok false).
Proof.
  intros H. destruct (ints_of_string_digits s H) as (ds & Hds & _ & _).
  exists ds. split; [exact Hds|].
  assert (Hv : Card.is_valid_card_number (s +:+ String ch EmptyString)
               = Ok (bool_decide (ch = Py.digit_char (LuhnSpec.check_digit ds)))).
  { rewrite is_valid_snoc, (checksum_of_digits _ _ Hds). cbn [rbind].
    rewrite (str_decimal _ (check_digit_decimal ds)). f_equal.
    apply bool_decide_ext. split; intros E.
    - injection E as E. symmetry. exact E.
    - rewrite E. reflexivity. }
  split; [exact Hv|].
  intros Hch. rewrite Hv. f_equal. apply bool_decide_eq_false_2. intros ->.
  rewrite (digit_char_is_digit _ (check_digit_decimal ds)) in Hch. discriminate.
Qed.

Lemma is_valid_card_number_on_digits_witness :
  exists ds : list Z,
    Py.ints_of_string "1" = Ok ds
    /\ Card.is_valid_card_number ("1" +:+ String "8"%char EmptyString)
       = Ok (bool_decide ("8"%char = Py.digit_char (LuhnSpec.check_digit ds)))
    /\ (Py.is_digit "8"%char = false ->
        Card.is_valid_card_number ("1" +:+ String "8"%char EmptyString) = Ok false).
Proof. apply (is_valid_card_number_on_digits "1" "8"%char). reflexivity. Defined.

(** C5, as the specification has it, fails: a letter before the last
    character makes [int] raise [ValueError], the empty string makes
    [number[-1]] raise [IndexError], and a two-character string with a right
    check digit is accepted. *)
Lemma is_valid_card_number_malformed :
  Card.is_valid_card_number "a0" = Raise ValueError
  /\ Card.is_valid_card_number "" = Raise IndexError
  /\ Card.is_valid_card_number "18" = Ok true.
Proof. repeat split; vm_compute; reflexivity. Qed.

(** ** Decimal numerals: [str] and the [09d] format *)

Section Numerals.

Lemma all_digits_app (s1 s2 : string) :
  all_digits (s1 +:+ s2) = all_digits s1 && all_digits s2.
Proof.
  induction s1 as [|c s1 IH]; simpl; [reflexivity|].
  rewrite IH. apply andb_assoc.
Qed.

Lemma length_app_string (s1 s2 : string) :
  String.length (s1 +:+ s2) = (String.length s1 + String.length s2)%nat.
Proof. induction s1 as [|c s1 IH]; simpl; [reflexivity | f_equal; exact IH]. Qed.

Lemma value_acc_app (s1 s2 : string) (a : Z) :
  value_acc (s1 +:+ s2) a = value_acc s2 (value_acc s1 a).
Proof. revert a. induction s1 as [|c s1 IH]; intros a; simpl; [reflexivity | apply IH]. Qed.

Lemma value_acc_shift (s : string) (a : Z) :
  value_acc s a = a * 10 ^ Z.of_nat (String.length s) + digits_value s.
Proof.
  unfold digits_value. revert a.
  induction s as [|c s IH]; intros a.
  - simpl. lia.
  - cbn [value_acc String.length]. rewrite IH, (IH (10 * 0 + _)).
    rewrite Nat2Z.inj_succ, Z.pow_succ_r by lia. ring.
Qed.

Lemma digits_value_bound (s : string) :
  all_digits s = true -> 0 <= digits_value s < 10 ^ Z.of_nat (String.length s).
Proof.
  induction s as [|c s IH]; intros H.
  - cbn. lia.
  - cbn [all_digits] in H. apply andb_true_iff in H as [Hc Hs].
    specialize (IH Hs). unfold digits_value. cbn [value_acc String.length].
    rewrite value_acc_shift, Nat2Z.inj_succ, Z.pow_succ_r by lia.
    unfold Py.is_digit in Hc. apply andb_true_iff in Hc as [H1 H2].
    apply Nat.leb_le in H1, H2. nia.
Qed.

Lemma digits_value_zeros (k : nat) : digits_value (Py.zeros k) = 0.
Proof.
  unfold digits_value. induction k as [|k IH]; [reflexivity|].
  cbn [Py.zeros value_acc]. exact IH.
Qed.

Lemma all_digits_zeros (k : nat) : all_digits (Py.zeros k) = true.
Proof. induction k as [|k IH]; [reflexivity | exact IH]. Qed.

Lemma length_zeros (k : nat) : String.length (Py.zeros k) = k.
Proof. induction k as [|k IH]; [reflexivity | cbn; f_equal; exact IH]. Qed.

Lemma digit_char_value (d : Z) :
  is_decimal d -> Z.of_nat (nat_of_ascii (Py.digit_char d)) - 48 = d.
Proof.
  intros [H0 H9]. unfold Py.digit_char.
  rewrite nat_ascii_embedding by lia. lia.
Qed.

(** [fuel] rounds print any [n] below [2 ^ fuel]. *)
Lemma str_digits_spec (fuel : nat) (n : Z) :
  0 <= n < 2 ^ Z.of_nat fuel ->
  all_digits (Py.str_digits fuel n) = true
  /\ digits_value (Py.str_digits fuel n) = n
  /\ (forall k : nat, (1 <= k)%nat -> n < 10 ^ Z.of_nat k ->
                      (String.length (Py.str_digits fuel n) <= k)%nat).
Proof.
  revert n. induction fuel as [|f IH]; intros n Hn.
  - cbn in Hn. assert (n = 0) by lia. subst. cbn. repeat split. intros; lia.
  - cbn [Py.str_digits]. destruct (Z.ltb_spec n 10) as [Hlt|Hge].
    + cbn [all_digits String.length]. repeat split.
      * rewrite digit_char_is_digit by (unfold is_decimal; lia). reflexivity.
      * unfold digits_value. cbn [value_acc].
        rewrite digit_char_value by (unfold is_decimal; lia). lia.
      * intros k Hk _. lia.
    + rewrite Nat2Z.inj_succ, Z.pow_succ_r in Hn by lia.
      assert (Hq : 0 <= n / 10 < 2 ^ Z.of_nat f).
      { split; [apply Z.div_pos; lia|].
        apply Z.div_lt_upper_bound; lia. }
      destruct (IH _ Hq) as (Hall & Hval & Hlen).
      pose proof (Z.mod_pos_bound n 10 ltac:(lia)) as Hm.
      repeat split.
      * rewrite all_digits_app, Hall. cbn [all_digits andb].
        rewrite digit_char_is_digit by (unfold is_decimal; lia). reflexivity.
      * unfold digits_value. rewrite value_acc_app. fold (digits_value (Py.str_digits f (n / 10))).
        rewrite Hval. cbn [value_acc].
        rewrite digit_char_value by (unfold is_decimal; lia).
        pose proof (Z.div_mod n 10 ltac:(lia)). lia.
      * intros k Hk Hnk. rewrite length_snoc.
        destruct k as [|[|k]]; [lia| cbn in Hnk; lia |].
        apply le_n_S. apply Hlen; [lia|].
        rewrite Nat2Z.inj_succ, Z.pow_succ_r in Hnk by lia.
        apply Z.div_lt_upper_bound; lia.
Qed.

Lemma str_nonneg_spec (n : Z) :
  0 <= n ->
  all_digits (Py.str_nonneg n) = true
  /\ digits_value (Py.str_nonneg n) = n
  /\ (forall k : nat, (1 <= k)%nat -> n < 10 ^ Z.of_nat k ->
                      (String.length (Py.str_nonneg n) <= k)%nat).
Proof.
  intros Hn. unfold Py.str_nonneg. apply str_digits_spec.
  split; [exact Hn|].
  rewrite Nat2Z.inj_succ, Z2Nat.id by apply Z.log2_nonneg.
  destruct (Z.eq_dec n 0) as [->|Hne]; [reflexivity|].
  apply Z.log2_spec. lia.
Qed.

Lemma format_0d_spec (w : nat) (n : Z) :
  (1 <= w)%nat -> 0 <= n < 10 ^ Z.of_nat w ->
  all_digits (Py.format_0d w n) = true
  /\ digits_value (Py.format_0d w n) = n
  /\ String.length (Py.format_0d w n) = w.
Proof.
  intros Hw [H0 Hn]. unfold Py.format_0d, Py.pad0.
  replace (n <? 0) with false by lia.
  destruct (str_nonneg_spec n H0) as (Hall & Hval & Hlen).
  specialize (Hlen w Hw Hn). repeat split.
  - rewrite all_digits_app, all_digits_zeros, Hall. reflexivity.
  - unfold digits_value. rewrite value_acc_app.
    fold (digits_value (Py.zeros (w - String.length (Py.str_nonneg n)))).
    rewrite digits_value_zeros. exact Hval.
  - rewrite length_app_string, length_zeros. lia.
Qed.

(** Digit strings of one length that denote the same number are equal. *)
Lemma digits_value_inj (s1 s2 : string) :
  all_digits s1 = true -> all_digits s2 = true ->
  String.length s1 = String.length s2 ->
  digits_value s1 = digits_value s2 ->
  s1 = s2.
Proof.
  revert s2. induction s1 as [|c1 s1 IH]; intros [|c2 s2] H1 H2 Hlen Hval;
    try discriminate; [reflexivity|].
  cbn [all_digits] in H1, H2.
  apply andb_true_iff in H1 as [Hc1 Hs1]. apply andb_true_iff in H2 as [Hc2 Hs2].
  injection Hlen as Hlen.
  unfold digits_value in Hval. cbn [value_acc] in Hval.
  rewrite (value_acc_shift s1), (value_acc_shift s2), Hlen in Hval.
  pose proof (digits_value_bound s1 Hs1) as B1.
  pose proof (digits_value_bound s2 Hs2) as B2.
  rewrite Hlen in B1.
  set (p := 10 ^ Z.of_nat (String.length s2)) in *.
  assert (Hc : nat_of_ascii c1 = nat_of_ascii c2) by nia.
  assert (Hv : digits_value s1 = digits_value s2) by (rewrite Hc in Hval; lia).
  f_equal.
  - rewrite <- (ascii_nat_embedding c1), <- (ascii_nat_embedding c2), Hc. reflexivity.
  - apply IH; assumption.
Qed.

Lemma append_inj_length (a1 a2 b1 b2 : string) :
  String.length a1 = String.length a2 ->
  a1 +:+ b1 = a2 +:+ b2 -> a1 = a2 /\ b1 = b2.
Proof.
  revert a2. induction a1 as [|c a1 IH]; intros [|c2 a2] Hlen H;
    try discriminate; simpl in *.
  - split; [reflexivity | exact H].
  - injection Hlen as Hlen. injection H as -> H.
    destruct (IH _ Hlen H) as [-> ->]. split; reflexivity.
Qed.

End Numerals.

(** ** Generated card numbers *)

Section CreateCard.

Lemma create_card_shape (r : Z) :
  Py.randint_outcome 1 999999999 r ->
  exists (seg : string) (c : Z) (number : string),
    Card.create_card r = Ok number
    /\ number = (Card.inn +:+ seg) +:+ Py.str c
    /\ seg = Py.format_0d 9 r
    /\ String.length seg = 9%nat
    /\ all_digits seg = true
    /\ digits_value seg = r
    /\ Card.calculate_luhn_checksum (Card.inn +:+ seg) = Ok c
    /\ is_decimal c
    /\ String.length number = 16%nat
    /\ all_digits number = true
    /\ Card.is_valid_card_number number = Ok true.
Proof.
  intros [Hlo Hhi].
  destruct (format_0d_spec 9 r ltac:(lia) ltac:(cbn; lia)) as (Hall & Hval & Hlen).
  assert (Hacc : all_digits (Card.inn +:+ Py.format_0d 9 r) = true)
    by (rewrite all_digits_app, Hall; reflexivity).
  destruct (ints_of_string_digits _ Hacc) as (ds & Hds & _ & _).
  pose proof (checksum_of_digits _ _ Hds) as Hck.
  pose proof (check_digit_decimal ds) as Hdec.
  exists (Py.format_0d 9 r), (LuhnSpec.check_digit ds),
    ((Card.inn +:+ Py.format_0d 9 r) +:+ Py.str (LuhnSpec.check_digit ds)).
  split; [unfold Card.create_card; rewrite Hck; reflexivity|].
  do 7 (split; [reflexivity || assumption|]).
  rewrite (str_decimal _ Hdec). split; [|split].
  - rewrite length_snoc, length_app_string, Hlen. reflexivity.
  - rewrite all_digits_app, Hacc. cbn [all_digits andb].
    rewrite (digit_char_is_digit _ Hdec). reflexivity.
  - rewrite <- (str_decimal _ Hdec). apply valid_with_check_digit. exact Hds.
Qed.

Lemma create_card_segment (r : Z) (seg tail : string) :
  Py.randint_outcome 1 999999999 r ->
  String.length seg = 9%nat ->
  Card.create_card r = Ok ((Card.inn +:+ seg) +:+ tail) ->
  seg = Py.format_0d 9 r.
Proof.
  intros Hr Hlen H.
  destruct (create_card_shape r Hr)
    as (seg' & c & number & Hn & -> & -> & Hlen' & _).
  rewrite Hn in H. injection H as H.
  apply append_inj_length in H as [H _];
    [|rewrite !length_app_string, Hlen, Hlen'; reflexivity].
  apply append_inj_length in H as [_ H]; [|reflexivity].
  symmetry. exact H.
Qed.

(** Different draws give different card numbers. *)
Lemma create_card_inj (r1 r2 : Z) (number : string) :
  Py.randint_outcome 1 999999999 r1 ->
  Py.randint_outcome 1 999999999 r2 ->
  Card.create_card r1 = Ok number ->
  Card.create_card r2 = Ok number ->
  r1 = r2.
Proof.
  intros H1 H2 E1 E2.
  destruct (create_card_shape r1 H1)
    as (seg & c & n & Hn & -> & Hseg & Hlen & _ & Hval & _).
  rewrite Hn in E1. injection E1 as <-.
  pose proof (create_card_segment r2 seg _ H2 Hlen E2) as Hseg2.
  destruct (format_0d_spec 9 r2 ltac:(lia) ltac:(destruct H2; cbn; lia))
    as (_ & Hval2 & _).
  rewrite <- Hseg2 in Hval2. lia.
Qed.

(** Every segment of nine digits but [000000000] is the segment of some
    draw. *)
Lemma create_card_reaches (seg : string) :
  String.length seg = 9%nat ->
  all_digits seg = true ->
  seg <> "000000000" ->
  exists (r c : Z),
    Py.randint_outcome 1 999999999 r
    /\ Card.create_card r = Ok ((Card.inn +:+ seg) +:+ Py.str c).
Proof.
  intros Hlen Hall Hnz.
  pose proof (digits_value_bound seg Hall) as Hb. rewrite Hlen in Hb.
  assert (Hfmt : Py.format_0d 9 (digits_value seg) = seg).
  { destruct (format_0d_spec 9 (digits_value seg) ltac:(lia) Hb)
      as (Hall' & Hval' & Hlen').
    apply digits_value_inj; try assumption. congruence. }
  assert (Hr : Py.randint_outcome 1 999999999 (digits_value seg)).
  { unfold Py.randint_outcome. cbn in Hb. split; [|lia].
    destruct (Z.eq_dec (digits_value seg) 0) as [E|E]; [|lia].
    exfalso. apply Hnz. rewrite <- Hfmt, E. reflexivity. }
  destruct (create_card_shape _ Hr) as (seg' & c & n & Hn & -> & -> & _).
  exists (digits_value seg), c. split; [exact Hr|].
  rewrite Hn, Hfmt. reflexivity.
Qed.

End CreateCard.

(** C8, as the code has it. Every number made by [__create_card] is the
    6-digit prefix [400000], then the 9-digit zero-padded numeral of the
    value drawn by [randint(1, 999999999)], then the check digit computed
    over these 15 digits: 16 digits that [is_valid_card_number] accepts.
    Every 9-digit segment except [000000000] is the segment of some draw. *)
Theorem create_card_outcomes :
  String.length Card.inn = 6%nat
  /\ all_digits Card.inn = true
  /\ (forall r : Z,
        Py.randint_outcome 1 999999999 r ->
        exists (seg : string) (c : Z) (number : string),
          Card.create_card r = Ok number
          /\ number = (Card.inn +:+ seg) +:+ Py.str c
          /\ seg = Py.format_0d 9 r
          /\ String.length seg = 9%nat
          /\ all_digits seg = true
          /\ digits_value seg = r
          /\ Card.calculate_luhn_checksum (Card.inn +:+ seg) = Ok c
          /\ is_decimal c
          /\ String.length number = 16%nat
          /\ all_digits number = true
          /\ Card.is_valid_card_number number = Ok true)
  /\ (forall seg : string,
        String.length seg = 9%nat ->
        all_digits seg = true ->
        seg <> "000000000" ->
        exists (r c : Z),
          Py.randint_outcome 1 999999999 r
          /\ Card.create_card r = Ok ((Card.inn +:+ seg) +:+ Py.str c)).
Proof.
  split; [reflexivity|]. split; [reflexivity|]. split.
  - exact create_card_shape.
  - exact create_card_reaches.
Qed.

Lemma create_card_outcomes_witness :
  (exists (seg : string) (c : Z) (number : string),
     Card.create_card 844943340 = Ok number
     /\ number = (Card.inn +:+ seg) +:+ Py.str c
     /\ seg = Py.format_0d 9 844943340
     /\ String.length seg = 9%nat
     /\ all_digits seg = true
     /\ digits_value seg = 844943340
     /\ Card.calculate_luhn_checksum (Card.inn +:+ seg) = Ok c
     /\ is_decimal c
     /\ String.length number = 16%nat
     /\ all_digits number = true
     /\ Card.is_valid_card_number number = Ok true)
  /\ (exists (r c : Z),
        Py.randint_outcome 1 999999999 r
        /\ Card.create_card r = Ok ((Card.inn +:+ "000000001") +:+ Py.str c)).
Proof.
  destruct create_card_outcomes as (_ & _ & Hshape & Hreach). split.
  - apply (Hshape 844943340). unfold Py.randint_outcome. lia.
  - apply (Hreach "000000001"); [reflexivity | reflexivity | discriminate].
Defined.

(** C8, as the specification has it, fails: the draw is never 0, so no
    generated number has the all-zero segment. *)
Lemma create_card_never_all_zero :
  ~ exists (r : Z) (tail : string),
      Py.randint_outcome 1 999999999 r
      /\ Card.create_card r = Ok ((Card.inn +:+ "000000000") +:+ tail).
Proof.
  intros (r & tail & Hr & H).
  pose proof (create_card_segment r "000000000" tail Hr eq_refl H) as Hseg.
  destruct (format_0d_spec 9 r ltac:(lia) ltac:(destruct Hr; cbn; lia))
    as (_ & Hval & _).
  rewrite <- Hseg in Hval. vm_compute in Hval. destruct Hr. lia.
Qed.

(** ** The statements on the [card] table *)

Section Table.

Lemma select_balance_by_number (t : list Db.row) (n : string) :
  Db.select_balance t n = (fun r => snd r) <$> Db.select_by_number t n.
Proof.
  unfold Db.select_balance, Db.select_by_number.
  destruct (List.filter _ t); reflexivity.
Qed.

Lemma select_by_number_number (t : list Db.row) (n n' p : string) (b : Z) :
  Db.select_by_number t n = Some (n', p, b) -> n' = n.
Proof.
  unfold Db.select_by_number.
  destruct (List.filter _ t) as [|r l] eqn:E; [discriminate|].
  intros [= <- _ _].
  assert (Hin : In r (List.filter (fun r => bool_decide (Db.number r = n)) t))
    by (rewrite E; left; reflexivity).
  apply filter_In in Hin as [_ Hr]. apply bool_decide_eq_true in Hr. exact Hr.
Qed.

Lemma select_by_number_update_same (t : list Db.row) (m : Z) (n : string) :
  Db.select_by_number (Db.update_balance t m n) n
  = (fun r => (r.1.1, r.1.2, r.2 + m)) <$> Db.select_by_number t n.
Proof.
  unfold Db.select_by_number, Db.update_balance.
  induction t as [|r t IH]; [reflexivity|].
  cbn [map List.filter]. destruct (bool_decide (Db.number r = n)) eqn:E.
  - cbn [Db.add_to_balance Db.number]. rewrite E. reflexivity.
  - rewrite E. exact IH.
Qed.

Lemma select_by_number_update_other (t : list Db.row) (m : Z) (n n' : string) :
  n <> n' ->
  Db.select_by_number (Db.update_balance t m n') n = Db.select_by_number t n.
Proof.
  intros Hne. unfold Db.select_by_number, Db.update_balance.
  induction t as [|r t IH]; [reflexivity|].
  cbn [map List.filter]. destruct (bool_decide (Db.number r = n')) eqn:E.
  - apply bool_decide_eq_true in E. cbn [Db.add_to_balance Db.number].
    rewrite !bool_decide_eq_false_2 by congruence. exact IH.
  - destruct (bool_decide (Db.number r = n)); [reflexivity | exact IH].
Qed.

Lemma select_balance_update_same (t : list Db.row) (m : Z) (n : string) :
  Db.select_balance (Db.update_balance t m n) n
  = (fun b => b + m) <$> Db.select_balance t n.
Proof.
  rewrite !select_balance_by_number, select_by_number_update_same.
  destruct (Db.select_by_number t n) as [[[? ?] ?]|]; reflexivity.
Qed.

Lemma select_balance_update_other (t : list Db.row) (m : Z) (n n' : string) :
  n <> n' ->
  Db.select_balance (Db.update_balance t m n') n = Db.select_balance t n.
Proof.
  intros Hne. rewrite !select_balance_by_number.
  rewrite select_by_number_update_other by exact Hne. reflexivity.
Qed.

Lemma lookup_map {A B : Type} (f : A -> B) (l : list A) (i : nat) :
  map f l !! i = f <$> l !! i.
Proof.
  revert i. induction l as [|x l IH]; intros [|i]; try reflexivity.
  cbn [map]. apply IH.
Qed.

Lemma update_balance_numbers (t : list Db.row) (m : Z) (n : string) :
  map Db.number (Db.update_balance t m n) = map Db.number t.
Proof.
  unfold Db.update_balance. rewrite map_map. apply map_ext.
  intros r. destruct (bool_decide (Db.number r = n)); reflexivity.
Qed.

Lemma add_to_balance_back (r : Db.row) (m : Z) :
  Db.add_to_balance (Db.add_to_balance r m) (- m) = r.
Proof. destruct r as [i n p b]. unfold Db.add_to_balance. cbn. f_equal. lia. Qed.

(** Adding [m] and then [- m] to the rows of a number restores the table. *)
Lemma update_balance_back (t : list Db.row) (m : Z) (n : string) :
  Db.update_balance (Db.update_balance t m n) (- m) n = t.
Proof.
  unfold Db.update_balance. rewrite map_map.
  rewrite <- (map_id t) at 2. apply map_ext. intros r.
  destruct (bool_decide (Db.number r = n)) eqn:E.
  - cbn [Db.add_to_balance Db.number]. rewrite E.
    apply (add_to_balance_back r m).
  - rewrite E. reflexivity.
Qed.

Lemma select_by_number_pin_first (t : list Db.row) (n p : string) (b : Z) :
  Db.select_by_number t n = Some (n, p, b) ->
  Db.select_by_number_pin t n p = Some (n, p, b).
Proof.
  unfold Db.select_by_number, Db.select_by_number_pin.
  induction t as [|r t IH]; [discriminate|].
  cbn [List.filter]. destruct (bool_decide (Db.number r = n)) eqn:E.
  - intros [= Hn Hp Hb]. rewrite bool_decide_eq_true_2 by exact Hp.
    cbn [andb]. rewrite Hn, Hp, Hb. reflexivity.
  - cbn [andb]. exact IH.
Qed.

End Table.

(** ** The methods of [Card] on the table *)

Section CardMethods.

Lemma int64_spec (z : Z) : Db.int64 z = true <-> - 2 ^ 63 <= z <= 2 ^ 63 - 1.
Proof. unfold Db.int64. rewrite andb_true_iff, !Z.leb_le. reflexivity. Qed.

Lemma fits_no_row (t : list Db.row) (m : Z) (n : string) :
  (forall r, In r t -> Db.number r <> n) -> Db.fits t m n = true.
Proof.
  intros H. unfold Db.fits. apply forallb_forall. intros r Hin.
  rewrite bool_decide_eq_false_2 by (apply H; exact Hin). reflexivity.
Qed.

Lemma fits_update_other (t : list Db.row) (m m' : Z) (n n' : string) :
  n <> n' -> Db.fits (Db.update_balance t m n) m' n' = Db.fits t m' n'.
Proof.
  intros Hne. unfold Db.fits, Db.update_balance.
  induction t as [|r t IH]; [reflexivity|].
  cbn [map forallb]. rewrite IH. f_equal.
  destruct (bool_decide (Db.number r = n)) eqn:E; [|reflexivity].
  cbn [Db.add_to_balance Db.number]. apply bool_decide_eq_true in E.
  rewrite !bool_decide_eq_false_2 by congruence. reflexivity.
Qed.

Lemma fits_update_back (t : list Db.row) (m : Z) (n : string) :
  all_integer t = true -> Db.fits (Db.update_balance t m n) (- m) n = true.
Proof.
  unfold all_integer, Db.fits, Db.update_balance.
  induction t as [|r t IH]; [reflexivity|].
  cbn [map forallb]. rewrite !andb_true_iff. intros [Hr Ht].
  split; [|apply IH; exact Ht].
  destruct (bool_decide (Db.number r = n)) eqn:E.
  - cbn [Db.add_to_balance Db.number Db.balance]. rewrite E.
    replace (Db.balance r + m + - m) with (Db.balance r) by lia. exact Hr.
  - rewrite E. reflexivity.
Qed.

Lemma fits_update_same (t : list Db.row) (m m' : Z) (n : string) :
  Db.fits (Db.update_balance t m n) m' n = Db.fits t (m + m') n.
Proof.
  unfold Db.fits, Db.update_balance.
  induction t as [|r t IH]; [reflexivity|].
  cbn [map forallb]. rewrite IH. f_equal.
  destruct (bool_decide (Db.number r = n)) eqn:E; [|rewrite E; reflexivity].
  cbn [Db.add_to_balance Db.number Db.balance]. rewrite E. f_equal. lia.
Qed.

(** An amount that the balance of a 64-bit card covers can be bound when
    its opposite can. *)
Lemma int64_covered (m b : Z) :
  Db.int64 b = true -> m <= b -> Db.int64 (- m) = true -> Db.int64 m = true.
Proof. rewrite !int64_spec. lia. Qed.

Lemma all_integer_update (t : list Db.row) (m : Z) (n : string) :
  all_integer t = true -> Db.fits t m n = true ->
  all_integer (Db.update_balance t m n) = true.
Proof.
  unfold all_integer, Db.fits, Db.update_balance.
  induction t as [|r t IH]; [reflexivity|].
  cbn [map forallb]. rewrite !andb_true_iff. intros [Hr Ht] [Fr Ft].
  split; [|apply IH; assumption].
  destruct (bool_decide (Db.number r = n)); [exact Fr | exact Hr].
Qed.

(** [update_balance] by cases: the amount cannot be bound; a sum leaves the
    64-bit range; the card is stored; the card is not stored. *)
Lemma update_balance_run (self : Card.t) (money : Z) (w : world) :
  Card.update_balance self money w
  = let o := stdout w ++ [Card.updating_line] in
    if Db.int64 money then
      if Db.fits (table w) money (Card.number self) then
        let t' := Db.update_balance (table w) money (Card.number self) in
        match Db.select_balance (table w) (Card.number self) with
        | Some b =>
            (Ok (Card.mk (Card.number self) (Card.code self) (b + money)),
             mkWorld t' o)
        | None => (Raise TypeError, mkWorld t' o)
        end
      else (Beyond, mkWorld (table w) o)
    else (Raise OverflowError, mkWorld (table w) o).
Proof.
  unfold Card.update_balance, bind, print, modify, gets, ret, raise, of_result.
  cbn [table stdout]. destruct (Db.int64 money); [|reflexivity]. cbn [table stdout].
  destruct (Db.fits (table w) money (Card.number self)); [|reflexivity].
  cbn [table stdout]. rewrite select_balance_update_same.
  destruct (Db.select_balance (table w) (Card.number self)); reflexivity.
Qed.

Lemma check_card_by_number (number : string) (w : world) :
  Card.check_card number None w
  = (Ok (match Db.select_by_number (table w) number with
         | Some (n, p, b) => Some (Card.mk n p b)
         | None => None
         end), w).
Proof.
  unfold Card.check_card, bind, gets, ret, Card.init_with.
  destruct (Db.select_by_number (table w) number) as [[[n p] b]|]; reflexivity.
Qed.

End CardMethods.

(** ** Transfers *)

Ltac unfold_monad :=
  unfold SimpleBankingSystem.lift, SimpleBankingSystem.self_card,
    SimpleBankingSystem.set_card,
    try_except_TransactionError, bind, print, modify, raise, ret,
    of_result, gets.

Ltac simpl_state :=
  cbn [SimpleBankingSystem.world_of SimpleBankingSystem.card
       SimpleBankingSystem.running table stdout fst snd
       Card.number Card.code Card.balance].

Ltac finish_state :=
  unfold SimpleBankingSystem.printed, SimpleBankingSystem.tbl,
    SimpleBankingSystem.out;
  simpl_state; rewrite <- ?app_assoc; reflexivity.

Section Transfer.

Import SimpleBankingSystem.

Variables (s : t) (c : Card.t) (number : string) (amount : Py.line).
Hypothesis logged_in : card s = Some c.

Lemma transfer_same_account :
  number = Card.number c ->
  do_transfer number amount s
  = (Ok tt, printed s ["Transfer"; msg_same_account]).
Proof.
  intros E. unfold do_transfer, transfer_try, printed, tbl, out in *. unfold_monad. simpl_state.
  rewrite logged_in, bool_decide_eq_true_2 by exact E.
  finish_state.
Qed.

Lemma transfer_mistake :
  number <> Card.number c ->
  Card.is_valid_card_number number = Ok false ->
  do_transfer number amount s
  = (Ok tt, printed s ["Transfer"; msg_mistake]).
Proof.
  intros Hne Hv. unfold do_transfer, transfer_try, printed, tbl, out in *. unfold_monad. simpl_state.
  rewrite logged_in, bool_decide_eq_false_2 by exact Hne.
  rewrite Hv. cbn [negb]. finish_state.
Qed.

(** An exception of the validator is not caught. *)
Lemma transfer_validator_raises (e : exn) :
  number <> Card.number c ->
  Card.is_valid_card_number number = Raise e ->
  (forall msg, e <> TransactionError msg) ->
  do_transfer number amount s = (Raise e, printed s ["Transfer"]).
Proof.
  intros Hne Hv He. unfold do_transfer, transfer_try, printed, tbl, out in *. unfold_monad. simpl_state.
  rewrite logged_in, bool_decide_eq_false_2 by exact Hne.
  rewrite Hv. destruct e; try finish_state. destruct (He msg eq_refl).
Qed.

Lemma transfer_no_such_card :
  number <> Card.number c ->
  Card.is_valid_card_number number = Ok true ->
  Db.select_by_number (tbl s) number = None ->
  do_transfer number amount s
  = (Ok tt, printed s ["Transfer"; msg_no_such_card]).
Proof.
  intros Hne Hv Hsel. unfold do_transfer, transfer_try, printed, tbl, out in *. unfold_monad. simpl_state.
  rewrite logged_in, bool_decide_eq_false_2 by exact Hne.
  rewrite Hv. cbn [negb]. simpl_state. rewrite check_card_by_number.
  simpl_state. rewrite Hsel. finish_state.
Qed.

(** The amount is read once the number has passed its three checks: a line
    that is not an integer makes [int] raise, and [ValueError] is not
    caught. *)
Lemma transfer_bad_amount (n p : string) (b : Z) :
  number <> Card.number c ->
  Card.is_valid_card_number number = Ok true ->
  Db.select_by_number (tbl s) number = Some (n, p, b) ->
  amount = Py.OtherLine ->
  do_transfer number amount s = (Raise ValueError, printed s ["Transfer"]).
Proof.
  intros Hne Hv Hsel ->. unfold do_transfer, transfer_try, printed, tbl, out in *.
  unfold_monad. simpl_state.
  rewrite logged_in, bool_decide_eq_false_2 by exact Hne.
  rewrite Hv. cbn [negb]. simpl_state. rewrite check_card_by_number.
  simpl_state. rewrite Hsel. finish_state.
Qed.

End Transfer.

Section TransferAmount.

Import SimpleBankingSystem.

Variables (s : t) (c : Card.t) (number : string) (transfer_money : Z).
Hypothesis logged_in : card s = Some c.

Lemma transfer_not_enough (n p : string) (b : Z) :
  number <> Card.number c ->
  Card.is_valid_card_number number = Ok true ->
  Db.select_by_number (tbl s) number = Some (n, p, b) ->
  transfer_money > Card.balance c ->
  do_transfer number transfer_money s
  = (Ok tt, printed s ["Transfer"; msg_not_enough]).
Proof.
  intros Hne Hv Hsel Hgt. unfold do_transfer, transfer_try, printed, tbl, out in *. unfold_monad. simpl_state.
  rewrite logged_in, bool_decide_eq_false_2 by exact Hne.
  rewrite Hv. cbn [negb]. simpl_state. rewrite check_card_by_number.
  simpl_state. rewrite Hsel. cbn [Py.int_of_line]. simpl_state.
  replace (transfer_money >? Card.balance c) with true by (symmetry; apply Z.gtb_gt; lia).
  finish_state.
Qed.

(** Past the four checks, by cases: the two calls of [update_balance] in
    the order of the source, the second on the table the first has left.
    The source is stored with balance [b0]. *)
Lemma transfer_past_checks (n p : string) (b b0 : Z) :
  number <> Card.number c ->
  Card.is_valid_card_number number = Ok true ->
  Db.select_by_number (tbl s) number = Some (n, p, b) ->
  transfer_money <= Card.balance c ->
  Db.select_balance (tbl s) (Card.number c) = Some b0 ->
  do_transfer number transfer_money s
  = let o1 := out s ++ ["Transfer"; Card.updating_line] in
    let o2 := out s ++ ["Transfer"; Card.updating_line; Card.updating_line] in
    let t1 := Db.update_balance (tbl s) (- transfer_money) (Card.number c) in
    let c' := Card.mk (Card.number c) (Card.code c) (b0 - transfer_money) in
    if Db.int64 (- transfer_money) then
      if Db.fits (tbl s) (- transfer_money) (Card.number c) then
        if Db.int64 transfer_money then
          if Db.fits t1 transfer_money number then
            (Ok tt,
             mk (mkWorld (Db.update_balance t1 transfer_money number) o2)
                (Some c') (running s))
          else (Beyond, mk (mkWorld t1 o2) (Some c') (running s))
        else (Raise OverflowError, mk (mkWorld t1 o2) (Some c') (running s))
      else (Beyond, mk (mkWorld (tbl s) o1) (Some c) (running s))
    else (Raise OverflowError, mk (mkWorld (tbl s) o1) (Some c) (running s)).
Proof.
  intros Hne Hv Hsel Hle Hsrc.
  pose proof (select_by_number_number _ _ _ _ _ Hsel) as ->.
  unfold do_transfer, transfer_try, printed, tbl, out in *. unfold_monad. simpl_state.
  rewrite logged_in, bool_decide_eq_false_2 by exact Hne.
  rewrite Hv. cbn [negb]. simpl_state. rewrite check_card_by_number.
  simpl_state. rewrite Hsel. cbn [Py.int_of_line]. simpl_state.
  replace (transfer_money >? Card.balance c) with false
    by (symmetry; rewrite Z.gtb_ltb; apply Z.ltb_ge; lia).
  replace (transfer_money * -1) with (- transfer_money) by lia.
  rewrite update_balance_run. simpl_state. cbn zeta.
  destruct (Db.int64 (- transfer_money)); [|rewrite <- !app_assoc; reflexivity].
  destruct (Db.fits (table (world_of s)) (- transfer_money) (Card.number c));
    [|rewrite <- !app_assoc; reflexivity].
  rewrite Hsrc. simpl_state.
  rewrite update_balance_run. simpl_state. cbn zeta.
  replace (b0 + - transfer_money) with (b0 - transfer_money) by lia.
  destruct (Db.int64 transfer_money); [|rewrite <- !app_assoc; reflexivity].
  destruct (Db.fits _ transfer_money number); [|rewrite <- !app_assoc; reflexivity].
  rewrite select_balance_update_other by exact Hne.
  rewrite select_balance_by_number, Hsel. cbn [fmap option_fmap option_map snd].
  rewrite <- !app_assoc. reflexivity.
Qed.

(** Both legs run when the amount and its opposite can be bound and no sum
    leaves the 64-bit range. *)
Lemma transfer_applied (n p : string) (b b0 : Z) :
  number <> Card.number c ->
  Card.is_valid_card_number number = Ok true ->
  Db.select_by_number (tbl s) number = Some (n, p, b) ->
  transfer_money <= Card.balance c ->
  Db.select_balance (tbl s) (Card.number c) = Some b0 ->
  Db.int64 (- transfer_money) = true ->
  Db.int64 transfer_money = true ->
  Db.fits (tbl s) (- transfer_money) (Card.number c) = true ->
  Db.fits (Db.update_balance (tbl s) (- transfer_money) (Card.number c))
    transfer_money number = true ->
  do_transfer number transfer_money s
  = (Ok tt,
     mk (mkWorld
           (Db.update_balance
              (Db.update_balance (tbl s) (- transfer_money) (Card.number c))
              transfer_money number)
           (out s ++ ["Transfer"; Card.updating_line; Card.updating_line]))
        (Some (Card.mk (Card.number c) (Card.code c) (b0 - transfer_money)))
        (running s)).
Proof.
  intros Hne Hv Hsel Hle Hsrc H1 H2 H3 H4.
  rewrite (transfer_past_checks n p b b0 Hne Hv Hsel Hle Hsrc). cbn zeta.
  rewrite H1, H2, H3, H4. reflexivity.
Qed.

End TransferAmount.

(** C7, as the code has it. For a card stored in the table and an amount
    within the signed 64-bit range such that no stored sum leaves that
    range, [update_balance] adds [money] to the stored balance of its rows,
    whatever the balance held in memory, and then reads the balance back:
    afterwards the balance in memory is the stored one, which is the former
    stored balance plus [money]. *)
Theorem update_balance_rereads (self : Card.t) (money b : Z) (w : world) :
  Db.select_balance (table w) (Card.number self) = Some b ->
  Db.int64 money = true ->
  Db.fits (table w) money (Card.number self) = true ->
  exists (self' : Card.t) (w' : world),
    Card.update_balance self money w = (Ok self', w')
    /\ table w' = Db.update_balance (table w) money (Card.number self)
    /\ (forall (i : nat) (r : Db.row),
          table w !! i = Some r ->
          table w' !! i
          = Some (if bool_decide (Db.number r = Card.number self)
                  then Db.mkRow (Db.id r) (Db.number r) (Db.pin r) (Db.balance r + money)
                  else r))
    /\ Db.select_balance (table w') (Card.number self) = Some (b + money)
    /\ Card.balance self' = b + money
    /\ Card.number self' = Card.number self
    /\ Card.code self' = Card.code self.
Proof.
  intros H H64 Hfit. rewrite update_balance_run, H64, Hfit, H. cbn zeta.
  eexists _, _. split; [reflexivity|]. cbn [table Card.balance Card.number Card.code].
  split; [reflexivity|]. split.
  - intros i r Hr. unfold Db.update_balance.
    rewrite lookup_map, Hr. reflexivity.
  - rewrite select_balance_update_same, H. repeat split.
Qed.

Lemma update_balance_rereads_witness :
  exists (self' : Card.t) (w' : world),
    Card.update_balance (Card.mk "4000000000000010" "0001" 7) 100
      (mkWorld [Db.mkRow 1 "4000000000000010" "0001" 60] []) = (Ok self', w')
    /\ Db.select_balance (table w') "4000000000000010" = Some 160
    /\ Card.balance self' = 160.
Proof.
  destruct (update_balance_rereads (Card.mk "4000000000000010" "0001" 7) 100 60
              (mkWorld [Db.mkRow 1 "4000000000000010" "0001" 60] [])
              eq_refl eq_refl eq_refl)
    as (self' & w' & H1 & _ & _ & H2 & H3 & _).
  exists self', w'. repeat split; assumption.
Defined.

(** C7, as the specification has it, fails: an amount of 2^63 cannot be
    bound to the statement, [execute] raises [OverflowError] and no balance
    is changed. *)
Lemma update_balance_unbindable :
  Card.update_balance (Card.mk "4000000000000010" "0001" 60) (2 ^ 63)
    (mkWorld [Db.mkRow 1 "4000000000000010" "0001" 60] [])
  = (Raise OverflowError,
     mkWorld [Db.mkRow 1 "4000000000000010" "0001" 60] [Card.updating_line]).
Proof. vm_compute. reflexivity. Qed.

(** C3, as the code has it. [__do_transfer] checks in this order and stops
    at the first check that fails, printing its message: the number typed
    is the card's own; [is_valid_card_number] returns [False] for it; no
    card with that number is stored; the amount typed exceeds the balance
    of the card. Past the four checks, when the amount and its opposite are
    within the 64-bit range and no sum leaves it, the card is debited by the
    amount and then, on the table so left, the destination is credited by
    it. The debit comes first: when the opposite of the amount cannot be
    bound, [OverflowError] is raised and nothing has been credited. Two
    more ways out are not among the four messages: when the validator
    raises on the number typed, and when the amount typed is not an
    integer, the exception leaves [__do_transfer] with nothing but
    [Transfer] printed. *)
Theorem do_transfer_checks_in_order
    (s : SimpleBankingSystem.t) (c : Card.t) (number : string)
    (amount : Py.line) (transfer_money : Z) :
  SimpleBankingSystem.card s = Some c ->
  (number = Card.number c ->
   SimpleBankingSystem.do_transfer number amount s
   = (Ok tt, SimpleBankingSystem.printed s
               ["Transfer"; SimpleBankingSystem.msg_same_account]))
  /\ (number <> Card.number c ->
      Card.is_valid_card_number number = Ok false ->
      SimpleBankingSystem.do_transfer number amount s
      = (Ok tt, SimpleBankingSystem.printed s
                  ["Transfer"; SimpleBankingSystem.msg_mistake]))
  /\ (number <> Card.number c ->
      Card.is_valid_card_number number = Ok true ->
      Db.select_by_number (SimpleBankingSystem.tbl s) number = None ->
      SimpleBankingSystem.do_transfer number amount s
      = (Ok tt, SimpleBankingSystem.printed s
                  ["Transfer"; SimpleBankingSystem.msg_no_such_card]))
  /\ (forall (n p : string) (b : Z),
        number <> Card.number c ->
        Card.is_valid_card_number number = Ok true ->
        Db.select_by_number (SimpleBankingSystem.tbl s) number = Some (n, p, b) ->
        transfer_money > Card.balance c ->
        SimpleBankingSystem.do_transfer number transfer_money s
        = (Ok tt, SimpleBankingSystem.printed s
                    ["Transfer"; SimpleBankingSystem.msg_not_enough]))
  /\ (forall (n p : string) (b b0 : Z),
        number <> Card.number c ->
        Card.is_valid_card_number number = Ok true ->
        Db.select_by_number (SimpleBankingSystem.tbl s) number = Some (n, p, b) ->
        transfer_money <= Card.balance c ->
        Db.select_balance (SimpleBankingSystem.tbl s) (Card.number c) = Some b0 ->
        Db.int64 (- transfer_money) = true ->
        Db.int64 transfer_money = true ->
        Db.fits (SimpleBankingSystem.tbl s) (- transfer_money) (Card.number c) = true ->
        Db.fits (Db.update_balance (SimpleBankingSystem.tbl s)
                   (- transfer_money) (Card.number c))
          transfer_money number = true ->
        exists (c' : Card.t) (w1 : world) (tc : Card.t) (w2 : world),
          Card.update_balance c (transfer_money * -1)
            (mkWorld (SimpleBankingSystem.tbl s) (SimpleBankingSystem.out s ++ ["Transfer"]))
          = (Ok c', w1)
          /\ Card.update_balance (Card.mk n p b) transfer_money w1 = (Ok tc, w2)
          /\ SimpleBankingSystem.do_transfer number transfer_money s
             = (Ok tt, SimpleBankingSystem.mk w2 (Some c') (SimpleBankingSystem.running s))
          /\ c' = Card.mk (Card.number c) (Card.code c) (b0 - transfer_money)
          /\ table w1
             = Db.update_balance (SimpleBankingSystem.tbl s)
                 (- transfer_money) (Card.number c)
          /\ table w2 = Db.update_balance (table w1) transfer_money number
          /\ stdout w2
             = SimpleBankingSystem.out s
               ++ ["Transfer"; Card.updating_line; Card.updating_line])
  /\ (forall (n p : string) (b b0 : Z),
        number <> Card.number c ->
        Card.is_valid_card_number number = Ok true ->
        Db.select_by_number (SimpleBankingSystem.tbl s) number = Some (n, p, b) ->
        transfer_money <= Card.balance c ->
        Db.select_balance (SimpleBankingSystem.tbl s) (Card.number c) = Some b0 ->
        Db.int64 (- transfer_money) = false ->
        SimpleBankingSystem.do_transfer number transfer_money s
        = (Raise OverflowError,
           SimpleBankingSystem.printed s ["Transfer"; Card.updating_line]))
  /\ (forall e : exn,
        number <> Card.number c ->
        Card.is_valid_card_number number = Raise e ->
        (e = IndexError \/ e = ValueError)
        /\ SimpleBankingSystem.do_transfer number amount s
           = (Raise e, SimpleBankingSystem.printed s ["Transfer"]))
  /\ (forall (n p : string) (b : Z),
        number <> Card.number c ->
        Card.is_valid_card_number number = Ok true ->
        Db.select_by_number (SimpleBankingSystem.tbl s) number = Some (n, p, b) ->
        SimpleBankingSystem.do_transfer number Py.OtherLine s
        = (Raise ValueError, SimpleBankingSystem.printed s ["Transfer"])).
Proof.
  intros Hc. split; [|split; [|split; [|split; [|split; [|split; [|split]]]]]].
  - apply transfer_same_account. exact Hc.
  - apply transfer_mistake. exact Hc.
  - apply transfer_no_such_card. exact Hc.
  - intros n p b. apply (transfer_not_enough s c number transfer_money Hc n p b).
  - intros n p b b0 Hne Hv Hsel Hle Hsrc H1 H2 H3 H4.
    pose proof (select_by_number_number _ _ _ _ _ Hsel) as ->.
    eexists _, _, _, _. split; [|split; [|split]].
    + rewrite update_balance_run. cbn [table stdout]. cbn zeta.
      replace (transfer_money * -1) with (- transfer_money) by lia.
      rewrite H1, H3, Hsrc. reflexivity.
    + rewrite update_balance_run. cbn [table stdout Card.number Card.code]. cbn zeta.
      rewrite H2, H4. rewrite select_balance_update_other by exact Hne.
      rewrite select_balance_by_number, Hsel. cbn [fmap option_fmap option_map snd].
      reflexivity.
    + rewrite (transfer_applied s c number transfer_money Hc number p b b0);
        try assumption.
      rewrite <- !app_assoc. reflexivity.
    + cbn [table stdout]. repeat split;
        first [ f_equal; lia | rewrite <- !app_assoc; reflexivity ].
  - intros n p b b0 Hne Hv Hsel Hle Hsrc H1.
    rewrite (transfer_past_checks s c number transfer_money Hc n p b b0 Hne Hv Hsel Hle Hsrc).
    cbn zeta. rewrite H1. unfold SimpleBankingSystem.printed. rewrite Hc. reflexivity.
  - intros e Hne Hv. pose proof (is_valid_raises _ _ Hv) as He.
    split; [exact He|].
    apply (transfer_validator_raises s c number amount Hc e Hne Hv).
    intros msg ->. destruct He; discriminate.
  - intros n p b Hne Hv Hsel.
    apply (transfer_bad_amount s c number Py.OtherLine Hc n p b Hne Hv Hsel eq_refl).
Qed.

Lemma do_transfer_checks_in_order_witness :
  SimpleBankingSystem.do_transfer SimpleBankingSystem.card_a 10
    SimpleBankingSystem.scenario
  = (Ok tt, SimpleBankingSystem.printed SimpleBankingSystem.scenario
              ["Transfer"; SimpleBankingSystem.msg_same_account])
  /\ SimpleBankingSystem.do_transfer "4000000000000011" 10
       SimpleBankingSystem.scenario
     = (Ok tt, SimpleBankingSystem.printed SimpleBankingSystem.scenario
                 ["Transfer"; SimpleBankingSystem.msg_mistake])
  /\ SimpleBankingSystem.do_transfer "4000000000000036" 10
       SimpleBankingSystem.scenario
     = (Ok tt, SimpleBankingSystem.printed SimpleBankingSystem.scenario
                 ["Transfer"; SimpleBankingSystem.msg_no_such_card])
  /\ SimpleBankingSystem.do_transfer SimpleBankingSystem.card_b 1000
       SimpleBankingSystem.scenario
     = (Ok tt, SimpleBankingSystem.printed SimpleBankingSystem.scenario
                 ["Transfer"; SimpleBankingSystem.msg_not_enough])
  /\ SimpleBankingSystem.tbl
       (snd (SimpleBankingSystem.do_transfer SimpleBankingSystem.card_b 10
               SimpleBankingSystem.scenario))
     = [Db.mkRow 1 SimpleBankingSystem.card_a "0001" 50;
        Db.mkRow 2 SimpleBankingSystem.card_b "0022" 50]
  /\ SimpleBankingSystem.do_transfer SimpleBankingSystem.card_b (- 2 ^ 63)
       SimpleBankingSystem.scenario
     = (Raise OverflowError,
        SimpleBankingSystem.printed SimpleBankingSystem.scenario
          ["Transfer"; Card.updating_line]).
Proof.
  pose (c := Card.mk SimpleBankingSystem.card_a "0001" 60).
  assert (Hc : SimpleBankingSystem.card SimpleBankingSystem.scenario = Some c)
    by (vm_compute; reflexivity).
  split; [|split; [|split; [|split; [|split]]]].
  - apply (proj1 (do_transfer_checks_in_order _ c _ 10 10 Hc)). reflexivity.
  - apply (proj1 (proj2 (do_transfer_checks_in_order _ c _ 10 10 Hc)));
      [discriminate | vm_compute; reflexivity].
  - apply (proj1 (proj2 (proj2 (do_transfer_checks_in_order _ c _ 10 10 Hc))));
      [discriminate | vm_compute; reflexivity | vm_compute; reflexivity].
  - apply (proj1 (proj2 (proj2 (proj2 (do_transfer_checks_in_order _ c _ 1000 1000 Hc))))
             SimpleBankingSystem.card_b "0022" 40);
      [discriminate | vm_compute; reflexivity | vm_compute; reflexivity
      | cbn; lia].
  - destruct (proj1 (proj2 (proj2 (proj2 (proj2
               (do_transfer_checks_in_order _ c SimpleBankingSystem.card_b 10 10 Hc)))))
               SimpleBankingSystem.card_b "0022" 40 60)
      as (c' & w1 & tc & w2 & _ & _ & Hrun & _ & Hw1 & Hw2 & _);
      [discriminate | vm_compute; reflexivity | vm_compute; reflexivity
      | cbn; lia | vm_compute; reflexivity | reflexivity | reflexivity
      | vm_compute; reflexivity | vm_compute; reflexivity |].
    rewrite Hrun. cbn [snd]. unfold SimpleBankingSystem.tbl at 1.
    cbn [SimpleBankingSystem.world_of]. rewrite Hw2, Hw1. vm_compute. reflexivity.
  - apply (proj1 (proj2 (proj2 (proj2 (proj2 (proj2
             (do_transfer_checks_in_order _ c SimpleBankingSystem.card_b
                (- 2 ^ 63) (- 2 ^ 63) Hc))))))
             SimpleBankingSystem.card_b "0022" 40 60);
      [discriminate | vm_compute; reflexivity | vm_compute; reflexivity
      | cbn; lia | vm_compute; reflexivity | reflexivity].
Defined.

(** C3, as the specification has it, fails: for a number typed with a
    letter before its last character the second check does not answer; the
    validator raises [ValueError], which [except TransactionError] does not
    catch, and no message of the transfer is printed. *)
Lemma do_transfer_malformed_number :
  SimpleBankingSystem.do_transfer "a0" 10 SimpleBankingSystem.scenario
  = (Raise ValueError,
     SimpleBankingSystem.printed SimpleBankingSystem.scenario ["Transfer"]).
Proof. vm_compute. reflexivity. Qed.

(** C4, as the code has it. Whenever one of the four checks of
    [__do_transfer] fails by its own test (the number typed is the card's
    own, the validator returns [False], no such card is stored, the amount
    exceeds the balance), nothing is changed: the table, with the balances
    of every card, and the card in memory are what they were; the exception
    is caught, its message is printed and the command returns. When the
    second check fails by the validator raising, nothing is changed either,
    but the exception is not caught. *)
Theorem failed_transfer_changes_nothing
    (s : SimpleBankingSystem.t) (c : Card.t) (number : string) (transfer_money : Z) :
  SimpleBankingSystem.card s = Some c ->
  ((number = Card.number c
   \/ (number <> Card.number c
       /\ Card.is_valid_card_number number = Ok false)
   \/ (number <> Card.number c
       /\ Card.is_valid_card_number number = Ok true
       /\ Db.select_by_number (SimpleBankingSystem.tbl s) number = None)
   \/ (number <> Card.number c
       /\ Card.is_valid_card_number number = Ok true
       /\ Db.select_by_number (SimpleBankingSystem.tbl s) number <> None
       /\ transfer_money > Card.balance c)) ->
  exists (msg : string) (s' : SimpleBankingSystem.t),
    SimpleBankingSystem.do_transfer number transfer_money s = (Ok tt, s')
    /\ SimpleBankingSystem.tbl s' = SimpleBankingSystem.tbl s
    /\ SimpleBankingSystem.card s' = SimpleBankingSystem.card s
    /\ SimpleBankingSystem.running s' = SimpleBankingSystem.running s
    /\ SimpleBankingSystem.out s' = SimpleBankingSystem.out s ++ ["Transfer"; msg]
    /\ In msg [SimpleBankingSystem.msg_same_account; SimpleBankingSystem.msg_mistake;
               SimpleBankingSystem.msg_no_such_card; SimpleBankingSystem.msg_not_enough])
  /\ (forall e : exn,
        number <> Card.number c ->
        Card.is_valid_card_number number = Raise e ->
        exists s' : SimpleBankingSystem.t,
          SimpleBankingSystem.do_transfer number transfer_money s = (Raise e, s')
          /\ (e = IndexError \/ e = ValueError)
          /\ SimpleBankingSystem.tbl s' = SimpleBankingSystem.tbl s
          /\ SimpleBankingSystem.card s' = SimpleBankingSystem.card s
          /\ SimpleBankingSystem.running s' = SimpleBankingSystem.running s
          /\ SimpleBankingSystem.out s' = SimpleBankingSystem.out s ++ ["Transfer"]).
Proof.
  intros Hc. split; [|intros e Hne Hv; pose proof (is_valid_raises _ _ Hv) as He;
                      eexists; split;
                      [apply (transfer_validator_raises s c number transfer_money
                                Hc e Hne Hv);
                       intros msg ->; destruct He; discriminate
                      |repeat split; exact He]].
  intros [H | [[Hne Hv] | [(Hne & Hv & Hsel) | (Hne & Hv & Hsel & Hgt)]]].
  - eexists _, _. split; [apply (transfer_same_account s c _ _ Hc H)|].
    repeat split. cbn. tauto.
  - eexists _, _. split; [apply (transfer_mistake s c _ _ Hc Hne Hv)|].
    repeat split. cbn. tauto.
  - eexists _, _. split; [apply (transfer_no_such_card s c _ _ Hc Hne Hv Hsel)|].
    repeat split. cbn. tauto.
  - destruct (Db.select_by_number (SimpleBankingSystem.tbl s) number)
      as [[[n p] b]|] eqn:E; [|congruence].
    eexists _, _. split; [apply (transfer_not_enough s c _ _ Hc n p b Hne Hv E Hgt)|].
    repeat split. cbn. tauto.
Qed.

Lemma failed_transfer_changes_nothing_witness :
  exists (msg : string) (s' : SimpleBankingSystem.t),
    SimpleBankingSystem.do_transfer SimpleBankingSystem.card_b 1000
      SimpleBankingSystem.scenario = (Ok tt, s')
    /\ SimpleBankingSystem.tbl s'
       = SimpleBankingSystem.tbl SimpleBankingSystem.scenario
    /\ SimpleBankingSystem.card s'
       = SimpleBankingSystem.card SimpleBankingSystem.scenario
    /\ SimpleBankingSystem.running s'
       = SimpleBankingSystem.running SimpleBankingSystem.scenario
    /\ SimpleBankingSystem.out s'
       = SimpleBankingSystem.out SimpleBankingSystem.scenario ++ ["Transfer"; msg]
    /\ In msg [SimpleBankingSystem.msg_same_account; SimpleBankingSystem.msg_mistake;
               SimpleBankingSystem.msg_no_such_card; SimpleBankingSystem.msg_not_enough].
Proof.
  apply (proj1 (failed_transfer_changes_nothing SimpleBankingSystem.scenario
                  (Card.mk SimpleBankingSystem.card_a "0001" 60)
                  SimpleBankingSystem.card_b 1000 eq_refl)).
  right. right. right.
  {
    split; [discriminate|]. split; [vm_compute; reflexivity|].
    split; [vm_compute; discriminate | cbn; lia]. }
Defined.

(** C4, as the specification has it, fails: when nothing is typed for the
    number, the second check fails by raising [IndexError]; the exception
    is not caught and ends the program, although no balance has changed. *)
Lemma failed_validation_is_fatal :
  SimpleBankingSystem.do_transfer "" 10 SimpleBankingSystem.scenario
  = (Raise IndexError,
     SimpleBankingSystem.printed SimpleBankingSystem.scenario ["Transfer"])
  /\ SimpleBankingSystem.tbl
       (snd (SimpleBankingSystem.do_transfer "" 10 SimpleBankingSystem.scenario))
     = SimpleBankingSystem.tbl SimpleBankingSystem.scenario.
Proof. split; vm_compute; reflexivity. Qed.

(** C10, as the code has it. [__do_transfer] does not reject an amount that
    is zero or negative: for a logged-in card whose balance is not negative
    and a destination that is another, valid and stored card, such an
    amount above -2^63, with no sum leaving the 64-bit range, passes the
    four checks and is applied, the amount being subtracted from the source
    and added to the destination; a negative amount thus moves money from
    the destination to the source. *)
Theorem transfer_accepts_non_positive
    (s : SimpleBankingSystem.t) (c : Card.t) (number p : string)
    (b transfer_money : Z) :
  SimpleBankingSystem.card s = Some c ->
  Db.select_balance (SimpleBankingSystem.tbl s) (Card.number c) = Some (Card.balance c) ->
  0 <= Card.balance c ->
  number <> Card.number c ->
  Card.is_valid_card_number number = Ok true ->
  Db.select_by_number (SimpleBankingSystem.tbl s) number = Some (number, p, b) ->
  transfer_money <= 0 ->
  - 2 ^ 63 < transfer_money ->
  Db.fits (SimpleBankingSystem.tbl s) (- transfer_money) (Card.number c) = true ->
  Db.fits (Db.update_balance (SimpleBankingSystem.tbl s)
             (- transfer_money) (Card.number c))
    transfer_money number = true ->
  exists s' : SimpleBankingSystem.t,
    SimpleBankingSystem.do_transfer number transfer_money s = (Ok tt, s')
    /\ SimpleBankingSystem.out s'
       = SimpleBankingSystem.out s
         ++ ["Transfer"; Card.updating_line; Card.updating_line]
    /\ SimpleBankingSystem.tbl s'
       = Db.update_balance
           (Db.update_balance (SimpleBankingSystem.tbl s)
              (- transfer_money) (Card.number c))
           transfer_money number
    /\ Db.select_balance (SimpleBankingSystem.tbl s') (Card.number c)
       = Some (Card.balance c - transfer_money)
    /\ Db.select_balance (SimpleBankingSystem.tbl s') number
       = Some (b + transfer_money)
    /\ SimpleBankingSystem.card s'
       = Some (Card.mk (Card.number c) (Card.code c) (Card.balance c - transfer_money)).
Proof.
  intros Hc Hsrc Hpos Hne Hv Hsel Hm Hlow Hf1 Hf2.
  eexists. split.
  - apply (transfer_applied s c number transfer_money Hc number p b (Card.balance c));
      try assumption; try lia; apply int64_spec; lia.
  - unfold SimpleBankingSystem.out, SimpleBankingSystem.tbl in *. simpl_state.
    split; [reflexivity|]. split; [reflexivity|]. split; [|split; [|reflexivity]].
    + rewrite select_balance_update_other by congruence.
      rewrite select_balance_update_same, Hsrc. cbn. f_equal; lia.
    + rewrite select_balance_update_same.
      rewrite select_balance_update_other by exact Hne.
      rewrite select_balance_by_number, Hsel. reflexivity.
Qed.

Lemma transfer_accepts_non_positive_witness :
  exists s' : SimpleBankingSystem.t,
    SimpleBankingSystem.do_transfer SimpleBankingSystem.card_b (-7)
      SimpleBankingSystem.scenario = (Ok tt, s')
    /\ Db.select_balance (SimpleBankingSystem.tbl s') SimpleBankingSystem.card_a
       = Some 67
    /\ Db.select_balance (SimpleBankingSystem.tbl s') SimpleBankingSystem.card_b
       = Some 33.
Proof.
  destruct (transfer_accepts_non_positive SimpleBankingSystem.scenario
              (Card.mk SimpleBankingSystem.card_a "0001" 60)
              SimpleBankingSystem.card_b "0022" 40 (-7))
    as (s' & H1 & _ & _ & H2 & H3 & _).
  - vm_compute. reflexivity.
  - vm_compute. reflexivity.
  - cbn. lia.
  - discriminate.
  - vm_compute. reflexivity.
  - vm_compute. reflexivity.
  - lia.
  - lia.
  - vm_compute. reflexivity.
  - vm_compute. reflexivity.
  - exists s'. split; [exact H1|]. split; [exact H2 | exact H3].
Defined.

(** C10, as the specification has it, fails: an amount of -2^63 passes the
    four checks, but its opposite cannot be bound for the debit:
    [OverflowError] is raised and the transfer is not applied. *)
Lemma transfer_of_least_amount :
  SimpleBankingSystem.do_transfer SimpleBankingSystem.card_b (- 2 ^ 63)
    SimpleBankingSystem.scenario
  = (Raise OverflowError,
     SimpleBankingSystem.printed SimpleBankingSystem.scenario
       ["Transfer"; Card.updating_line])
  /\ SimpleBankingSystem.tbl
       (snd (SimpleBankingSystem.do_transfer SimpleBankingSystem.card_b (- 2 ^ 63)
               SimpleBankingSystem.scenario))
     = [Db.mkRow 1 SimpleBankingSystem.card_a "0001" 60;
        Db.mkRow 2 SimpleBankingSystem.card_b "0022" 40].
Proof. split; vm_compute; reflexivity. Qed.

(** ** Logging in and out between two transfers *)

Section Sessions.

Import SimpleBankingSystem.

Lemma logout_run (s : t) :
  logout s = (Ok tt, mk (mkWorld (tbl s) (out s ++ [msg_logged_out])) None (running s)).
Proof. reflexivity. Qed.

(** The first row with the number carries the PIN typed: the card logs in,
    with the balance stored. *)
Lemma login_run (s : t) (n p : string) (b : Z) :
  Db.select_by_number (tbl s) n = Some (n, p, b) ->
  login n p s
  = (Ok tt, mk (mkWorld (tbl s) (out s ++ [msg_logged_in]))
               (Some (Card.mk n p b)) (running s)).
Proof.
  intros H. unfold login, Card.check_card, Card.init_with, tbl, out in *.
  unfold_monad. simpl_state.
  destruct (Card.truthy (Some p)).
  - rewrite (select_by_number_pin_first _ _ _ _ H). reflexivity.
  - rewrite H. reflexivity.
Qed.

End Sessions.

(** C6, as the code has it. For two different stored cards A and B with
    valid numbers, a transfer of an amount from A to B that succeeds,
    followed by B logging in and transferring the same amount to A, restores
    every balance, provided the balance of B before the first transfer is
    not negative, so that the second transfer passes the check of funds,
    and provided the amounts and the sums stay within the 64-bit range of
    the INTEGER column: every balance stored is such a number, the amount
    and its opposite are, and so are the balance of A less the amount and
    the balance of B plus the amount. *)
Theorem transfer_round_trip
    (s : SimpleBankingSystem.t) (a : Card.t) (pa : string) (ba : Z)
    (b pb : string) (bb : Z) (m : Z) :
  SimpleBankingSystem.card s = Some a ->
  Db.select_by_number (SimpleBankingSystem.tbl s) (Card.number a)
  = Some (Card.number a, pa, ba) ->
  Card.is_valid_card_number (Card.number a) = Ok true ->
  b <> Card.number a ->
  Card.is_valid_card_number b = Ok true ->
  Db.select_by_number (SimpleBankingSystem.tbl s) b = Some (b, pb, bb) ->
  m <= Card.balance a ->
  0 <= bb ->
  all_integer (SimpleBankingSystem.tbl s) = true ->
  Db.int64 m = true ->
  Db.int64 (- m) = true ->
  Db.fits (SimpleBankingSystem.tbl s) (- m) (Card.number a) = true ->
  Db.fits (SimpleBankingSystem.tbl s) m b = true ->
  let s1 := SimpleBankingSystem.runs [SimpleBankingSystem.DoTransfer b m] s in
  let s2 := SimpleBankingSystem.runs
              [SimpleBankingSystem.Logout; SimpleBankingSystem.Login b pb;
               SimpleBankingSystem.DoTransfer (Card.number a) m] s1 in
  Db.select_balance (SimpleBankingSystem.tbl s1) (Card.number a) = Some (ba - m)
  /\ Db.select_balance (SimpleBankingSystem.tbl s1) b = Some (bb + m)
  /\ SimpleBankingSystem.tbl s2 = SimpleBankingSystem.tbl s
  /\ Db.select_balance (SimpleBankingSystem.tbl s2) (Card.number a) = Some ba
  /\ Db.select_balance (SimpleBankingSystem.tbl s2) b = Some bb
  /\ SimpleBankingSystem.card s2 = Some (Card.mk b pb bb)
  /\ SimpleBankingSystem.out s2
     = SimpleBankingSystem.out s
       ++ ["Transfer"; Card.updating_line; Card.updating_line;
           SimpleBankingSystem.msg_logged_out; SimpleBankingSystem.msg_logged_in;
           "Transfer"; Card.updating_line; Card.updating_line].
Proof.
  intros Hc Ha Hva Hne Hvb Hb Hm Hbb Hall Hm64 Hm64' Hfa Hfb s1 s2.
  assert (Hba : Db.select_balance (SimpleBankingSystem.tbl s) (Card.number a) = Some ba)
    by (rewrite select_balance_by_number, Ha; reflexivity).
  assert (Hbb' : Db.select_balance (SimpleBankingSystem.tbl s) b = Some bb)
    by (rewrite select_balance_by_number, Hb; reflexivity).
  assert (Hfb1 : Db.fits (Db.update_balance (SimpleBankingSystem.tbl s) (- m) (Card.number a))
                   m b = true)
    by (rewrite fits_update_other by congruence; exact Hfb).
  pose proof (transfer_applied s a b m Hc b pb bb ba Hne Hvb Hb Hm Hba
                Hm64' Hm64 Hfa Hfb1) as H1.
  set (t1 := Db.update_balance
               (Db.update_balance (SimpleBankingSystem.tbl s) (- m) (Card.number a))
               m b) in *.
  assert (Hb1 : Db.select_by_number t1 b = Some (b, pb, bb + m)).
  { unfold t1. rewrite select_by_number_update_same.
    rewrite select_by_number_update_other by exact Hne. rewrite Hb. reflexivity. }
  assert (Ha1 : Db.select_by_number t1 (Card.number a)
                = Some (Card.number a, pa, ba - m)).
  { unfold t1. rewrite select_by_number_update_other by congruence.
    rewrite select_by_number_update_same, Ha. cbn.
    replace (ba + - m) with (ba - m) by lia. reflexivity. }
  set (o1 := SimpleBankingSystem.out s
             ++ ["Transfer"; Card.updating_line; Card.updating_line]) in *.
  set (S3 := SimpleBankingSystem.mk
               (mkWorld t1 ((o1 ++ [SimpleBankingSystem.msg_logged_out])
                            ++ [SimpleBankingSystem.msg_logged_in]))
               (Some (Card.mk b pb (bb + m))) (SimpleBankingSystem.running s)).
  assert (H3 : SimpleBankingSystem.do_transfer (Card.number a) m S3
               = (Ok tt,
                  SimpleBankingSystem.mk
                    (mkWorld
                       (Db.update_balance (Db.update_balance t1 (- m) b) m (Card.number a))
                       (SimpleBankingSystem.out S3
                        ++ ["Transfer"; Card.updating_line; Card.updating_line]))
                    (Some (Card.mk b pb (bb + m - m)))
                    (SimpleBankingSystem.running s))).
  { apply (transfer_applied S3 (Card.mk b pb (bb + m)) (Card.number a) m eq_refl
             (Card.number a) pa (ba - m) (bb + m)).
    - cbn [Card.number]. congruence.
    - exact Hva.
    - exact Ha1.
    - cbn [Card.balance]. lia.
    - cbn [Card.number]. rewrite select_balance_by_number.
      unfold S3, SimpleBankingSystem.tbl.
      cbn [SimpleBankingSystem.world_of table]. rewrite Hb1. reflexivity.
    - exact Hm64'.
    - exact Hm64.
    - cbn [Card.number]. unfold S3, SimpleBankingSystem.tbl.
      cbn [SimpleBankingSystem.world_of table]. unfold t1.
      apply fits_update_back, all_integer_update; assumption.
    - cbn [Card.number]. unfold S3, SimpleBankingSystem.tbl.
      cbn [SimpleBankingSystem.world_of table]. unfold t1.
      rewrite update_balance_back.
      replace m with (- - m) at 2 by lia.
      apply fits_update_back. exact Hall. }
  assert (Ht : Db.update_balance (Db.update_balance t1 (- m) b) m (Card.number a)
               = SimpleBankingSystem.tbl s).
  { unfold t1. rewrite update_balance_back.
    replace m with (- - m) at 2 by lia. apply update_balance_back. }
  rewrite Ht in H3.
  set (S1 := SimpleBankingSystem.mk (mkWorld t1 o1)
               (Some (Card.mk (Card.number a) (Card.code a) (ba - m)))
               (SimpleBankingSystem.running s)).
  set (S2 := SimpleBankingSystem.mk
               (mkWorld t1 (o1 ++ [SimpleBankingSystem.msg_logged_out]))
               None (SimpleBankingSystem.running s)).
  assert (E1 : (SimpleBankingSystem.do_transfer b m s).2 = S1)
    by (rewrite H1; reflexivity).
  assert (E2 : (SimpleBankingSystem.logout S1).2 = S2) by reflexivity.
  assert (E3 : (SimpleBankingSystem.login b pb S2).2 = S3)
    by (rewrite (login_run S2 b pb (bb + m) Hb1); reflexivity).
  subst s1 s2. cbn [SimpleBankingSystem.runs foldl SimpleBankingSystem.run].
  rewrite E1, E2, E3, H3. cbn [snd].
  unfold SimpleBankingSystem.tbl, SimpleBankingSystem.out in *.
  cbn [SimpleBankingSystem.world_of SimpleBankingSystem.card table stdout S1 S3].
  unfold S1, S3.
  cbn [SimpleBankingSystem.world_of SimpleBankingSystem.card table stdout].
  rewrite !select_balance_by_number, Ha1, Hb1, Ha, Hb.
  cbn [fmap option_fmap option_map snd].
  repeat split.
  - do 2 f_equal. lia.
  - unfold o1. rewrite <- !app_assoc. reflexivity.
Qed.

Lemma transfer_round_trip_witness :
  let s := SimpleBankingSystem.scenario in
  let s2 := SimpleBankingSystem.runs
              [SimpleBankingSystem.DoTransfer SimpleBankingSystem.card_b 10;
               SimpleBankingSystem.Logout;
               SimpleBankingSystem.Login SimpleBankingSystem.card_b "0022";
               SimpleBankingSystem.DoTransfer SimpleBankingSystem.card_a 10] s in
  SimpleBankingSystem.tbl s2 = SimpleBankingSystem.tbl s
  /\ Db.select_balance (SimpleBankingSystem.tbl s2) SimpleBankingSystem.card_a = Some 60
  /\ Db.select_balance (SimpleBankingSystem.tbl s2) SimpleBankingSystem.card_b = Some 40.
Proof.
  destruct (transfer_round_trip SimpleBankingSystem.scenario
              (Card.mk SimpleBankingSystem.card_a "0001" 60) "0001" 60
              SimpleBankingSystem.card_b "0022" 40 10)
    as (_ & _ & H1 & H2 & H3 & _).
  - vm_compute. reflexivity.
  - vm_compute. reflexivity.
  - vm_compute. reflexivity.
  - discriminate.
  - vm_compute. reflexivity.
  - vm_compute. reflexivity.
  - cbn. lia.
  - lia.
  - vm_compute. reflexivity.
  - reflexivity.
  - reflexivity.
  - vm_compute. reflexivity.
  - vm_compute. reflexivity.
  - split; [exact H1|]. split; [exact H2 | exact H3].
Defined.

(** C6, as the specification has it, fails. In a state the commands reach,
    the second card holds -50 after a negative income; the first sends it
    10, and the transfer back is refused for lack of funds: the balances
    stay at 90 and -40 instead of returning to 100 and -50. *)
Lemma transfer_round_trip_overdrawn :
  SimpleBankingSystem.reachable false SimpleBankingSystem.scenario_overdrawn
  /\ Db.select_balance
       (SimpleBankingSystem.tbl SimpleBankingSystem.scenario_overdrawn)
       SimpleBankingSystem.card_a = Some 100
  /\ Db.select_balance
       (SimpleBankingSystem.tbl SimpleBankingSystem.scenario_overdrawn)
       SimpleBankingSystem.card_b = Some (-50)
  /\ (let s1 := SimpleBankingSystem.runs
                  [SimpleBankingSystem.DoTransfer SimpleBankingSystem.card_b 10]
                  SimpleBankingSystem.scenario_overdrawn in
      let s2 := SimpleBankingSystem.runs
                  [SimpleBankingSystem.Logout;
                   SimpleBankingSystem.Login SimpleBankingSystem.card_b "0022";
                   SimpleBankingSystem.DoTransfer SimpleBankingSystem.card_a 10] s1 in
      Db.select_balance (SimpleBankingSystem.tbl s1) SimpleBankingSystem.card_a = Some 90
      /\ Db.select_balance (SimpleBankingSystem.tbl s1) SimpleBankingSystem.card_b = Some (-40)
      /\ Db.select_balance (SimpleBankingSystem.tbl s2) SimpleBankingSystem.card_a = Some 90
      /\ Db.select_balance (SimpleBankingSystem.tbl s2) SimpleBankingSystem.card_b = Some (-40)
      /\ last (SimpleBankingSystem.out s2) = Some SimpleBankingSystem.msg_not_enough).
Proof.
  split.
  - unfold SimpleBankingSystem.scenario_overdrawn.
    cbn [SimpleBankingSystem.runs foldl].
    repeat (apply SimpleBankingSystem.reachable_run;
            [ | vm_compute; reflexivity | vm_compute; reflexivity
              | first [exact I | cbn; unfold Py.randint_outcome; lia]
              | discriminate ]).
    apply SimpleBankingSystem.reachable_initial.
  - repeat split; vm_compute; reflexivity.
Qed.

(** ** One record per card number *)

Section Preserves.

Context {St : Type} (proj : St -> list Db.row).

Lemma fewer_numbers_refl (t : list Db.row) : fewer_numbers t t.
Proof. unfold fewer_numbers. reflexivity. Qed.

Lemma fewer_numbers_trans (t1 t2 t3 : list Db.row) :
  fewer_numbers t1 t2 -> fewer_numbers t2 t3 -> fewer_numbers t1 t3.
Proof. unfold fewer_numbers. intros H12 H23. etransitivity; eassumption. Qed.

Lemma preserves_ret {A : Type} (a : A) : preserves proj (ret a).
Proof. intros s. apply fewer_numbers_refl. Qed.

Lemma preserves_raise {A : Type} (e : exn) : preserves proj (@raise St A e).
Proof. intros s. apply fewer_numbers_refl. Qed.

Lemma preserves_gets {A : Type} (f : St -> A) : preserves proj (gets f).
Proof. intros s. apply fewer_numbers_refl. Qed.

Lemma preserves_of_result {A : Type} (r : result A) : preserves proj (@of_result St A r).
Proof. intros s. apply fewer_numbers_refl. Qed.

Lemma preserves_modify (f : St -> St) :
  (forall s, fewer_numbers (proj s) (proj (f s))) -> preserves proj (modify f).
Proof. intros H s. apply H. Qed.

Lemma preserves_bind {A B : Type} (m : M St A) (k : A -> M St B) :
  preserves proj m -> (forall a, preserves proj (k a)) -> preserves proj (bind m k).
Proof.
  intros Hm Hk s. unfold bind. specialize (Hm s).
  destruct (m s) as [[a|e|] s1]; cbn [snd] in *; [|exact Hm|exact Hm].
  eapply fewer_numbers_trans; [exact Hm | apply Hk].
Qed.

Lemma preserves_try (body : M St unit) (handler : string -> M St unit) :
  preserves proj body -> (forall msg, preserves proj (handler msg)) ->
  preserves proj (try_except_TransactionError body handler).
Proof.
  intros Hb Hh s. unfold try_except_TransactionError. specialize (Hb s).
  destruct (body s) as [[a|e|] s1]; cbn [snd] in *; [exact Hb| |exact Hb].
  destruct e; try exact Hb.
  eapply fewer_numbers_trans; [exact Hb | apply Hh].
Qed.

End Preserves.

Section OneRecordPerNumber.

Import SimpleBankingSystem.

Lemma preserves_print (line : string) : preserves table (print line).
Proof. apply preserves_modify. intros w. apply fewer_numbers_refl. Qed.

Lemma preserves_update_balance (self : Card.t) (money : Z) :
  preserves table (Card.update_balance self money).
Proof.
  unfold Card.update_balance.
  apply preserves_bind; [apply preserves_print|]. intros _.
  apply preserves_bind.
  { destruct (Db.int64 money); [apply preserves_ret | apply preserves_raise]. }
  intros _. apply preserves_bind; [apply preserves_gets|].
  intros fit. apply preserves_bind.
  { destruct fit; [apply preserves_ret | apply preserves_of_result]. }
  intros _. apply preserves_bind.
  - apply preserves_modify. intros w. unfold fewer_numbers. cbn [table].
    rewrite update_balance_numbers. reflexivity.
  - intros _. apply preserves_bind; [apply preserves_gets|].
    intros [b|]; [apply preserves_ret | apply preserves_raise].
Qed.

Lemma preserves_check_card (number : string) (code : option string) :
  preserves table (Card.check_card number code).
Proof.
  unfold Card.check_card. apply preserves_bind; [apply preserves_gets|].
  intros [[[n p] b]|]; [|apply preserves_ret].
  apply preserves_bind; [apply preserves_ret|]. intros ?. apply preserves_ret.
Qed.

Lemma filter_numbers_sublist (f : Db.row -> bool) (t : list Db.row) :
  sublist (map Db.number (List.filter f t)) (map Db.number t).
Proof.
  induction t as [|r t IH]; [constructor|].
  cbn [List.filter map]. destruct (f r); cbn [map].
  - apply sublist_skip. exact IH.
  - apply sublist_cons. exact IH.
Qed.

Lemma preserves_delete_card (self : Card.t) :
  preserves table (Card.delete_card self).
Proof.
  apply preserves_modify. intros w. unfold fewer_numbers, Db.delete. cbn [table].
  apply filter_numbers_sublist.
Qed.

Lemma preserves_lift {A : Type} (m : M world A) :
  preserves table m -> preserves tbl (lift m).
Proof.
  intros H s. unfold lift, tbl. specialize (H (world_of s)).
  destruct (m (world_of s)) as [r w]. exact H.
Qed.

Lemma preserves_set_card (c : option Card.t) : preserves tbl (set_card c).
Proof. apply preserves_modify. intros s. apply fewer_numbers_refl. Qed.

Lemma preserves_self_card : preserves tbl self_card.
Proof. intros s. unfold self_card. destruct (card s); apply fewer_numbers_refl. Qed.

Lemma preserves_do_transfer (number : string) (amount : Py.line) :
  preserves tbl (do_transfer number amount).
Proof.
  unfold do_transfer.
  apply preserves_bind; [apply preserves_lift, preserves_print|]. intros _.
  apply preserves_try; [|intros msg; apply preserves_lift, preserves_print].
  unfold transfer_try.
  apply preserves_bind; [apply preserves_self_card|]. intros c.
  apply preserves_bind.
  { destruct (bool_decide (number = Card.number c)); [apply preserves_raise|].
    apply preserves_bind; [apply preserves_of_result|].
    intros [|]; cbn [negb]; [apply preserves_ret | apply preserves_raise]. }
  intros _.
  apply preserves_bind; [apply preserves_lift, preserves_check_card|].
  intros [tc|]; [|apply preserves_raise].
  apply preserves_bind; [apply preserves_of_result|]. intros transfer_money.
  apply preserves_bind; [apply preserves_self_card|]. intros c0.
  destruct (transfer_money >? Card.balance c0); [apply preserves_raise|].
  apply preserves_bind; [apply preserves_lift, preserves_update_balance|]. intros c'.
  apply preserves_bind; [apply preserves_set_card|]. intros _.
  apply preserves_bind; [apply preserves_lift, preserves_update_balance|]. intros _.
  apply preserves_ret.
Qed.

(** Every command but the opening of an account stores no new number. *)
Lemma preserves_run (c : command) :
  (forall r p, c <> CreateAccount r p) -> preserves tbl (run c).
Proof.
  intros Hc. destruct c as [r p|n code| |income|number money| | |]; cbn [run].
  - destruct (Hc r p eq_refl).
  - unfold login. apply preserves_bind; [apply preserves_lift, preserves_check_card|].
    intros o. apply preserves_bind; [apply preserves_set_card|]. intros _.
    destruct o; apply preserves_lift, preserves_print.
  - unfold balance. apply preserves_bind; [apply preserves_self_card|].
    intros c. apply preserves_lift, preserves_print.
  - unfold add_income. apply preserves_bind; [apply preserves_of_result|]. intros i.
    apply preserves_bind; [apply preserves_self_card|]. intros c.
    apply preserves_bind; [apply preserves_lift, preserves_update_balance|]. intros c'.
    apply preserves_bind; [apply preserves_set_card|]. intros _.
    apply preserves_lift, preserves_print.
  - apply preserves_do_transfer.
  - unfold close_account. apply preserves_bind; [apply preserves_self_card|]. intros c.
    apply preserves_bind; [apply preserves_lift, preserves_delete_card|]. intros _.
    apply preserves_set_card.
  - unfold logout. apply preserves_bind; [apply preserves_set_card|]. intros _.
    apply preserves_lift, preserves_print.
  - unfold exit_program. apply preserves_bind.
    + apply preserves_modify. intros s. apply fewer_numbers_refl.
    + intros _. apply preserves_lift, preserves_print.
Qed.

(** Opening an account appends one row, with the number generated. *)
Lemma create_account_table (r p : Z) (s : t) :
  tbl (snd (create_account r p s))
  = match Card.create_card r with
    | Ok n => Db.insert (tbl s) n (Card.create_code p) 0
    | _ => tbl s
    end.
Proof.
  unfold create_account, Card.init_new, Card.save_to_db, tbl. unfold_monad.
  destruct (Card.create_card r); reflexivity.
Qed.

Lemma select_by_number_none (t : list Db.row) (n : string) :
  Db.select_by_number t n = None -> n ∉ map Db.number t.
Proof.
  unfold Db.select_by_number. intros H Hin.
  apply list_elem_of_In, in_map_iff in Hin as (r & Hr & Hin).
  assert (Hf : In r (List.filter (fun r => bool_decide (Db.number r = n)) t)).
  { apply filter_In. split; [exact Hin|]. apply bool_decide_eq_true. exact Hr. }
  destruct (List.filter _ t); [destruct Hf | discriminate].
Qed.

Lemma insert_fresh_numbers (t : list Db.row) (n p : string) (b : Z) :
  NoDup (map Db.number t) -> n ∉ map Db.number t ->
  NoDup (map Db.number (Db.insert t n p b)).
Proof.
  intros Hnd Hfresh. unfold Db.insert. rewrite map_app. cbn [map Db.number].
  apply NoDup_app. split; [exact Hnd|]. split.
  - intros x Hx Hx'. apply list_elem_of_singleton in Hx'. subst. contradiction.
  - apply NoDup_singleton.
Qed.

End OneRecordPerNumber.

(** C9, as the code has it. In every state the commands reach while every
    card number generated was not stored yet, no two rows of the table
    carry the same number: adding income, transferring, logging in or out
    and closing an account store no new number. *)
Theorem one_record_per_fresh_number (s : SimpleBankingSystem.t) :
  SimpleBankingSystem.reachable true s ->
  NoDup (map Db.number (SimpleBankingSystem.tbl s)).
Proof.
  induction 1 as [|s c Hreach IH Hrun Hmenu Hdraws Hfresh].
  - constructor.
  - assert (Hother : (forall r p, c <> SimpleBankingSystem.CreateAccount r p) ->
                     NoDup (map Db.number (SimpleBankingSystem.tbl
                                             (snd (SimpleBankingSystem.run c s))))).
    { intros Hc. eapply sublist_NoDup; [exact IH|].
      apply (preserves_run c Hc s). }
    destruct c as [r p| | | | | | |]; try (apply Hother; discriminate).
    clear Hother.
    cbn [SimpleBankingSystem.run]. rewrite create_account_table.
    specialize (Hfresh eq_refl). cbn [SimpleBankingSystem.draws_fresh] in Hfresh.
    destruct (Card.create_card r) as [n|e|]; [|exact IH|exact IH].
    apply insert_fresh_numbers; [exact IH|].
    apply select_by_number_none, Hfresh. reflexivity.
Qed.

Lemma one_record_per_fresh_number_witness :
  NoDup (map Db.number (SimpleBankingSystem.tbl SimpleBankingSystem.scenario)).
Proof.
  apply one_record_per_fresh_number.
  unfold SimpleBankingSystem.scenario. cbn [SimpleBankingSystem.runs foldl].
  repeat (apply SimpleBankingSystem.reachable_run;
          [ | vm_compute; reflexivity | vm_compute; reflexivity
            | first [exact I | cbn; unfold Py.randint_outcome; lia]
            | intros _; first [exact I | intros n Hn; vm_compute in Hn;
                                         injection Hn as <-; vm_compute; reflexivity] ]).
  apply SimpleBankingSystem.reachable_initial.
Defined.

(** C9, as the specification has it, fails: [__create_card] does not look
    the number up, and the table has no constraint on it; two accounts
    opened with the same draw are two rows with one number. *)
Lemma two_records_one_number :
  let s := SimpleBankingSystem.runs
             [SimpleBankingSystem.CreateAccount 1 1;
              SimpleBankingSystem.CreateAccount 1 1] SimpleBankingSystem.initial in
  SimpleBankingSystem.reachable false s
  /\ SimpleBankingSystem.tbl s
     = [Db.mkRow 1 "4000000000000010" "0001" 0;
        Db.mkRow 2 "4000000000000010" "0001" 0]
  /\ ~ NoDup (map Db.number (SimpleBankingSystem.tbl s)).
Proof.
  cbn zeta. split; [|split].
  - cbn [SimpleBankingSystem.runs foldl].
    repeat (apply SimpleBankingSystem.reachable_run;
            [ | vm_compute; reflexivity | vm_compute; reflexivity
              | cbn; unfold Py.randint_outcome; lia
              | discriminate ]).
    apply SimpleBankingSystem.reachable_initial.
  - vm_compute. reflexivity.
  - vm_compute. intros H. apply NoDup_cons in H as [Hin _].
    apply Hin. left.
Qed.

(** ** Further properties of the check digit and the validator *)

Section ValidatorTotal.

Lemma ints_of_string_app (s1 s2 : string) (ds1 ds2 : list Z) :
  Py.ints_of_string s1 = Ok ds1 -> Py.ints_of_string s2 = Ok ds2 ->
  Py.ints_of_string (s1 +:+ s2) = Ok (ds1 ++ ds2).
Proof.
  revert ds1. induction s1 as [|c s1 IH]; intros ds1 H1 H2; simpl in *.
  - injection H1 as <-. exact H2.
  - destruct (Py.int_of_char c) as [d|e|]; [|discriminate|discriminate].
    cbn [rbind] in *.
    destruct (Py.ints_of_string s1) as [ds|e|]; [|discriminate|discriminate].
    cbn [rbind] in *.
    injection H1 as <-. rewrite (IH ds eq_refl H2). reflexivity.
Qed.

(** On a string of digits, the validator compares the sum of the whole
    number, read from the right with the last digit not doubled, with a
    multiple of 10. *)
Lemma is_valid_sum (s : string) (ch : ascii) (ds : list Z) (d : Z) :
  Py.ints_of_string s = Ok ds ->
  Py.int_of_char ch = Ok d ->
  Card.is_valid_card_number (s +:+ String ch EmptyString)
  = Ok (bool_decide (LuhnSpec.sum_from_right (rev (ds ++ [d])) false mod 10 = 0)).
Proof.
  intros Hds Hd. rewrite is_valid_snoc, (checksum_of_digits _ _ Hds). cbn [rbind].
  rewrite (str_decimal _ (check_digit_decimal ds)). f_equal.
  assert (Hch : Py.is_digit ch = true).
  { unfold Py.int_of_char in Hd. destruct (Py.is_digit ch); [reflexivity | discriminate]. }
  destruct (int_of_char_digit ch Hch) as (d' & Hd' & Hdec & Hback).
  rewrite Hd in Hd'. injection Hd' as <-.
  rewrite sum_from_right_with_check. apply bool_decide_ext. split.
  - intros [= E]. rewrite <- Hback in E.
    assert (Hdd : LuhnSpec.check_digit ds = d).
    { rewrite <- (digit_char_value _ (check_digit_decimal ds)),
        <- (digit_char_value _ Hdec), E. reflexivity. }
    rewrite <- Hdd, Z.add_comm. apply check_digit_completes.
  - intros Hsum. rewrite Z.add_comm in Hsum.
    rewrite <- (check_digit_unique ds d Hdec Hsum), Hback. reflexivity.
Qed.

Lemma double_decimal (d : Z) : is_decimal d -> is_decimal (LuhnSpec.double d).
Proof.
  unfold is_decimal, LuhnSpec.double. intros H.
  destruct (Z.ltb_spec 9 (d * 2)); lia.
Qed.

Lemma double_inj (d d' : Z) :
  is_decimal d -> is_decimal d' -> LuhnSpec.double d = LuhnSpec.double d' -> d = d'.
Proof.
  unfold is_decimal, LuhnSpec.double. intros H H'.
  destruct (Z.ltb_spec 9 (d * 2)); destruct (Z.ltb_spec 9 (d' * 2)); lia.
Qed.

(** The sum splits at any digit; whether that digit is doubled depends on
    how many digits stand to its right only. *)
Lemma sum_from_right_split (l : list Z) (b : bool) :
  exists p : bool, forall (x : Z) (rest : list Z),
    LuhnSpec.sum_from_right (l ++ x :: rest) b
    = LuhnSpec.sum_from_right l b
      + (if p then LuhnSpec.double x else x)
      + LuhnSpec.sum_from_right rest (negb p).
Proof.
  revert b. induction l as [|y l IH]; intros b.
  - exists b. intros x rest. cbn. lia.
  - destruct (IH (negb b)) as [p Hp]. exists p. intros x rest.
    cbn [app LuhnSpec.sum_from_right]. rewrite Hp. lia.
Qed.

End ValidatorTotal.

Section ValidatorSum.

Lemma is_valid_digits (number : string) :
  all_digits number = true -> number <> EmptyString ->
  exists ds : list Z,
    Py.ints_of_string number = Ok ds
    /\ Forall is_decimal ds
    /\ Card.is_valid_card_number number
       = Ok (bool_decide (LuhnSpec.sum_from_right (rev ds) false mod 10 = 0)).
Proof.
  intros Hall Hne.
  destruct (string_snoc_cases number) as [->|(s & ch & ->)]; [congruence|].
  rewrite all_digits_app in Hall. apply andb_true_iff in Hall as [Hs Hch].
  cbn [all_digits] in Hch. rewrite andb_true_r in Hch.
  destruct (ints_of_string_digits s Hs) as (ds & Hds & _ & Hdec).
  destruct (int_of_char_digit ch Hch) as (d & Hd & Hd9 & _).
  exists (ds ++ [d]). split; [|split].
  - apply ints_of_string_app; [exact Hds|]. cbn. rewrite Hd. reflexivity.
  - apply Forall_app. split; [exact Hdec|]. constructor; [exact Hd9 | constructor].
  - apply is_valid_sum; assumption.
Qed.

Lemma int_of_char_inj (c c' : ascii) (d : Z) :
  Py.int_of_char c = Ok d -> Py.int_of_char c' = Ok d -> c = c'.
Proof.
  unfold Py.int_of_char. intros H H'.
  destruct (Py.is_digit c); [|discriminate]. destruct (Py.is_digit c'); [|discriminate].
  injection H as H. injection H' as H'.
  rewrite <- (ascii_nat_embedding c), <- (ascii_nat_embedding c'). f_equal. lia.
Qed.

End ValidatorSum.

(** X1. Among the strings of characters below U+0100,
    [calculate_luhn_checksum] returns exactly on those made of the digits
    [0] to [9], the empty one included, and then returns a decimal digit;
    on any other of these strings [int] raises [ValueError]. *)
Theorem calculate_luhn_checksum_returns_on_digits (s : string) :
  (all_digits s = true ->
   exists c : Z, Card.calculate_luhn_checksum s = Ok c /\ is_decimal c)
  /\ (all_digits s = false -> Card.calculate_luhn_checksum s = Raise ValueError).
Proof.
  split; intros H.
  - destruct (ints_of_string_digits s H) as (ds & Hds & _ & _).
    exists (LuhnSpec.check_digit ds). split.
    + apply checksum_of_digits. exact Hds.
    + apply check_digit_decimal.
  - unfold Card.calculate_luhn_checksum.
    rewrite (ints_of_string_not_digits s H). reflexivity.
Qed.

Lemma calculate_luhn_checksum_returns_on_digits_witness :
  (exists c : Z, Card.calculate_luhn_checksum "79927398713" = Ok c /\ is_decimal c)
  /\ Card.calculate_luhn_checksum "4000 0084" = Raise ValueError.
Proof.
  split.
  - apply (proj1 (calculate_luhn_checksum_returns_on_digits "79927398713")). reflexivity.
  - apply (proj2 (calculate_luhn_checksum_returns_on_digits "4000 0084")). reflexivity.
Defined.

(** X2. On the strings of characters below U+0100,
    [is_valid_card_number] raises in two cases only: [IndexError] on the
    empty string, and [ValueError] when a character before the last is not
    one of the digits [0] to [9]. On every other of these strings it
    returns a boolean. *)
Theorem is_valid_card_number_outcomes (number : string) :
  (number = EmptyString
   /\ Card.is_valid_card_number number = Raise IndexError)
  \/ (exists (s : string) (ch : ascii),
        number = s +:+ String ch EmptyString
        /\ all_digits s = false
        /\ Card.is_valid_card_number number = Raise ValueError)
  \/ (exists (s : string) (ch : ascii) (b : bool),
        number = s +:+ String ch EmptyString
        /\ all_digits s = true
        /\ Card.is_valid_card_number number = Ok b).
Proof.
  destruct (string_snoc_cases number) as [->|(s & ch & ->)].
  - left. split; reflexivity.
  - right. destruct (all_digits s) eqn:E.
    + right. destruct (ints_of_string_digits s E) as (ds & Hds & _ & _).
      eexists s, ch, _. split; [reflexivity|]. split; [exact E|].
      rewrite is_valid_snoc, (checksum_of_digits _ _ Hds). reflexivity.
    + left. exists s, ch. split; [reflexivity|]. split; [exact E|].
      apply is_valid_not_digits. exact E.
Qed.

(** X3. On a non-empty string of decimal digits, [is_valid_card_number]
    returns [True] exactly when the Luhn sum of the whole number, read from
    the right with the last digit not doubled and every second digit
    doubled, is a multiple of 10. *)
Theorem is_valid_card_number_is_luhn_sum (number : string) :
  all_digits number = true ->
  number <> EmptyString ->
  exists ds : list Z,
    Py.ints_of_string number = Ok ds
    /\ Card.is_valid_card_number number
       = Ok (bool_decide (LuhnSpec.sum_from_right (rev ds) false mod 10 = 0)).
Proof.
  intros Hall Hne. destruct (is_valid_digits number Hall Hne) as (ds & H1 & _ & H2).
  exists ds. split; assumption.
Qed.

Lemma is_valid_card_number_is_luhn_sum_witness :
  exists ds : list Z,
    Py.ints_of_string "79927398713" = Ok ds
    /\ Card.is_valid_card_number "79927398713"
       = Ok (bool_decide (LuhnSpec.sum_from_right (rev ds) false mod 10 = 0)).
Proof.
  apply (is_valid_card_number_is_luhn_sum "79927398713"); [reflexivity | discriminate].
Defined.

(** X4. [is_valid_card_number] catches every single wrong digit: if a
    number of decimal digits is accepted, the number obtained by replacing
    one of its digits, at any position, by a different decimal digit is
    rejected. *)
Theorem is_valid_card_number_detects_substitution
    (s1 s2 : string) (c c' : ascii) :
  all_digits (s1 +:+ String c s2) = true ->
  Py.is_digit c' = true ->
  c <> c' ->
  Card.is_valid_card_number (s1 +:+ String c s2) = Ok true ->
  Card.is_valid_card_number (s1 +:+ String c' s2) = Ok false.
Proof.
  intros Hall Hc' Hne Hvalid.
  assert (Hall' : all_digits (s1 +:+ String c' s2) = true).
  { rewrite all_digits_app in *. cbn [all_digits] in *.
    apply andb_true_iff in Hall as [H1 H2]. apply andb_true_iff in H2 as [_ H2].
    rewrite H1, Hc', H2. reflexivity. }
  rewrite all_digits_app in Hall. cbn [all_digits] in Hall.
  apply andb_true_iff in Hall as [H1 H2]. apply andb_true_iff in H2 as [Hc H2].
  destruct (ints_of_string_digits s1 H1) as (ds1 & Hds1 & _ & _).
  destruct (ints_of_string_digits s2 H2) as (ds2 & Hds2 & _ & _).
  destruct (int_of_char_digit c Hc) as (d & Hd & Hdec & _).
  destruct (int_of_char_digit c' Hc') as (d' & Hd' & Hdec' & _).
  assert (Hints : forall ch x, Py.int_of_char ch = Ok x ->
            Py.ints_of_string (s1 +:+ String ch s2) = Ok (ds1 ++ x :: ds2)).
  { intros ch x Hx. apply ints_of_string_app; [exact Hds1|].
    cbn [Py.ints_of_string]. rewrite Hx, Hds2. reflexivity. }
  assert (Hnonempty : forall ch, s1 +:+ String ch s2 <> EmptyString)
    by (intros ch; destruct s1; discriminate).
  destruct (is_valid_digits _ Hall' (Hnonempty c')) as (ds' & Hds' & _ & Hv').
  rewrite (Hints c' d' Hd') in Hds'. injection Hds' as <-.
  rewrite Hv'. f_equal. apply bool_decide_eq_false_2. intros Hsum'.
  assert (Hall0 : all_digits (s1 +:+ String c s2) = true).
  { rewrite all_digits_app. cbn [all_digits]. rewrite H1, Hc, H2. reflexivity. }
  destruct (is_valid_digits _ Hall0 (Hnonempty c)) as (ds & Hds & _ & Hv).
  rewrite (Hints c d Hd) in Hds. injection Hds as <-.
  rewrite Hv in Hvalid. injection Hvalid as Hsum.
  apply bool_decide_eq_true in Hsum.
  rewrite rev_app_distr in Hsum, Hsum'. cbn [rev] in Hsum, Hsum'.
  rewrite <- app_assoc in Hsum, Hsum'. cbn [app] in Hsum, Hsum'.
  destruct (sum_from_right_split (rev ds2) false) as [p Hp].
  rewrite Hp in Hsum, Hsum'.
  set (A := LuhnSpec.sum_from_right (rev ds2) false) in *.
  set (B := LuhnSpec.sum_from_right (rev ds1) (negb p)) in *.
  assert (Hw : (if p then LuhnSpec.double d else d)
               = (if p then LuhnSpec.double d' else d')).
  { assert (Hr : is_decimal (if p then LuhnSpec.double d else d))
      by (destruct p; [apply double_decimal|]; assumption).
    assert (Hr' : is_decimal (if p then LuhnSpec.double d' else d'))
      by (destruct p; [apply double_decimal|]; assumption).
    unfold is_decimal in Hr, Hr'.
    apply Z.mod_divide in Hsum; [|lia]. apply Z.mod_divide in Hsum'; [|lia].
    destruct Hsum as [k Hk], Hsum' as [k' Hk']. lia. }
  assert (Hdd : d = d') by (destruct p; [apply double_inj|]; assumption).
  subst d'. apply Hne. eapply int_of_char_inj; eassumption.
Qed.

Lemma is_valid_card_number_detects_substitution_witness :
  Card.is_valid_card_number ("40000084" +:+ String "7"%char "9433403") = Ok false.
Proof.
  apply (is_valid_card_number_detects_substitution "40000084" "9433403" "4"%char "7"%char);
    [reflexivity | reflexivity | discriminate | vm_compute; reflexivity].
Defined.

(** X5. For every value drawn by [randint(1, 9999)], [__create_code] gives
    a PIN of exactly four decimal digits that denotes the value drawn: it is
    never [0000], never empty, and two draws give the same PIN only if they
    are equal. *)
Theorem create_code_four_digits (p : Z) :
  Py.randint_outcome 1 9999 p ->
  String.length (Card.create_code p) = 4%nat
  /\ all_digits (Card.create_code p) = true
  /\ digits_value (Card.create_code p) = p
  /\ Card.create_code p <> "0000"
  /\ Card.truthy (Some (Card.create_code p)) = true
  /\ (forall p' : Z, Py.randint_outcome 1 9999 p' ->
                     Card.create_code p' = Card.create_code p -> p' = p).
Proof.
  intros [Hlo Hhi]. unfold Card.create_code.
  destruct (format_0d_spec 4 p ltac:(lia) ltac:(cbn; lia)) as (Hall & Hval & Hlen).
  split; [exact Hlen|]. split; [exact Hall|]. split; [exact Hval|]. split; [|split].
  - intros E. rewrite E in Hval. vm_compute in Hval. lia.
  - unfold Card.truthy. apply negb_true_iff, bool_decide_eq_false_2.
    intros E. rewrite E in Hlen. discriminate.
  - intros p' [Hlo' Hhi'] E.
    destruct (format_0d_spec 4 p' ltac:(lia) ltac:(cbn; lia)) as (_ & Hval' & _).
    rewrite E in Hval'. lia.
Qed.

Lemma create_code_four_digits_witness :
  String.length (Card.create_code 22) = 4%nat
  /\ all_digits (Card.create_code 22) = true
  /\ digits_value (Card.create_code 22) = 22
  /\ Card.create_code 22 <> "0000"
  /\ Card.truthy (Some (Card.create_code 22)) = true
  /\ (forall p' : Z, Py.randint_outcome 1 9999 p' ->
                     Card.create_code p' = Card.create_code 22 -> p' = 22).
Proof. apply (create_code_four_digits 22). unfold Py.randint_outcome. lia. Defined.

(** X6. Two draws of [randint(1, 999999999)] give the same card number only
    if they are equal: [__create_card] repeats a number exactly when the
    draw repeats. *)
Theorem create_card_same_number_same_draw (r1 r2 : Z) (number : string) :
  Py.randint_outcome 1 999999999 r1 ->
  Py.randint_outcome 1 999999999 r2 ->
  Card.create_card r1 = Ok number ->
  Card.create_card r2 = Ok number ->
  r1 = r2.
Proof. apply create_card_inj. Qed.

Lemma create_card_same_number_same_draw_witness : 844943340 = 844943340.
Proof.
  apply (create_card_same_number_same_draw 844943340 844943340 "4000008449433403");
    [unfold Py.randint_outcome; lia | unfold Py.randint_outcome; lia
    | vm_compute; reflexivity | vm_compute; reflexivity].
Defined.

(** ** Logging in *)

Section Login.

Import SimpleBankingSystem.

Lemma select_by_number_pin_spec (t : list Db.row) (n code n' p : string) (b : Z) :
  Db.select_by_number_pin t n code = Some (n', p, b) ->
  n' = n /\ p = code
  /\ exists r, In r t /\ Db.number r = n /\ Db.pin r = code /\ Db.balance r = b.
Proof.
  unfold Db.select_by_number_pin.
  destruct (List.filter _ t) as [|r l] eqn:E; [discriminate|].
  intros [= <- <- <-].
  assert (Hin : In r (List.filter
                        (fun r => bool_decide (Db.number r = n)
                                  && bool_decide (Db.pin r = code)) t))
    by (rewrite E; left; reflexivity).
  apply filter_In in Hin as [Hin Hr]. apply andb_true_iff in Hr as [Hn Hp].
  apply bool_decide_eq_true in Hn, Hp.
  split; [exact Hn|]. split; [exact Hp|]. exists r. repeat split; assumption.
Qed.

Lemma select_by_number_pin_none (t : list Db.row) (n code : string) :
  (forall r, In r t -> Db.number r = n -> Db.pin r <> code) ->
  Db.select_by_number_pin t n code = None.
Proof.
  intros H. unfold Db.select_by_number_pin.
  destruct (List.filter _ t) as [|r l] eqn:E; [reflexivity|].
  assert (Hin : In r (List.filter
                        (fun r => bool_decide (Db.number r = n)
                                  && bool_decide (Db.pin r = code)) t))
    by (rewrite E; left; reflexivity).
  apply filter_In in Hin as [Hin Hr]. apply andb_true_iff in Hr as [Hn Hp].
  apply bool_decide_eq_true in Hn, Hp. destruct (H r Hin Hn Hp).
Qed.

(** [__login] for a PIN that is not empty, by what the query returns. *)
Lemma login_with_pin (s : t) (n code : string) :
  code <> EmptyString ->
  login n code s
  = (Ok tt,
     match Db.select_by_number_pin (tbl s) n code with
     | Some (n', p, b) =>
         mk (mkWorld (tbl s) (out s ++ [msg_logged_in])) (Some (Card.mk n' p b))
            (running s)
     | None =>
         mk (mkWorld (tbl s) (out s ++ ["Wrong card number or PIN!" +:+ nl])) None
            (running s)
     end).
Proof.
  intros Hne. unfold login, Card.check_card, Card.init_with, tbl, out. unfold_monad.
  simpl_state. unfold Card.truthy. rewrite bool_decide_eq_false_2 by exact Hne.
  cbn [negb].
  destruct (Db.select_by_number_pin (table (world_of s)) n code) as [[[n' p] b]|];
    reflexivity.
Qed.

(** [__login] for an empty PIN: the query is by number alone. *)
Lemma login_without_pin (s : t) (n : string) :
  login n EmptyString s
  = (Ok tt,
     match Db.select_by_number (tbl s) n with
     | Some (n', p, b) =>
         mk (mkWorld (tbl s) (out s ++ [msg_logged_in])) (Some (Card.mk n' p b))
            (running s)
     | None =>
         mk (mkWorld (tbl s) (out s ++ ["Wrong card number or PIN!" +:+ nl])) None
            (running s)
     end).
Proof.
  unfold login, Card.check_card, Card.init_with, tbl, out. unfold_monad.
  simpl_state. cbn [Card.truthy].
  destruct (Db.select_by_number (table (world_of s)) n) as [[[n' p] b]|];
    reflexivity.
Qed.

End Login.

(** X7. Typing an empty PIN logs in without one: [check_card] then looks
    the card up by its number alone, so [__login] logs into the first stored
    card with the number typed, whatever its PIN, with its stored balance. *)
Theorem login_empty_pin_skips_pin
    (s : SimpleBankingSystem.t) (n p : string) (b : Z) :
  Db.select_by_number (SimpleBankingSystem.tbl s) n = Some (n, p, b) ->
  SimpleBankingSystem.login n EmptyString s
  = (Ok tt,
     SimpleBankingSystem.mk
       (mkWorld (SimpleBankingSystem.tbl s)
          (SimpleBankingSystem.out s ++ [SimpleBankingSystem.msg_logged_in]))
       (Some (Card.mk n p b)) (SimpleBankingSystem.running s)).
Proof. intros H. rewrite login_without_pin, H. reflexivity. Qed.

Lemma login_empty_pin_skips_pin_witness :
  SimpleBankingSystem.card
    (snd (SimpleBankingSystem.login SimpleBankingSystem.card_b EmptyString
            (snd (SimpleBankingSystem.logout SimpleBankingSystem.scenario))))
  = Some (Card.mk SimpleBankingSystem.card_b "0022" 40).
Proof.
  rewrite (login_empty_pin_skips_pin
             (snd (SimpleBankingSystem.logout SimpleBankingSystem.scenario))
             SimpleBankingSystem.card_b "0022" 40);
    [reflexivity | vm_compute; reflexivity].
Defined.

(** X8. With a PIN that is not empty, [__login] logs in only into a stored
    card that has both the number and the PIN typed, and takes its stored
    balance; when no stored card has both, nobody is logged in and
    [Wrong card number or PIN!] is printed. The table is not changed. *)
Theorem login_needs_number_and_pin
    (s : SimpleBankingSystem.t) (n code : string) :
  code <> EmptyString ->
  SimpleBankingSystem.tbl (snd (SimpleBankingSystem.login n code s))
  = SimpleBankingSystem.tbl s
  /\ (forall c : Card.t,
        SimpleBankingSystem.card (snd (SimpleBankingSystem.login n code s)) = Some c ->
        Card.number c = n /\ Card.code c = code
        /\ exists r : Db.row,
             In r (SimpleBankingSystem.tbl s)
             /\ Db.number r = n /\ Db.pin r = code
             /\ Db.balance r = Card.balance c)
  /\ ((forall r : Db.row,
         In r (SimpleBankingSystem.tbl s) -> Db.number r = n -> Db.pin r <> code) ->
      SimpleBankingSystem.login n code s
      = (Ok tt,
         SimpleBankingSystem.mk
           (mkWorld (SimpleBankingSystem.tbl s)
              (SimpleBankingSystem.out s
               ++ ["Wrong card number or PIN!" +:+ SimpleBankingSystem.nl]))
           None (SimpleBankingSystem.running s))).
Proof.
  intros Hne. rewrite (login_with_pin s n code Hne). cbn [snd]. split; [|split].
  - destruct (Db.select_by_number_pin _ n code) as [[[n' p] b]|]; reflexivity.
  - intros c Hc.
    destruct (Db.select_by_number_pin _ n code) as [[[n' p] b]|] eqn:E;
      [|discriminate].
    cbn in Hc. injection Hc as <-.
    destruct (select_by_number_pin_spec _ _ _ _ _ _ E) as (-> & -> & r & Hr).
    cbn. repeat split; try reflexivity. exists r. exact Hr.
  - intros Hnone. rewrite (select_by_number_pin_none _ _ _ Hnone). reflexivity.
Qed.

Lemma login_needs_number_and_pin_witness :
  SimpleBankingSystem.login SimpleBankingSystem.card_b "0001"
    (snd (SimpleBankingSystem.logout SimpleBankingSystem.scenario))
  = (Ok tt,
     SimpleBankingSystem.mk
       (mkWorld
          (SimpleBankingSystem.tbl
             (snd (SimpleBankingSystem.logout SimpleBankingSystem.scenario)))
          (SimpleBankingSystem.out
             (snd (SimpleBankingSystem.logout SimpleBankingSystem.scenario))
           ++ ["Wrong card number or PIN!" +:+ SimpleBankingSystem.nl]))
       None
       (SimpleBankingSystem.running
          (snd (SimpleBankingSystem.logout SimpleBankingSystem.scenario)))).
Proof.
  apply (login_needs_number_and_pin
           (snd (SimpleBankingSystem.logout SimpleBankingSystem.scenario))
           SimpleBankingSystem.card_b "0001"); [discriminate|].
  vm_compute. intros r [<-|[<-|[]]] Hn; cbn in *; congruence.
Defined.

(** ** More on the statements of [Card] *)

Section TableMore.

Lemma select_balance_none_no_row (t : list Db.row) (n : string) :
  Db.select_balance t n = None -> forall r, In r t -> Db.number r <> n.
Proof.
  unfold Db.select_balance. intros H r Hin Hn.
  assert (Hf : In r (List.filter (fun r => bool_decide (Db.number r = n)) t)).
  { apply filter_In. split; [exact Hin|]. apply bool_decide_eq_true. exact Hn. }
  destruct (List.filter _ t); [destruct Hf | discriminate].
Qed.

Lemma update_balance_no_row (t : list Db.row) (m : Z) (n : string) :
  (forall r, In r t -> Db.number r <> n) -> Db.update_balance t m n = t.
Proof.
  intros H. unfold Db.update_balance. rewrite <- (map_id t) at 2.
  apply map_ext_in. intros r Hin.
  rewrite bool_decide_eq_false_2 by (apply H; exact Hin). reflexivity.
Qed.

Lemma select_by_number_delete_same (t : list Db.row) (n : string) :
  Db.select_by_number (Db.delete t n) n = None.
Proof.
  unfold Db.select_by_number, Db.delete.
  induction t as [|r t IH]; [reflexivity|].
  cbn [List.filter]. destruct (bool_decide (Db.number r = n)) eqn:E; cbn [negb].
  - exact IH.
  - cbn [List.filter]. rewrite E. exact IH.
Qed.

Lemma select_by_number_delete_other (t : list Db.row) (n n' : string) :
  n' <> n ->
  Db.select_by_number (Db.delete t n) n' = Db.select_by_number t n'.
Proof.
  intros Hne. unfold Db.select_by_number, Db.delete.
  induction t as [|r t IH]; [reflexivity|].
  cbn [List.filter]. destruct (bool_decide (Db.number r = n)) eqn:E; cbn [negb].
  - apply bool_decide_eq_true in E.
    rewrite bool_decide_eq_false_2 by congruence. exact IH.
  - cbn [List.filter].
    destruct (bool_decide (Db.number r = n')); [reflexivity | exact IH].
Qed.

Lemma delete_no_row (t : list Db.row) (n : string) :
  forall r, In r (Db.delete t n) -> In r t /\ Db.number r <> n.
Proof.
  intros r Hin. unfold Db.delete in Hin. apply filter_In in Hin as [Hin Hr].
  split; [exact Hin|]. apply negb_true_iff, bool_decide_eq_false in Hr. exact Hr.
Qed.

Lemma total_balance_cons (r : Db.row) (t : list Db.row) :
  total_balance (r :: t) = Db.balance r + total_balance t.
Proof. unfold total_balance. cbn [map]. apply sum_cons. Qed.

(** With one row per number, an update of a stored number moves the total
    by the amount. *)
Lemma total_balance_update (t : list Db.row) (m : Z) (n : string) :
  NoDup (map Db.number t) ->
  n ∈ map Db.number t ->
  total_balance (Db.update_balance t m n) = total_balance t + m.
Proof.
  induction t as [|r t IH]; intros Hnd Hin.
  - apply elem_of_nil in Hin. destruct Hin.
  - cbn [map] in Hnd, Hin. apply NoDup_cons in Hnd as [Hr Hnd].
    unfold Db.update_balance in *. cbn [map]. rewrite !total_balance_cons.
    destruct (bool_decide (Db.number r = n)) eqn:E.
    + apply bool_decide_eq_true in E. subst n.
      fold (Db.update_balance t m (Db.number r)).
      rewrite update_balance_no_row.
      * cbn [Db.add_to_balance Db.balance]. lia.
      * intros r' Hin' Hn. apply Hr. rewrite <- Hn.
        apply list_elem_of_In, in_map. exact Hin'.
    + apply bool_decide_eq_false in E. apply elem_of_cons in Hin as [Hin|Hin];
        [congruence|].
      rewrite (IH Hnd Hin). lia.
Qed.

Lemma select_by_number_elem (t : list Db.row) (n n' p : string) (b : Z) :
  Db.select_by_number t n = Some (n', p, b) -> n ∈ map Db.number t.
Proof.
  unfold Db.select_by_number.
  destruct (List.filter _ t) as [|r l] eqn:E; [discriminate|]. intros _.
  assert (Hin : In r (List.filter (fun r => bool_decide (Db.number r = n)) t))
    by (rewrite E; left; reflexivity).
  apply filter_In in Hin as [Hin Hr]. apply bool_decide_eq_true in Hr.
  rewrite <- Hr. apply list_elem_of_In, in_map. exact Hin.
Qed.

Lemma select_balance_elem (t : list Db.row) (n : string) (b : Z) :
  Db.select_balance t n = Some b -> n ∈ map Db.number t.
Proof.
  rewrite select_balance_by_number.
  destruct (Db.select_by_number t n) as [[[n' p] b']|] eqn:E; [|discriminate].
  intros _. eapply select_by_number_elem. exact E.
Qed.

End TableMore.

(** X9. [update_balance] on a card that is not stored changes no row and
    raises: [OverflowError] when the amount is outside the signed 64-bit
    range and cannot be bound to the statement; otherwise [TypeError], as
    the balance read back is [None], which has no first element. *)
Theorem update_balance_missing_card (self : Card.t) (money : Z) (w : world) :
  Db.select_balance (table w) (Card.number self) = None ->
  Card.update_balance self money w
  = (Raise (if Db.int64 money then TypeError else OverflowError),
     mkWorld (table w) (stdout w ++ [Card.updating_line])).
Proof.
  intros H. rewrite update_balance_run, H. cbn zeta.
  destruct (Db.int64 money); [|reflexivity].
  rewrite fits_no_row by (apply select_balance_none_no_row; exact H).
  rewrite update_balance_no_row by (apply select_balance_none_no_row; exact H).
  reflexivity.
Qed.

Lemma update_balance_missing_card_witness :
  Card.update_balance (Card.mk "4000000000000036" "0003" 0) 5
    (SimpleBankingSystem.world_of SimpleBankingSystem.scenario)
  = (Raise TypeError,
     mkWorld (table (SimpleBankingSystem.world_of SimpleBankingSystem.scenario))
       (stdout (SimpleBankingSystem.world_of SimpleBankingSystem.scenario)
        ++ [Card.updating_line])).
Proof.
  apply (update_balance_missing_card (Card.mk "4000000000000036" "0003" 0) 5).
  vm_compute. reflexivity.
Defined.

(** X10. [__close_account] deletes every row with the number of the card
    logged in, whatever its balance, and logs out: afterwards no card with
    that number is found, with any PIN or with none, and the rows of the
    other numbers are found as before. *)
Theorem close_account_removes_card (s : SimpleBankingSystem.t) (c : Card.t) :
  SimpleBankingSystem.card s = Some c ->
  exists s' : SimpleBankingSystem.t,
    SimpleBankingSystem.close_account s = (Ok tt, s')
    /\ SimpleBankingSystem.card s' = None
    /\ SimpleBankingSystem.tbl s' = Db.delete (SimpleBankingSystem.tbl s) (Card.number c)
    /\ SimpleBankingSystem.out s' = SimpleBankingSystem.out s
    /\ Db.select_by_number (SimpleBankingSystem.tbl s') (Card.number c) = None
    /\ (forall r : Db.row,
          In r (SimpleBankingSystem.tbl s') -> Db.number r <> Card.number c)
    /\ (forall n : string,
          n <> Card.number c ->
          Db.select_by_number (SimpleBankingSystem.tbl s') n
          = Db.select_by_number (SimpleBankingSystem.tbl s) n)
    /\ (forall code : string,
          SimpleBankingSystem.card
            (snd (SimpleBankingSystem.login (Card.number c) code s')) = None).
Proof.
  intros Hc. eexists. split.
  { unfold SimpleBankingSystem.close_account, Card.delete_card. unfold_monad.
    rewrite Hc. simpl_state. reflexivity. }
  unfold SimpleBankingSystem.tbl, SimpleBankingSystem.out. simpl_state.
  split; [reflexivity|]. split; [reflexivity|]. split; [reflexivity|].
  split; [apply select_by_number_delete_same|]. split; [|split].
  - intros r Hin. apply (delete_no_row _ _ _ Hin).
  - intros n Hn. apply select_by_number_delete_other. exact Hn.
  - intros code. destruct (decide (code = EmptyString)) as [->|Hne].
    + rewrite login_without_pin. unfold SimpleBankingSystem.tbl. simpl_state.
      rewrite select_by_number_delete_same. reflexivity.
    + rewrite (login_with_pin _ _ _ Hne). unfold SimpleBankingSystem.tbl. simpl_state.
      rewrite select_by_number_pin_none; [reflexivity|].
      intros r Hin Hn. destruct (delete_no_row _ _ _ Hin) as [_ Hr]. contradiction.
Qed.

Lemma close_account_removes_card_witness :
  exists s' : SimpleBankingSystem.t,
    SimpleBankingSystem.close_account SimpleBankingSystem.scenario = (Ok tt, s')
    /\ SimpleBankingSystem.tbl s'
       = [Db.mkRow 2 SimpleBankingSystem.card_b "0022" 40]
    /\ Db.select_by_number (SimpleBankingSystem.tbl s') SimpleBankingSystem.card_a = None.
Proof.
  destruct (close_account_removes_card SimpleBankingSystem.scenario
              (Card.mk SimpleBankingSystem.card_a "0001" 60) eq_refl)
    as (s' & H1 & _ & H2 & _ & H3 & _).
  exists s'. split; [exact H1|]. split; [rewrite H2; vm_compute; reflexivity | exact H3].
Defined.

(** ** Income and the two outcomes of a transfer *)

Section Outcomes.

Import SimpleBankingSystem.

Lemma add_income_run (s : t) (c : Card.t) (income b : Z) :
  card s = Some c ->
  Db.select_balance (tbl s) (Card.number c) = Some b ->
  Db.int64 income = true ->
  Db.fits (tbl s) income (Card.number c) = true ->
  add_income income s
  = (Ok tt,
     mk (mkWorld (Db.update_balance (tbl s) income (Card.number c))
           (out s ++ [Card.updating_line; "Income was added!"]))
        (Some (Card.mk (Card.number c) (Card.code c) (b + income)))
        (running s)).
Proof.
  intros Hc Hb H64 Hfit. unfold add_income, tbl, out in *. unfold_monad.
  cbn [Py.int_of_line]. rewrite Hc.
  rewrite update_balance_run. cbn zeta. rewrite H64, Hfit, Hb. simpl_state.
  rewrite <- app_assoc. reflexivity.
Qed.

(** Income that is not applied leaves the table and the card as they
    were. *)
Lemma add_income_outcomes (s : t) (c : Card.t) (income : Py.line) (b : Z) :
  card s = Some c ->
  Db.select_balance (tbl s) (Card.number c) = Some b ->
  (tbl (snd (add_income income s)) = tbl s
   /\ card (snd (add_income income s)) = card s)
  \/ (exists i : Z,
        income = Py.IntLine i
        /\ add_income income s
           = (Ok tt,
              mk (mkWorld (Db.update_balance (tbl s) i (Card.number c))
                    (out s ++ [Card.updating_line; "Income was added!"]))
                 (Some (Card.mk (Card.number c) (Card.code c) (b + i)))
                 (running s))).
Proof.
  intros Hc Hb. destruct income as [i|].
  - destruct (Db.int64 i) eqn:H64;
      [destruct (Db.fits (tbl s) i (Card.number c)) eqn:Hfit|].
    + right. exists i. split; [reflexivity|]. apply add_income_run; assumption.
    + left. unfold add_income, tbl, out in *. unfold_monad.
      cbn [Py.int_of_line]. rewrite Hc.
      rewrite update_balance_run. cbn zeta. rewrite H64, Hfit. simpl_state.
      split; first [reflexivity | exact Hc | symmetry; exact Hc].
    + left. unfold add_income, tbl, out in *. unfold_monad.
      cbn [Py.int_of_line]. rewrite Hc.
      rewrite update_balance_run. cbn zeta. rewrite H64. simpl_state.
      split; first [reflexivity | exact Hc | symmetry; exact Hc].
  - left. split; reflexivity.
Qed.

(** A transfer from a stored card leaves the table and the card as they
    were, or stops after the debit, or applies both updates. *)
Lemma transfer_outcomes (s : t) (c : Card.t) (number : string) (amount : Py.line) (b0 : Z) :
  card s = Some c ->
  Db.select_balance (tbl s) (Card.number c) = Some b0 ->
  (tbl (snd (do_transfer number amount s)) = tbl s
   /\ card (snd (do_transfer number amount s)) = card s
   /\ running (snd (do_transfer number amount s)) = running s
   /\ (fst (do_transfer number amount s) = Ok tt
       \/ fst (do_transfer number amount s) = Raise IndexError
       \/ fst (do_transfer number amount s) = Raise ValueError
       \/ fst (do_transfer number amount s) = Raise OverflowError
       \/ fst (do_transfer number amount s) = Beyond))
  \/ (exists m : Z,
        amount = Py.IntLine m
        /\ number <> Card.number c
        /\ number ∈ map Db.number (tbl s)
        /\ m <= Card.balance c
        /\ Db.int64 (- m) = true
        /\ (fst (do_transfer number amount s) = Beyond
            \/ (fst (do_transfer number amount s) = Raise OverflowError
                /\ Db.int64 m = false))
        /\ snd (do_transfer number amount s)
           = mk (mkWorld (Db.update_balance (tbl s) (- m) (Card.number c))
                   (out s ++ ["Transfer"; Card.updating_line; Card.updating_line]))
                (Some (Card.mk (Card.number c) (Card.code c) (b0 - m)))
                (running s))
  \/ (exists m : Z,
        amount = Py.IntLine m
        /\ number <> Card.number c
        /\ number ∈ map Db.number (tbl s)
        /\ do_transfer number amount s
           = (Ok tt,
              mk (mkWorld
                    (Db.update_balance
                       (Db.update_balance (tbl s) (- m) (Card.number c))
                       m number)
                    (out s ++ ["Transfer"; Card.updating_line; Card.updating_line]))
                 (Some (Card.mk (Card.number c) (Card.code c) (b0 - m)))
                 (running s))).
Proof.
  intros Hc Hb0.
  destruct (decide (number = Card.number c)) as [E|Hne].
  { left. rewrite (transfer_same_account s c number amount Hc E).
    repeat split; try reflexivity. left. reflexivity. }
  destruct (Card.is_valid_card_number number) as [[|]|e|] eqn:Hv.
  - destruct (Db.select_by_number (tbl s) number) as [[[n p] b]|] eqn:Hsel.
    + destruct amount as [m|].
      * destruct (Z_le_gt_dec m (Card.balance c)) as [Hle|Hgt].
        -- pose proof (transfer_past_checks s c number m Hc n p b b0 Hne Hv Hsel Hle Hb0)
             as Hrun.
           cbn zeta in Hrun.
           assert (Hin : number ∈ map Db.number (tbl s))
             by (eapply select_by_number_elem; exact Hsel).
           destruct (Db.int64 (- m)) eqn:H1.
           ++ destruct (Db.fits (tbl s) (- m) (Card.number c)) eqn:H2.
              ** destruct (Db.int64 m) eqn:H3.
                 --- destruct (Db.fits _ m number) eqn:H4.
                     +++ right. right. exists m. repeat split; assumption.
                     +++ right. left. exists m. rewrite Hrun. cbn [fst snd].
                         repeat split; try assumption. left. reflexivity.
                 --- right. left. exists m. rewrite Hrun. cbn [fst snd].
                     repeat split; try assumption. right. split; [reflexivity | exact H3].
              ** left. rewrite Hrun. cbn [fst snd]. unfold tbl. simpl_state.
                 repeat split; try first [exact Hc | symmetry; exact Hc]. do 4 right. reflexivity.
           ++ left. rewrite Hrun. cbn [fst snd]. unfold tbl. simpl_state.
              repeat split; try first [exact Hc | symmetry; exact Hc]. do 3 right. left. reflexivity.
        -- left. rewrite (transfer_not_enough s c number m Hc n p b Hne Hv Hsel Hgt).
           repeat split; try reflexivity. left. reflexivity.
      * left. rewrite (transfer_bad_amount s c number Py.OtherLine Hc n p b Hne Hv Hsel eq_refl).
        repeat split; try reflexivity. right. right. left. reflexivity.
    + left. rewrite (transfer_no_such_card s c number amount Hc Hne Hv Hsel).
      repeat split; try reflexivity. left. reflexivity.
  - left. rewrite (transfer_mistake s c number amount Hc Hne Hv).
    repeat split; try reflexivity. left. reflexivity.
  - left. rewrite (transfer_validator_raises s c number amount Hc e Hne Hv).
    + repeat split; try reflexivity.
      destruct (is_valid_raises _ _ Hv) as [-> | ->]; cbn [fst]; tauto.
    + intros msg ->. destruct (is_valid_raises _ _ Hv); discriminate.
  - destruct (is_valid_not_beyond _ Hv).
Qed.



End Outcomes.

(** X11. [__add_income] adds the income typed to the stored balance of the
    card logged in and takes the new balance in memory, for every income
    within the signed 64-bit range that leaves the balance in it; a
    negative income lowers the balance, below zero as well. Two such
    incomes in a row leave the table that their sum leaves. A line that is
    not an integer raises [ValueError] and changes nothing. *)
Theorem add_income_adds_up
    (s : SimpleBankingSystem.t) (c : Card.t) (b i1 i2 : Z) :
  SimpleBankingSystem.card s = Some c ->
  Db.select_balance (SimpleBankingSystem.tbl s) (Card.number c) = Some b ->
  Db.int64 i1 = true ->
  Db.int64 i2 = true ->
  Db.int64 (i1 + i2) = true ->
  Db.fits (SimpleBankingSystem.tbl s) i1 (Card.number c) = true ->
  Db.fits (SimpleBankingSystem.tbl s) (i1 + i2) (Card.number c) = true ->
  let s1 := SimpleBankingSystem.runs [SimpleBankingSystem.AddIncome i1] s in
  let s2 := SimpleBankingSystem.runs
              [SimpleBankingSystem.AddIncome i1; SimpleBankingSystem.AddIncome i2] s in
  SimpleBankingSystem.card s1
  = Some (Card.mk (Card.number c) (Card.code c) (b + i1))
  /\ Db.select_balance (SimpleBankingSystem.tbl s1) (Card.number c) = Some (b + i1)
  /\ SimpleBankingSystem.card s2
     = Some (Card.mk (Card.number c) (Card.code c) (b + (i1 + i2)))
  /\ SimpleBankingSystem.tbl s2
     = SimpleBankingSystem.tbl
         (SimpleBankingSystem.runs [SimpleBankingSystem.AddIncome (i1 + i2)] s)
  /\ SimpleBankingSystem.add_income Py.OtherLine s = (Raise ValueError, s).
Proof.
  intros Hc Hb H1 H2 H12 Hf1 Hf12 s1 s2. subst s1 s2.
  cbn [SimpleBankingSystem.runs foldl SimpleBankingSystem.run].
  rewrite (add_income_run s c i1 b Hc Hb H1 Hf1). cbn [snd].
  rewrite (add_income_run s c (i1 + i2) b Hc Hb H12 Hf12). cbn [snd].
  erewrite (add_income_run _ _ i2 (b + i1)); [|reflexivity| |exact H2|].
  - unfold SimpleBankingSystem.tbl. simpl_state.
    rewrite select_balance_update_same.
    unfold SimpleBankingSystem.tbl in Hb. rewrite Hb.
    repeat split.
    + do 2 f_equal. lia.
    + unfold Db.update_balance. rewrite map_map. apply map_ext. intros r.
      destruct (bool_decide (Db.number r = Card.number c)) eqn:E; [|rewrite E; reflexivity].
      cbn [Db.add_to_balance Db.number]. rewrite E.
      unfold Db.add_to_balance. cbn. f_equal. lia.
  - unfold SimpleBankingSystem.tbl in *. simpl_state.
    rewrite select_balance_update_same, Hb. reflexivity.
  - unfold SimpleBankingSystem.tbl in *. simpl_state.
    rewrite fits_update_same. exact Hf12.
Qed.

Lemma add_income_adds_up_witness :
  Db.select_balance
    (SimpleBankingSystem.tbl
       (SimpleBankingSystem.runs [SimpleBankingSystem.AddIncome (-100)]
          SimpleBankingSystem.scenario))
    SimpleBankingSystem.card_a = Some (-40).
Proof.
  destruct (add_income_adds_up SimpleBankingSystem.scenario
              (Card.mk SimpleBankingSystem.card_a "0001" 60) 60 (-100) 0)
    as (_ & H & _).
  - vm_compute. reflexivity.
  - vm_compute. reflexivity.
  - reflexivity.
  - reflexivity.
  - reflexivity.
  - vm_compute. reflexivity.
  - vm_compute. reflexivity.
  - exact H.
Defined.

(** X12. A transfer from a stored card whose balance in memory is a 64-bit
    integer is all or nothing as long as every sum stays within the 64-bit
    range of the INTEGER column: whatever is typed, [__do_transfer] either
    leaves the table and the card in memory as they were (it returns, or
    raises before the debit), or returns after both updates, the source
    debited and the destination credited, or a sum has left the range. It
    never raises between the debit and the credit. *)
Theorem do_transfer_all_or_nothing
    (s : SimpleBankingSystem.t) (c : Card.t) (number : string)
    (amount : Py.line) (b0 : Z) :
  SimpleBankingSystem.card s = Some c ->
  Db.select_balance (SimpleBankingSystem.tbl s) (Card.number c) = Some b0 ->
  Db.int64 (Card.balance c) = true ->
  (SimpleBankingSystem.tbl (snd (SimpleBankingSystem.do_transfer number amount s))
   = SimpleBankingSystem.tbl s
   /\ SimpleBankingSystem.card (snd (SimpleBankingSystem.do_transfer number amount s))
      = SimpleBankingSystem.card s)
  \/ (exists money : Z,
        amount = Py.IntLine money
        /\ fst (SimpleBankingSystem.do_transfer number amount s) = Ok tt
        /\ SimpleBankingSystem.tbl
             (snd (SimpleBankingSystem.do_transfer number amount s))
           = Db.update_balance
               (Db.update_balance (SimpleBankingSystem.tbl s) (- money) (Card.number c))
               money number
        /\ Db.select_balance
             (SimpleBankingSystem.tbl
                (snd (SimpleBankingSystem.do_transfer number amount s)))
             (Card.number c)
           = Some (b0 - money)
        /\ SimpleBankingSystem.card
             (snd (SimpleBankingSystem.do_transfer number amount s))
           = Some (Card.mk (Card.number c) (Card.code c) (b0 - money)))
  \/ fst (SimpleBankingSystem.do_transfer number amount s) = Beyond.
Proof.
  intros Hc Hb0 H64.
  destruct (transfer_outcomes s c number amount b0 Hc Hb0)
    as [(Ht & Hcard & _) | [(m & _ & _ & _ & Hle & Hopp & Hres & _)
                           | (m & Hm & Hne & _ & Hrun)]].
  - left. split; assumption.
  - right. right. destruct Hres as [Hres | [_ Hres]]; [exact Hres|].
    rewrite (int64_covered m _ H64 Hle Hopp) in Hres. discriminate.
  - right. left. exists m. split; [exact Hm|]. rewrite Hrun. cbn [fst snd].
    unfold SimpleBankingSystem.tbl in *. simpl_state.
    repeat split.
    rewrite select_balance_update_other by congruence.
    rewrite select_balance_update_same, Hb0. cbn. f_equal; lia.
Qed.

Lemma do_transfer_all_or_nothing_witness :
  fst (SimpleBankingSystem.do_transfer SimpleBankingSystem.card_b 10
         SimpleBankingSystem.scenario) = Ok tt
  /\ SimpleBankingSystem.tbl
       (snd (SimpleBankingSystem.do_transfer SimpleBankingSystem.card_b 10
               SimpleBankingSystem.scenario))
     = Db.update_balance
         (Db.update_balance (SimpleBankingSystem.tbl SimpleBankingSystem.scenario)
            (- 10) SimpleBankingSystem.card_a)
         10 SimpleBankingSystem.card_b.
Proof.
  destruct (do_transfer_all_or_nothing SimpleBankingSystem.scenario
              (Card.mk SimpleBankingSystem.card_a "0001" 60)
              SimpleBankingSystem.card_b 10 60)
    as [[H _] | [(m & Hm & H1 & H2 & _) | H]].
  - vm_compute. reflexivity.
  - vm_compute. reflexivity.
  - reflexivity.
  - exfalso. vm_compute in H. discriminate.
  - injection Hm as <-. split; [exact H1 | exact H2].
  - exfalso. vm_compute in H. discriminate.
Defined.



(** X14. When no two rows carry the same number, [__do_transfer] from a
    stored card whose balance in memory is a 64-bit integer keeps the total
    of all balances as long as no sum leaves the 64-bit range of the INTEGER
    column, whatever is typed and whether the transfer is applied, refused
    or ended by an exception: money is neither created nor lost. *)
Theorem do_transfer_keeps_total
    (s : SimpleBankingSystem.t) (c : Card.t) (number : string)
    (amount : Py.line) (b0 : Z) :
  NoDup (map Db.number (SimpleBankingSystem.tbl s)) ->
  SimpleBankingSystem.card s = Some c ->
  Db.select_balance (SimpleBankingSystem.tbl s) (Card.number c) = Some b0 ->
  Db.int64 (Card.balance c) = true ->
  fst (SimpleBankingSystem.do_transfer number amount s) <> Beyond ->
  total_balance
    (SimpleBankingSystem.tbl (snd (SimpleBankingSystem.do_transfer number amount s)))
  = total_balance (SimpleBankingSystem.tbl s).
Proof.
  intros Hnd Hc Hb0 H64 Hin_range.
  destruct (transfer_outcomes s c number amount b0 Hc Hb0)
    as [(Ht & _ & _) | [(m & _ & _ & _ & Hle & Hopp & Hres & _)
                       | (m & _ & Hne & Hin & Hrun)]].
  - rewrite Ht. reflexivity.
  - exfalso. destruct Hres as [Hres | [_ Hres]]; [exact (Hin_range Hres)|].
    rewrite (int64_covered m _ H64 Hle Hopp) in Hres. discriminate.
  - rewrite Hrun. cbn [snd]. unfold SimpleBankingSystem.tbl in *. simpl_state.
    rewrite total_balance_update.
    + rewrite total_balance_update; [lia | exact Hnd |].
      eapply select_balance_elem. exact Hb0.
    + rewrite update_balance_numbers. exact Hnd.
    + rewrite update_balance_numbers. exact Hin.
Qed.

Lemma do_transfer_keeps_total_witness :
  total_balance
    (SimpleBankingSystem.tbl
       (snd (SimpleBankingSystem.do_transfer SimpleBankingSystem.card_b 25
               SimpleBankingSystem.scenario)))
  = total_balance (SimpleBankingSystem.tbl SimpleBankingSystem.scenario).
Proof.
  apply (do_transfer_keeps_total SimpleBankingSystem.scenario
           (Card.mk SimpleBankingSystem.card_a "0001" 60)
           SimpleBankingSystem.card_b 25 60).
  - vm_compute. apply NoDup_cons. split; [|apply NoDup_singleton].
    intros H. apply list_elem_of_singleton in H. discriminate.
  - vm_compute. reflexivity.
  - vm_compute. reflexivity.
  - reflexivity.
  - vm_compute. discriminate.
Defined.

(** ** What holds in every state reached *)

Section Reached.

Import SimpleBankingSystem.

Lemma create_account_card (r p : Z) (s : t) :
  card (snd (create_account r p s)) = card s
  /\ running (snd (create_account r p s)) = running s.
Proof.
  unfold create_account, Card.init_new, Card.save_to_db. unfold_monad.
  destruct (Card.create_card r); split; reflexivity.
Qed.

Lemma balance_keeps (s : t) :
  tbl (snd (balance s)) = tbl s /\ card (snd (balance s)) = card s.
Proof.
  unfold balance, tbl. unfold_monad. destruct (card s) eqn:E; cbn; rewrite ?E; split; reflexivity.
Qed.

Lemma exit_keeps (s : t) :
  tbl (snd (exit_program s)) = tbl s /\ card (snd (exit_program s)) = card s.
Proof. split; reflexivity. Qed.

Lemma login_table (s : t) (n code : string) : tbl (snd (login n code s)) = tbl s.
Proof.
  destruct (decide (code = EmptyString)) as [->|Hne].
  - rewrite login_without_pin. cbn [snd].
    destruct (Db.select_by_number (tbl s) n) as [[[n' p] b]|]; reflexivity.
  - rewrite (login_with_pin s n code Hne). cbn [snd].
    destruct (Db.select_by_number_pin (tbl s) n code) as [[[n' p] b]|]; reflexivity.
Qed.

(** With one row per number, the row found with number and PIN is the row
    found with the number. *)
Lemma select_by_number_pin_unique (t : list Db.row) (n code n' p : string) (b : Z) :
  NoDup (map Db.number t) ->
  Db.select_by_number_pin t n code = Some (n', p, b) ->
  Db.select_by_number t n' = Some (n', p, b).
Proof.
  intros Hnd H.
  destruct (select_by_number_pin_spec _ _ _ _ _ _ H) as (-> & -> & _).
  revert Hnd H. unfold Db.select_by_number_pin, Db.select_by_number.
  induction t as [|r t IH]; intros Hnd H; [discriminate|].
  cbn [map] in Hnd. apply NoDup_cons in Hnd as [Hr Hnd].
  cbn [List.filter] in *.
  destruct (bool_decide (Db.number r = n)) eqn:En; cbn [andb] in H.
  - destruct (bool_decide (Db.pin r = code)) eqn:Ep; [exact H|].
    exfalso. apply Hr. apply bool_decide_eq_true in En. rewrite En.
    fold (Db.select_by_number_pin t n code) in H.
    destruct (Db.select_by_number_pin t n code) as [[[n1 p1] b1]|] eqn:E; [|discriminate].
    destruct (select_by_number_pin_spec _ _ _ _ _ _ E) as (_ & _ & r' & Hin & Hn' & _).
    rewrite <- Hn'. apply list_elem_of_In, in_map. exact Hin.
  - apply IH; assumption.
Qed.

Lemma reachable_fresh_invariant (s : t) :
  reachable true s -> NoDup (map Db.number (tbl s)) /\ session_stored s.
Proof.
  induction 1 as [|s c Hreach [IHnd IHs] Hrun Hmenu Hdraws Hfresh].
  - split; [constructor | intros c Hc; discriminate].
  - assert (Hother : (forall r p, c <> CreateAccount r p) ->
                     NoDup (map Db.number (tbl (snd (run c s))))).
    { intros Hc. eapply sublist_NoDup; [exact IHnd|]. apply (preserves_run c Hc s). }
    destruct c as [r p|n code| |income|number money| | |]; cbn [run] in *.
    + split.
      * rewrite create_account_table. specialize (Hfresh eq_refl). cbn in Hfresh.
        destruct (Card.create_card r) as [n|e|]; [|exact IHnd|exact IHnd].
        apply insert_fresh_numbers; [exact IHnd|].
        apply select_by_number_none, Hfresh. reflexivity.
      * intros c Hc. destruct (create_account_card r p s) as [E _].
        rewrite E in Hc. unfold in_menu in Hmenu. rewrite Hc in Hmenu. discriminate.
    + split; [apply Hother; discriminate|].
      intros c Hc. rewrite login_table.
      destruct (decide (code = EmptyString)) as [->|Hne].
      * rewrite login_without_pin in Hc. cbn [snd] in Hc.
        destruct (Db.select_by_number (tbl s) n) as [[[n' p] b]|] eqn:E;
          [|discriminate].
        cbn in Hc. injection Hc as <-. cbn.
        pose proof (select_by_number_number _ _ _ _ _ E) as ->. exact E.
      * rewrite (login_with_pin s n code Hne) in Hc. cbn [snd] in Hc.
        destruct (Db.select_by_number_pin (tbl s) n code) as [[[n' p] b]|] eqn:E;
          [|discriminate].
        cbn in Hc. injection Hc as <-. cbn.
        eapply select_by_number_pin_unique; eassumption.
    + split; [apply Hother; discriminate|].
      intros c Hc. destruct (balance_keeps s) as [Ht Hcard].
      rewrite Ht. rewrite Hcard in Hc. apply IHs. exact Hc.
    + split; [apply Hother; discriminate|].
      unfold in_menu in Hmenu. destruct (card s) as [c0|] eqn:Hc0; [|discriminate].
      pose proof (IHs c0 Hc0) as Hst.
      assert (Hb : Db.select_balance (tbl s) (Card.number c0) = Some (Card.balance c0))
        by (rewrite select_balance_by_number, Hst; reflexivity).
      destruct (add_income_outcomes s c0 income _ Hc0 Hb)
        as [(Ht & Hcard) | (i & _ & Hrun')].
      * intros c Hc. rewrite Ht. rewrite Hcard, Hc0 in Hc. injection Hc as <-.
        exact Hst.
      * rewrite Hrun'. cbn [snd].
        intros c Hc. cbn in Hc. injection Hc as <-. unfold tbl. simpl_state.
        unfold tbl in Hst. rewrite select_by_number_update_same, Hst. reflexivity.
    + split; [apply Hother; discriminate|].
      unfold in_menu in Hmenu. destruct (card s) as [c0|] eqn:Hc0; [|discriminate].
      pose proof (IHs c0 Hc0) as Hst.
      assert (Hb : Db.select_balance (tbl s) (Card.number c0) = Some (Card.balance c0))
        by (rewrite select_balance_by_number, Hst; reflexivity).
      destruct (transfer_outcomes s c0 number money _ Hc0 Hb)
        as [(Ht & Hcard & _) | [(m & _ & _ & _ & _ & _ & _ & Hrun')
                                | (m & _ & Hne & _ & Hrun')]].
      * intros c Hc. rewrite Ht. rewrite Hcard, Hc0 in Hc. injection Hc as <-.
        exact Hst.
      * rewrite Hrun'. intros c Hc. cbn in Hc. injection Hc as <-.
        unfold tbl in *. simpl_state.
        rewrite select_by_number_update_same, Hst. cbn.
        replace (Card.balance c0 + - m) with (Card.balance c0 - m) by lia.
        reflexivity.
      * rewrite Hrun'. cbn [snd]. intros c Hc. cbn in Hc. injection Hc as <-.
        unfold tbl in *. simpl_state.
        rewrite select_by_number_update_other by congruence.
        rewrite select_by_number_update_same, Hst. cbn.
        replace (Card.balance c0 + - m) with (Card.balance c0 - m) by lia.
        reflexivity.
    + split; [apply Hother; discriminate|].
      unfold in_menu in Hmenu. destruct (card s) as [c0|] eqn:Hc0; [|discriminate].
      assert (Hnone : card (snd (close_account s)) = None).
      { unfold close_account, Card.delete_card. unfold_monad. rewrite Hc0.
        reflexivity. }
      intros c Hc. rewrite Hnone in Hc. discriminate.
    + split; [apply Hother; discriminate|]. intros c Hc. discriminate.
    + split; [apply Hother; discriminate|].
      intros c Hc. destruct (exit_keeps s) as [Ht Hcard].
      rewrite Ht. rewrite Hcard in Hc. apply IHs. exact Hc.
Qed.

Lemma reachable_scenario : reachable true scenario.
Proof.
  unfold scenario. cbn [runs foldl].
  repeat (apply reachable_run;
          [ | vm_compute; reflexivity | vm_compute; reflexivity
            | first [exact I | cbn; unfold Py.randint_outcome; lia]
            | intros _; first [exact I | intros n Hn; vm_compute in Hn;
                                         injection Hn as <-; vm_compute; reflexivity] ]).
  apply reachable_initial.
Qed.

Lemma select_by_number_pin_insert (t : list Db.row) (n p : string) (b : Z) :
  Db.select_by_number t n = None ->
  Db.select_by_number_pin (Db.insert t n p b) n p = Some (n, p, b).
Proof.
  intros H. pose proof (select_by_number_none _ _ H) as Hnot.
  unfold Db.select_by_number_pin, Db.insert. clear H.
  generalize (Db.next_id t). intros i.
  induction t as [|r t IH].
  - cbn. rewrite !bool_decide_eq_true_2 by reflexivity. reflexivity.
  - cbn [app List.filter]. cbn [map] in Hnot.
    apply not_elem_of_cons in Hnot as [Hr Hnot].
    rewrite (bool_decide_eq_false_2 (Db.number r = n)) by congruence.
    cbn [andb]. apply IH. exact Hnot.
Qed.

End Reached.

(** X15. In every state the commands reach while every card number
    generated was not stored yet, the card logged in is stored and holds in
    memory the PIN and the balance of its row: the balance that [__balance]
    prints and that [__do_transfer] compares the amount with is the stored
    one. *)
Theorem session_card_is_stored (s : SimpleBankingSystem.t) (c : Card.t) :
  SimpleBankingSystem.reachable true s ->
  SimpleBankingSystem.card s = Some c ->
  Db.select_by_number (SimpleBankingSystem.tbl s) (Card.number c)
  = Some (Card.number c, Card.code c, Card.balance c)
  /\ Db.select_balance (SimpleBankingSystem.tbl s) (Card.number c)
     = Some (Card.balance c).
Proof.
  intros Hreach Hc. destruct (reachable_fresh_invariant s Hreach) as [_ Hs].
  pose proof (Hs c Hc) as H. split; [exact H|].
  rewrite select_balance_by_number, H. reflexivity.
Qed.

Lemma session_card_is_stored_witness :
  Db.select_by_number (SimpleBankingSystem.tbl SimpleBankingSystem.scenario)
    SimpleBankingSystem.card_a
  = Some (SimpleBankingSystem.card_a, "0001", 60)
  /\ Db.select_balance (SimpleBankingSystem.tbl SimpleBankingSystem.scenario)
       SimpleBankingSystem.card_a
     = Some 60.
Proof.
  apply (session_card_is_stored SimpleBankingSystem.scenario
           (Card.mk SimpleBankingSystem.card_a "0001" 60)).
  - exact reachable_scenario.
  - vm_compute. reflexivity.
Defined.

(** X16. In every state the commands reach, with or without repeated
    draws, every stored card number is a string of 16 decimal digits that
    [is_valid_card_number] accepts: only [__create_card] makes the numbers
    that are stored, and no command rewrites one. *)
Theorem stored_numbers_are_valid (fresh : bool) (s : SimpleBankingSystem.t) :
  SimpleBankingSystem.reachable fresh s ->
  forall r : Db.row,
    In r (SimpleBankingSystem.tbl s) ->
    String.length (Db.number r) = 16%nat
    /\ all_digits (Db.number r) = true
    /\ Card.is_valid_card_number (Db.number r) = Ok true.
Proof.
  intros Hreach.
  assert (H : Forall (fun n => String.length n = 16%nat /\ all_digits n = true
                               /\ Card.is_valid_card_number n = Ok true)
                (map Db.number (SimpleBankingSystem.tbl s))).
  { induction Hreach as [|s c Hreach IH Hrun Hmenu Hdraws Hfresh].
    - constructor.
    - assert (Hcases : (exists r p, c = SimpleBankingSystem.CreateAccount r p)
                       \/ (forall r p, c <> SimpleBankingSystem.CreateAccount r p))
        by (destruct c; first [left; eauto; fail | right; discriminate]).
      destruct Hcases as [(r & p & ->)|Hc].
      + cbn [SimpleBankingSystem.run]. rewrite create_account_table.
        destruct Hdraws as [Hr _].
        destruct (create_card_shape r Hr)
          as (seg & ck & n & Hn & _ & _ & _ & _ & _ & _ & _ & Hlen & Hall & Hv).
        rewrite Hn. unfold Db.insert. rewrite map_app. apply Forall_app.
        split; [exact IH|]. constructor; [|constructor]. cbn. repeat split; assumption.
      + apply Forall_forall. intros n Hin.
        assert (Hsub : fewer_numbers (SimpleBankingSystem.tbl s)
                         (SimpleBankingSystem.tbl (snd (SimpleBankingSystem.run c s)))).
        { apply preserves_run. exact Hc. }
        rewrite Forall_forall in IH. apply IH.
        eapply elem_of_sublist; [exact Hin | exact Hsub]. }
  intros r Hin. rewrite Forall_forall in H. apply H.
  apply list_elem_of_In, in_map. exact Hin.
Qed.

Lemma stored_numbers_are_valid_witness :
  String.length SimpleBankingSystem.card_b = 16%nat
  /\ all_digits SimpleBankingSystem.card_b = true
  /\ Card.is_valid_card_number SimpleBankingSystem.card_b = Ok true.
Proof.
  apply (stored_numbers_are_valid true SimpleBankingSystem.scenario reachable_scenario
           (Db.mkRow 2 SimpleBankingSystem.card_b "0022" 40)).
  vm_compute. right. left. reflexivity.
Defined.

(** X17. A card just opened can log in: when nobody is logged in and the
    number generated is not stored yet, [__create_account] stores the card
    with balance 0, and logging in with the number and the PIN it printed
    gives that card, with balance 0. *)
Theorem created_card_logs_in (s : SimpleBankingSystem.t) (r p : Z) :
  Py.randint_outcome 1 999999999 r ->
  Py.randint_outcome 1 9999 p ->
  SimpleBankingSystem.draws_fresh (SimpleBankingSystem.CreateAccount r p) s ->
  exists n : string,
    Card.create_card r = Ok n
    /\ SimpleBankingSystem.tbl
         (SimpleBankingSystem.runs [SimpleBankingSystem.CreateAccount r p] s)
       = SimpleBankingSystem.tbl s
         ++ [Db.mkRow (Db.next_id (SimpleBankingSystem.tbl s)) n (Card.create_code p) 0]
    /\ SimpleBankingSystem.card
         (SimpleBankingSystem.runs
            [SimpleBankingSystem.CreateAccount r p;
             SimpleBankingSystem.Login n (Card.create_code p)] s)
       = Some (Card.mk n (Card.create_code p) 0).
Proof.
  intros Hr Hp Hfresh.
  destruct (create_card_shape r Hr) as (seg & ck & n & Hn & _).
  exists n. split; [exact Hn|].
  cbn [SimpleBankingSystem.runs foldl SimpleBankingSystem.run].
  pose proof (create_account_table r p s) as Ht. rewrite Hn in Ht.
  split; [exact Ht|].
  assert (Hcode : Card.create_code p <> EmptyString).
  { intros E. destruct Hp as [Hlo Hhi].
    destruct (format_0d_spec 4 p ltac:(lia) ltac:(cbn; lia)) as (_ & _ & Hlen).
    unfold Card.create_code in E. rewrite E in Hlen. discriminate. }
  rewrite (login_with_pin _ n _ Hcode). cbn [snd]. rewrite Ht.
  rewrite select_by_number_pin_insert; [reflexivity|].
  apply Hfresh. exact Hn.
Qed.

Lemma created_card_logs_in_witness :
  exists n : string,
    Card.create_card 3 = Ok n
    /\ SimpleBankingSystem.tbl
         (SimpleBankingSystem.runs [SimpleBankingSystem.CreateAccount 3 333]
            SimpleBankingSystem.initial)
       = SimpleBankingSystem.tbl SimpleBankingSystem.initial
         ++ [Db.mkRow (Db.next_id (SimpleBankingSystem.tbl SimpleBankingSystem.initial))
               n (Card.create_code 333) 0]
    /\ SimpleBankingSystem.card
         (SimpleBankingSystem.runs
            [SimpleBankingSystem.CreateAccount 3 333;
             SimpleBankingSystem.Login n (Card.create_code 333)]
            SimpleBankingSystem.initial)
       = Some (Card.mk n (Card.create_code 333) 0).
Proof.
  apply (created_card_logs_in SimpleBankingSystem.initial 3 333).
  - unfold Py.randint_outcome. lia.
  - unfold Py.randint_outcome. lia.
  - intros n Hn. reflexivity.
Defined.

(** X18. With a stored card logged in whose balance in memory is a 64-bit
    integer, [__do_transfer] lets three exceptions through, uncaught: the
    [IndexError] or [ValueError] of the validator, the [ValueError] of
    [int] on an amount typed that is not an integer, and the
    [OverflowError] of an amount that cannot be bound; each time the table
    and the card in memory are what they were. It returns when the number
    typed is the card's own, when the validator returns [False] and when no
    such card is stored. *)
Theorem do_transfer_raises_with_validator
    (s : SimpleBankingSystem.t) (c : Card.t) (number : string)
    (amount : Py.line) (b0 : Z) :
  SimpleBankingSystem.card s = Some c ->
  Db.select_balance (SimpleBankingSystem.tbl s) (Card.number c) = Some b0 ->
  Db.int64 (Card.balance c) = true ->
  (forall e : exn,
     fst (SimpleBankingSystem.do_transfer number amount s) = Raise e ->
     (e = IndexError \/ e = ValueError \/ e = OverflowError)
     /\ SimpleBankingSystem.tbl (snd (SimpleBankingSystem.do_transfer number amount s))
        = SimpleBankingSystem.tbl s
     /\ SimpleBankingSystem.card (snd (SimpleBankingSystem.do_transfer number amount s))
        = SimpleBankingSystem.card s)
  /\ (forall e : exn,
        number <> Card.number c ->
        Card.is_valid_card_number number = Raise e ->
        (e = IndexError \/ e = ValueError)
        /\ SimpleBankingSystem.do_transfer number amount s
           = (Raise e, SimpleBankingSystem.printed s ["Transfer"]))
  /\ (number <> Card.number c ->
      Card.is_valid_card_number number = Ok true ->
      Db.select_by_number (SimpleBankingSystem.tbl s) number <> None ->
      amount = Py.OtherLine ->
      SimpleBankingSystem.do_transfer number amount s
      = (Raise ValueError, SimpleBankingSystem.printed s ["Transfer"]))
  /\ (number = Card.number c
      \/ Card.is_valid_card_number number = Ok false
      \/ (Card.is_valid_card_number number = Ok true
          /\ Db.select_by_number (SimpleBankingSystem.tbl s) number = None) ->
      fst (SimpleBankingSystem.do_transfer number amount s) = Ok tt).
Proof.
  intros Hc Hb0 H64. split; [|split; [|split]].
  - intros e He.
    destruct (transfer_outcomes s c number amount b0 Hc Hb0)
      as [(Ht & Hcard & _ & Hres) | [(m & _ & _ & _ & Hle & Hopp & Hres & _)
                                    | (m & _ & _ & _ & Hrun)]].
    + split; [|split; assumption]. rewrite He in Hres.
      destruct Hres as [H | [H | [H | [H | H]]]];
        first [discriminate H | injection H as ->; tauto].
    + exfalso. destruct Hres as [Hres | [_ Hres]]; [congruence|].
      rewrite (int64_covered m _ H64 Hle Hopp) in Hres. discriminate.
    + rewrite Hrun in He. discriminate.
  - intros e Hne Hv. pose proof (is_valid_raises _ _ Hv) as He.
    split; [exact He|].
    apply (transfer_validator_raises s c number amount Hc e Hne Hv).
    intros msg ->. destruct He; discriminate.
  - intros Hne Hv Hsel Ha.
    destruct (Db.select_by_number (SimpleBankingSystem.tbl s) number)
      as [[[n p] bal]|] eqn:E; [|congruence].
    apply (transfer_bad_amount s c number amount Hc n p bal Hne Hv E Ha).
  - intros Hok.
    destruct (decide (number = Card.number c)) as [E|Hne].
    { rewrite (transfer_same_account s c number amount Hc E). reflexivity. }
    destruct Hok as [E | [Hv | [Hv Hsel]]]; [contradiction | |].
    + rewrite (transfer_mistake s c number amount Hc Hne Hv). reflexivity.
    + rewrite (transfer_no_such_card s c number amount Hc Hne Hv Hsel). reflexivity.
Qed.

Lemma do_transfer_raises_with_validator_witness :
  SimpleBankingSystem.do_transfer "4000-0000" 10 SimpleBankingSystem.scenario
  = (Raise ValueError,
     SimpleBankingSystem.printed SimpleBankingSystem.scenario ["Transfer"])
  /\ SimpleBankingSystem.do_transfer SimpleBankingSystem.card_b Py.OtherLine
       SimpleBankingSystem.scenario
     = (Raise ValueError,
        SimpleBankingSystem.printed SimpleBankingSystem.scenario ["Transfer"])
  /\ SimpleBankingSystem.tbl
       (snd (SimpleBankingSystem.do_transfer SimpleBankingSystem.card_b (- 2 ^ 63)
               SimpleBankingSystem.scenario))
     = SimpleBankingSystem.tbl SimpleBankingSystem.scenario.
Proof.
  pose (c := Card.mk SimpleBankingSystem.card_a "0001" 60).
  assert (Hc : SimpleBankingSystem.card SimpleBankingSystem.scenario = Some c)
    by (vm_compute; reflexivity).
  assert (Hb : Db.select_balance (SimpleBankingSystem.tbl SimpleBankingSystem.scenario)
                 (Card.number c) = Some 60)
    by (vm_compute; reflexivity).
  split; [|split].
  - apply (proj1 (proj2 (do_transfer_raises_with_validator SimpleBankingSystem.scenario
                           c "4000-0000" 10 60 Hc Hb eq_refl))
             ValueError);
      [discriminate | vm_compute; reflexivity].
  - apply (proj1 (proj2 (proj2 (do_transfer_raises_with_validator
                                  SimpleBankingSystem.scenario
                                  c SimpleBankingSystem.card_b Py.OtherLine 60
                                  Hc Hb eq_refl))));
      [discriminate | vm_compute; reflexivity | vm_compute; discriminate | reflexivity].
  - apply (proj1 (do_transfer_raises_with_validator SimpleBankingSystem.scenario
                    c SimpleBankingSystem.card_b (- 2 ^ 63) 60 Hc Hb eq_refl)
             OverflowError).
    vm_compute. reflexivity.
Defined.

(** ** Two neighbouring digits exchanged *)

Section Transposition.

Lemma rev_two_middle (ds1 ds2 : list Z) (x y : Z) :
  rev (ds1 ++ x :: y :: ds2) = rev ds2 ++ y :: x :: rev ds1.
Proof.
  rewrite rev_app_distr. cbn [rev]. rewrite <- !app_assoc. reflexivity.
Qed.

Lemma sum_two_middle (ds1 ds2 : list Z) :
  exists p : bool, forall x y : Z,
    LuhnSpec.sum_from_right (rev (ds1 ++ x :: y :: ds2)) false
    = LuhnSpec.sum_from_right (rev ds2) false
      + (if p then LuhnSpec.double y else y)
      + (if p then x else LuhnSpec.double x)
      + LuhnSpec.sum_from_right (rev ds1) p.
Proof.
  destruct (sum_from_right_split (rev ds2) false) as [p Hp].
  exists p. intros x y. rewrite rev_two_middle, Hp.
  cbn [LuhnSpec.sum_from_right]. rewrite negb_involutive.
  destruct p; cbn [negb]; lia.
Qed.

Lemma ints_of_two_middle (s1 s2 : string) (a b : ascii) (ds1 ds2 : list Z) (x y : Z) :
  Py.ints_of_string s1 = Ok ds1 -> Py.ints_of_string s2 = Ok ds2 ->
  Py.int_of_char a = Ok x -> Py.int_of_char b = Ok y ->
  Py.ints_of_string (s1 +:+ String a (String b s2)) = Ok (ds1 ++ x :: y :: ds2).
Proof.
  intros H1 H2 Ha Hb. apply ints_of_string_app; [exact H1|].
  cbn [Py.ints_of_string]. rewrite Ha, Hb, H2. reflexivity.
Qed.

Lemma is_valid_two_middle (s1 s2 : string) (a b : ascii) (ds1 ds2 : list Z) (x y : Z) :
  Py.ints_of_string s1 = Ok ds1 -> Py.ints_of_string s2 = Ok ds2 ->
  Py.int_of_char a = Ok x -> Py.int_of_char b = Ok y ->
  Card.is_valid_card_number (s1 +:+ String a (String b s2))
  = Ok (bool_decide
          (LuhnSpec.sum_from_right (rev (ds1 ++ x :: y :: ds2)) false mod 10 = 0)).
Proof.
  intros H1 H2 Ha Hb.
  pose proof (ints_of_two_middle _ _ _ _ _ _ _ _ H1 H2 Ha Hb) as Hints.
  assert (Hall : all_digits (s1 +:+ String a (String b s2)) = true)
    by (eapply ints_of_string_all_digits; exact Hints).
  assert (Hne : s1 +:+ String a (String b s2) <> EmptyString)
    by (destruct s1; discriminate).
  destruct (is_valid_digits _ Hall Hne) as (ds & Hds & _ & Hv).
  rewrite Hints in Hds. injection Hds as <-. exact Hv.
Qed.

End Transposition.

(** X19. [is_valid_card_number] catches two neighbouring digits exchanged,
    except 0 and 9: if a number of decimal digits is accepted, the number
    with two different neighbouring digits exchanged is rejected, unless the
    two digits are 0 and 9; exchanging a 0 and a 9 next to each other never
    changes the answer. *)
Theorem is_valid_card_number_transposition (s1 s2 : string) (a b : ascii) :
  all_digits (s1 +:+ String a (String b s2)) = true ->
  (a <> b ->
   ~ (a = "0"%char /\ b = "9"%char) ->
   ~ (a = "9"%char /\ b = "0"%char) ->
   Card.is_valid_card_number (s1 +:+ String a (String b s2)) = Ok true ->
   Card.is_valid_card_number (s1 +:+ String b (String a s2)) = Ok false)
  /\ (a = "0"%char -> b = "9"%char ->
      Card.is_valid_card_number (s1 +:+ String b (String a s2))
      = Card.is_valid_card_number (s1 +:+ String a (String b s2))).
Proof.
  intros Hall. rewrite all_digits_app in Hall. cbn [all_digits] in Hall.
  apply andb_true_iff in Hall as [H1 H2]. apply andb_true_iff in H2 as [Ha H2].
  apply andb_true_iff in H2 as [Hb H2].
  destruct (ints_of_string_digits s1 H1) as (ds1 & Hds1 & _ & _).
  destruct (ints_of_string_digits s2 H2) as (ds2 & Hds2 & _ & _).
  destruct (int_of_char_digit a Ha) as (x & Hx & Hxd & _).
  destruct (int_of_char_digit b Hb) as (y & Hy & Hyd & _).
  rewrite (is_valid_two_middle s1 s2 a b ds1 ds2 x y Hds1 Hds2 Hx Hy).
  rewrite (is_valid_two_middle s1 s2 b a ds1 ds2 y x Hds1 Hds2 Hy Hx).
  destruct (sum_two_middle ds1 ds2) as [p Hp]. rewrite !Hp.
  set (A := LuhnSpec.sum_from_right (rev ds2) false).
  set (B := LuhnSpec.sum_from_right (rev ds1) p).
  split.
  - intros Hne H09 H90 Hvalid. injection Hvalid as Hsum.
    apply bool_decide_eq_true in Hsum. f_equal.
    apply bool_decide_eq_false_2. intros Hsum'.
    apply Z.mod_divide in Hsum; [|lia]. apply Z.mod_divide in Hsum'; [|lia].
    destruct Hsum as [k Hk], Hsum' as [k' Hk'].
    assert (Hcases : x = y \/ (x = 0 /\ y = 9) \/ (x = 9 /\ y = 0)).
    { unfold is_decimal, LuhnSpec.double in *.
      destruct p; destruct (Z.ltb_spec 9 (x * 2)); destruct (Z.ltb_spec 9 (y * 2)); lia. }
    destruct Hcases as [E|[[E1 E2]|[E1 E2]]].
    + subst y. apply Hne. eapply int_of_char_inj; eassumption.
    + subst x y. apply H09. split; eapply int_of_char_inj; try eassumption; reflexivity.
    + subst x y. apply H90. split; eapply int_of_char_inj; try eassumption; reflexivity.
  - intros -> ->. vm_compute in Hx, Hy. injection Hx as <-. injection Hy as <-.
    match goal with
    | |- Ok (bool_decide (?L mod 10 = 0)) = Ok (bool_decide (?R mod 10 = 0)) =>
        replace L with R by (destruct p; unfold LuhnSpec.double; simpl; lia)
    end.
    reflexivity.
Qed.

Lemma is_valid_card_number_transposition_witness :
  Card.is_valid_card_number ("400000844" +:+ String "4"%char (String "9"%char "33403"))
  = Ok false.
Proof.
  apply (proj1 (is_valid_card_number_transposition "400000844" "33403"
                  "9"%char "4"%char ltac:(reflexivity)));
    [discriminate | intros [E _]; discriminate | intros [_ E]; discriminate
    | vm_compute; reflexivity].
Defined.
